(** * CLI Assistant: the command registry, the persistent store and the
    bounded history of [cli_assistant.py], embedded in Rocq.

    Conventions of the embedding.
    - A Python [str] is a [string] whose characters are the code points
      U+0000 to U+00FF; [str.lower], [str.split], [str.strip] and [int]
      are written out for that range.
    - Python integers are [Z]. The limits of an interpreter (recursion
      depth, the digit limit of the conversions between [int] and [str])
      are not modelled.
    - The collections are typed: notes are a dictionary from titles to
      [note] records, todos a list of [todo] records, history a list of
      [history_entry] records. The constructor, which fills them with
      whatever [load_json] returns, is outside the embedding.
    - The methods of [CLIAssistant] are computations in a state and
      exception monad [M] over the record [assistant], which holds the
      three collections together with the part of the outside world they
      act on: the files of the data directory, the clock and standard
      output.
    - A file holds text, or bytes that the text decoder of the platform
      rejects; a directory does or does not take new entries.
    - Everything the program takes from its host (the JSON library, the
      clock, directory walks, floating-point display, what argparse
      does with a word that begins with '-') is a field of the classes
      [JsonCodec] and [Host].
    - [format_bytes] is written out on its own, for the integer sizes
      below 2^53, on which its floating-point arithmetic is exact. *)

From Stdlib Require Import ZArith Ascii String List Lia.
From stdpp Require Import base tactics option list gmap strings pretty.

Local Open Scope string_scope.
Local Open Scope list_scope.
Local Open Scope Z_scope.

(** ** Python strings *)

Module PyStr.

(** [c.isspace()] for a code point below 256. *)
Definition is_space (c : ascii) : bool :=
  match c with
  | "009" | "010" | "011" | "012" | "013"
  | "028" | "029" | "030" | "031" | " " | "133" | "160" => true
  | _ => false
  end%char.

(** [c.lower()]: A-Z and the upper-case letters of U+00C0..U+00DE
    (all but the multiplication sign U+00D7) move up by 32. *)
Definition lower_char (c : ascii) : ascii :=
  let n := nat_of_ascii c in
  if ((65 <=? n) && (n <=? 90))%nat then ascii_of_nat (n + 32)
  else if ((192 <=? n) && (n <=? 222) && negb (n =? 215))%nat
       then ascii_of_nat (n + 32)
  else c.

Fixpoint lower (s : string) : string :=
  match s with
  | EmptyString => EmptyString
  | String c s' => String (lower_char c) (lower s')
  end.

(** [c.isupper()] for a code point below 256. *)
Definition is_upper (c : ascii) : bool :=
  let n := nat_of_ascii c in
  (((65 <=? n) && (n <=? 90))
   || ((192 <=? n) && (n <=? 222) && negb (n =? 215)))%nat.

(** [s.split()] on the list of characters: maximal runs of
    characters that are not white space. [cur] is the run being read,
    latest character first. *)
Fixpoint split_go (cur : list ascii) (s : list ascii) : list (list ascii) :=
  match s with
  | [] => match cur with [] => [] | _ => [rev cur] end
  | c :: s' =>
      if is_space c
      then match cur with
           | [] => split_go [] s'
           | _ => rev cur :: split_go [] s'
           end
      else split_go (c :: cur) s'
  end.

Definition split (s : string) : list string :=
  map string_of_list_ascii (split_go [] (list_ascii_of_string s)).

(** Splitting on white space, as a relation: white space is dropped,
    and a token is a run of other characters that ends at white space
    or at the end of the text. *)
Inductive splits : list ascii -> list (list ascii) -> Prop :=
  | splits_end : splits [] []
  | splits_space c s ts :
      is_space c = true -> splits s ts -> splits (c :: s) ts
  | splits_token t s ts :
      t <> [] ->
      forallb (fun c => negb (is_space c)) t = true ->
      match s with c :: _ => is_space c = true | [] => True end ->
      splits s ts -> splits (t ++ s) (t :: ts).

(** [s.strip()]. *)
Fixpoint lstrip_chars (s : list ascii) : list ascii :=
  match s with
  | c :: s' => if is_space c then lstrip_chars s' else s
  | [] => []
  end.

Definition strip_chars (s : list ascii) : list ascii :=
  rev (lstrip_chars (rev (lstrip_chars s))).

Definition strip (s : string) : string :=
  string_of_list_ascii (strip_chars (list_ascii_of_string s)).

(** [sep.join(l)]. *)
Definition join (sep : string) (l : list string) : string :=
  String.concat sep l.

(** [s[:n]]. *)
Definition take (n : nat) (s : string) : string :=
  String.substring 0 n s.

(** [c in s] for a character and [k in s] for a substring. *)
Definition mem_char (c : ascii) (s : string) : bool :=
  existsb (Ascii.eqb c) (list_ascii_of_string s).

Fixpoint contains (k s : string) : bool :=
  String.prefix k s
  || match s with
     | EmptyString => false
     | String _ s' => contains k s'
     end.

(** [all(c in allowed for c in s)]. *)
Definition all_in (allowed s : string) : bool :=
  forallb (fun c => mem_char c allowed) (list_ascii_of_string s).

(** [str(n)] for an integer, and [f"{n:2d}"]. *)
Definition of_Z (n : Z) : string := pretty n.

Definition pad2 (n : Z) : string :=
  let s := of_Z n in
  if (String.length s <? 2)%nat then " " +:+ s else s.

(** [int(s)]: white space around the literal is dropped, one sign is
    allowed, and single underscores may separate digits. [None] is
    [ValueError].

    The white space of [int] is narrower than that of [str.strip]: it
    is C's [isspace] on the characters below U+0080, so the separators
    U+001C to U+001F stay, and [str.isspace] on the others. *)
Definition is_int_space (c : ascii) : bool :=
  match c with
  | "009" | "010" | "011" | "012" | "013" | " " | "133" | "160" => true
  | _ => false
  end%char.

Fixpoint int_lstrip_chars (s : list ascii) : list ascii :=
  match s with
  | c :: s' => if is_int_space c then int_lstrip_chars s' else s
  | [] => []
  end.

Definition int_strip_chars (s : list ascii) : list ascii :=
  rev (int_lstrip_chars (rev (int_lstrip_chars s))).

Definition digit (c : ascii) : option Z :=
  let n := nat_of_ascii c in
  if ((48 <=? n) && (n <=? 57))%nat then Some (Z.of_nat n - 48) else None.

Fixpoint digits_go (acc : Z) (after_digit : bool) (s : list ascii) : option Z :=
  match s with
  | [] => if after_digit then Some acc else None
  | c :: s' =>
      match digit c with
      | Some d => digits_go (10 * acc + d) true s'
      | None =>
          if Ascii.eqb c "_" && after_digit then digits_go acc false s'
          else None
      end
  end.

Definition to_Z (s : string) : option Z :=
  match int_strip_chars (list_ascii_of_string s) with
  | "+"%char :: r => digits_go 0 false r
  | "-"%char :: r => Z.opp <$> digits_go 0 false r
  | r => digits_go 0 false r
  end.

(** [c] is a decimal digit. *)
Definition is_digit (c : ascii) : bool :=
  match digit c with Some _ => true | None => false end.

(** The value of a run of digits read after [acc]. *)
Definition dval (ds : list ascii) (acc : Z) : Z :=
  fold_left (fun a c => 10 * a + default 0 (digit c)) ds acc.

End PyStr.

(** ** Exceptions *)

Inductive exn_class :=
  | OSError | PermissionError | FileNotFoundError
  | IsADirectoryError | NotADirectoryError
  | ValueError | JSONDecodeError | UnicodeDecodeError
  | OtherException
  | SystemExit | KeyboardInterrupt | EOFError.

Record exn := Exn { exn_class_of : exn_class; exn_msg : string }.

(** [issubclass(c, d)] on the classes above. [IOError] is [OSError]. *)
Definition issubclass (c d : exn_class) : bool :=
  match d, c with
  | OSError, (OSError | PermissionError | FileNotFoundError
              | IsADirectoryError | NotADirectoryError) => true
  | PermissionError, PermissionError => true
  | FileNotFoundError, FileNotFoundError => true
  | IsADirectoryError, IsADirectoryError => true
  | NotADirectoryError, NotADirectoryError => true
  | ValueError, (ValueError | JSONDecodeError | UnicodeDecodeError) => true
  | JSONDecodeError, JSONDecodeError => true
  | UnicodeDecodeError, UnicodeDecodeError => true
  | OtherException, OtherException => true
  | SystemExit, SystemExit => true
  | KeyboardInterrupt, KeyboardInterrupt => true
  | EOFError, EOFError => true
  | _, _ => false
  end.

(** [isinstance(e, Exception)]: all but the two [BaseException]-only
    classes. *)
Definition is_Exception (c : exn_class) : bool :=
  match c with
  | SystemExit | KeyboardInterrupt => false
  | _ => true
  end.

Definition isinstance (e : exn) (d : exn_class) : bool :=
  issubclass (exn_class_of e) d.

Inductive result (A : Type) :=
  | Ok (a : A)
  | Raise (e : exn).
Arguments Ok {A} a.
Arguments Raise {A} e.

(** ** Data model *)

(** The value of a note: [{'content': ..., 'timestamp': ...}]. *)
Record note := Note { content : string; timestamp : string }.

(** [{'task': ..., 'done': ..., 'created': ...}]. *)
Record todo := Todo { task : string; done : bool; created : string }.

(** [{'command': ..., 'timestamp': ...}]. *)
Record history_entry := HistoryEntry { command : string; stamp : string }.

(** A [dict] with string keys, in insertion order. *)
Module PyDict.
Section Ops.
Context {V : Type}.

Fixpoint get (k : string) (d : list (string * V)) : option V :=
  match d with
  | [] => None
  | (k', v) :: d' => if String.eqb k k' then Some v else get k d'
  end.

Definition mem (k : string) (d : list (string * V)) : bool :=
  match get k d with Some _ => true | None => false end.

(** [d[k] = v]: an existing key keeps its position. *)
Fixpoint set (k : string) (v : V) (d : list (string * V)) : list (string * V) :=
  match d with
  | [] => [(k, v)]
  | (k', v') :: d' =>
      if String.eqb k k' then (k, v) :: d' else (k', v') :: set k v d'
  end.

(** [del d[k]] for a key that is present. *)
Fixpoint del (k : string) (d : list (string * V)) : list (string * V) :=
  match d with
  | [] => []
  | (k', v') :: d' =>
      if String.eqb k k' then d' else (k', v') :: del k d'
  end.

Definition keys (d : list (string * V)) : list string := map fst d.
End Ops.
End PyDict.

(** Files of the host. A regular file holds text, or bytes that the
    text decoder rejects ([Garbled]). *)
Inductive contents :=
  | Text (s : string)
  | Garbled.

Inductive node :=
  | Dir (writable : bool)
  | File (readable writable : bool) (c : contents).

(** What reaches the terminal: [print(s)] and the prompt of [input]. *)
Inductive output :=
  | Line (s : string)
  | Prompt (s : string).

Record assistant := Assistant {
  notes : list (string * note);
  todos : list todo;
  history : list history_entry;
  fs : gmap string node;
  clock : nat;
  out : list output
}.

Definition set_notes (f : list (string * note) -> list (string * note)) (a : assistant) :=
  Assistant (f (notes a)) (todos a) (history a) (fs a) (clock a) (out a).
Definition set_todos (f : list todo -> list todo) (a : assistant) :=
  Assistant (notes a) (f (todos a)) (history a) (fs a) (clock a) (out a).
Definition set_history (f : list history_entry -> list history_entry) (a : assistant) :=
  Assistant (notes a) (todos a) (f (history a)) (fs a) (clock a) (out a).
Definition set_fs (f : gmap string node -> gmap string node) (a : assistant) :=
  Assistant (notes a) (todos a) (history a) (f (fs a)) (clock a) (out a).
Definition set_clock (f : nat -> nat) (a : assistant) :=
  Assistant (notes a) (todos a) (history a) (fs a) (f (clock a)) (out a).
Definition set_out (f : list output -> list output) (a : assistant) :=
  Assistant (notes a) (todos a) (history a) (fs a) (clock a) (f (out a)).

(** ** The monad of the methods *)

Definition M (A : Type) : Type := assistant -> result A * assistant.

Definition ret {A} (a : A) : M A := fun st => (Ok a, st).

Definition bind {A B} (m : M A) (k : A -> M B) : M B :=
  fun st =>
    match m st with
    | (Ok a, st') => k a st'
    | (Raise e, st') => (Raise e, st')
    end.

Definition raise {A} (e : exn) : M A := fun st => (Raise e, st).

Definition gets {A} (f : assistant -> A) : M A := fun st => (Ok (f st), st).

Definition modify (f : assistant -> assistant) : M unit := fun st => (Ok tt, f st).

Definition lift {A} (r : result A) : M A := fun st => (r, st).

(** [try: m  except <classes accepted by catches> as e: handler e]. *)
Definition try_except {A} (m : M A) (catches : exn -> bool) (handler : exn -> M A) : M A :=
  fun st =>
    match m st with
    | (Raise e, st') => if catches e then handler e st' else (Raise e, st')
    | r => r
    end.

Declare Scope py_scope.
Delimit Scope py_scope with py.
Notation "x <- m ;; k" := (bind m (fun x => k))
  (at level 100, m at next level, right associativity) : py_scope.
Notation "m ;; k" := (bind m (fun _ => k))
  (at level 100, right associativity) : py_scope.
Local Open Scope py_scope.

Definition print (s : string) : M unit :=
  modify (set_out (fun o => o ++ [Line s])).

Fixpoint for_each {A} (l : list A) (body : A -> M unit) : M unit :=
  match l with
  | [] => ret tt
  | x :: l' => body x ;; for_each l' body
  end.

(** A [for] loop that updates one local variable. *)
Fixpoint for_fold {A B} (l : list A) (b : B) (body : B -> A -> M B) : M B :=
  match l with
  | [] => ret b
  | x :: l' => b' <- body b x ;; for_fold l' b' body
  end.

(** [int(s)] *)
Definition int_ (s : string) : M Z :=
  match PyStr.to_Z s with
  | Some k => ret k
  | None =>
      raise (Exn ValueError
               ("invalid literal for int() with base 10: '" +:+ s +:+ "'"))
  end.

(** The state after more lines reached standard output. *)
Definition with_out (st : assistant) (ls : list output) : assistant :=
  set_out (fun o => o ++ ls) st.

(** What a computation leaves alone: [f] reads the same before and
    after, whether the computation returns or raises. *)
Definition keeps {A X} (f : assistant -> X) (m : M A) : Prop :=
  forall st, f (snd (m st)) = f st.

Arguments bind {A B} m k st /.
Arguments ret {A} a st /.
Arguments raise {A} e st /.
Arguments gets {A} f st /.
Arguments modify f st /.
Arguments lift {A} r st /.
Arguments try_except {A} m catches handler st /.
Arguments print s st /.

(** ** JSON documents and the host *)

(** The values [json.dump] accepts and [json.load] returns, numbers
    being integers. A [PDict] lists its items in insertion order. *)
#[warnings="-register-all"]
Inductive pyval :=
  | PNone
  | PBool (b : bool)
  | PInt (n : Z)
  | PStr (s : string)
  | PList (l : list pyval)
  | PDict (d : list (string * pyval)).

(** A [dict] has no key twice. *)
Fixpoint py_wf (v : pyval) : bool :=
  match v with
  | PList l => forallb py_wf l
  | PDict d =>
      bool_decide (NoDup (map fst d))
      && forallb (fun kv => py_wf (snd kv)) d
  | _ => true
  end.

(** The [json] module: [json_dump v] is the text [json.dump(v, f,
    indent=2)] writes, [json_load s] is [json.loads(s)] with [None] for
    [JSONDecodeError]. The law is the contract of the library on the
    values of [pyval]. *)
Class JsonCodec := {
  json_dump : pyval -> string;
  json_load : string -> option pyval;
  json_load_dump : forall v, py_wf v = true -> json_load (json_dump v) = Some v
}.

(** What a display-only collaborator does: the lines it prints, and the
    exception it lets escape, if any. *)
Definition display : Type := list string * option exn.

(** The host: clock, directories, and the collaborators whose output
    depends on the operating system or on floating-point formatting. *)
Class Host := {
  (** [datetime.datetime.now()] at the n-th reading of the clock *)
  isoformat : nat -> string;
  strftime : string -> nat -> string;
  (** [Path.home()] and [Path.cwd()] as strings, and [str(Path(s))] *)
  home : string;
  cwd : string;
  path_str : string -> string;
  (** [list(Path(dir).rglob(pat))], paths as strings *)
  rglob : gmap string node -> string -> string -> result (list string);
  (** [str(eval(e))] for an expression outside the integer fragment
      of [Arith] below *)
  host_eval : string -> result string;
  (** the bodies of [files ls], [files size], [system] and [convert] *)
  host_ls : gmap string node -> string -> display;
  host_size : gmap string node -> string -> display;
  host_system_info : gmap string node -> display;
  host_convert : list string -> display;
  (** [parser.parse_args()] on a command line with a word that begins
      with '-': the lines argparse prints on standard output, then the
      words it collects under [command] or the exception it raises *)
  host_parse_args : list string -> list string * result (list string)
}.

(** ** Integer arithmetic of [eval]

    The expressions over integer literals, [+], [-], [*], unary signs
    and parentheses, with the precedence of Python's grammar. Every
    other expression ([/], [//], [**], [.], calls, the empty tuple,
    malformed input) is left to the host's [eval]. *)
Module Arith.

Inductive token := TNum (n : Z) | TPlus | TMinus | TStar | TLParen | TRParen.

(** Reads the digits of a literal; [n] is the value so far. *)
Fixpoint lex_num (n : Z) (s : list ascii) : Z * list ascii :=
  match s with
  | c :: s' =>
      match PyStr.digit c with
      | Some d => lex_num (10 * n + d) s'
      | None => (n, s)
      end
  | [] => (n, [])
  end.

(** A literal with a leading zero is accepted only when it is [0]
    itself. *)
Fixpoint tokenize (fuel : nat) (s : list ascii) : option (list token) :=
  match fuel with
  | O => None
  | S fuel' =>
      match s with
      | [] => Some []
      | c :: s' =>
          if Ascii.eqb c " " then tokenize fuel' s'
          else if Ascii.eqb c "+" then cons TPlus <$> tokenize fuel' s'
          else if Ascii.eqb c "-" then cons TMinus <$> tokenize fuel' s'
          else if Ascii.eqb c "(" then cons TLParen <$> tokenize fuel' s'
          else if Ascii.eqb c ")" then cons TRParen <$> tokenize fuel' s'
          else if Ascii.eqb c "*" then
            match s' with
            | "*"%char :: _ => None
            | _ => cons TStar <$> tokenize fuel' s'
            end
          else
            match PyStr.digit c with
            | Some d =>
                let '(n, rest) := lex_num d s' in
                if (d =? 0) && negb (length rest =? length s')%nat then None
                else cons (TNum n) <$> tokenize fuel' rest
            | None => None
            end
      end
  end.

(** expr := term (('+' | '-') term)*, term := factor ('*' factor)*,
    factor := ('+' | '-') factor | NUMBER | '(' expr ')'. *)
Fixpoint parse_expr (fuel : nat) (ts : list token) : option (Z * list token) :=
  match fuel with
  | O => None
  | S fuel' =>
      match parse_term fuel' ts with
      | Some (v, rest) => expr_tail fuel' v rest
      | None => None
      end
  end
with expr_tail (fuel : nat) (acc : Z) (ts : list token) : option (Z * list token) :=
  match fuel with
  | O => None
  | S fuel' =>
      match ts with
      | TPlus :: r =>
          match parse_term fuel' r with
          | Some (v, rest) => expr_tail fuel' (acc + v) rest
          | None => None
          end
      | TMinus :: r =>
          match parse_term fuel' r with
          | Some (v, rest) => expr_tail fuel' (acc - v) rest
          | None => None
          end
      | _ => Some (acc, ts)
      end
  end
with parse_term (fuel : nat) (ts : list token) : option (Z * list token) :=
  match fuel with
  | O => None
  | S fuel' =>
      match parse_factor fuel' ts with
      | Some (v, rest) => term_tail fuel' v rest
      | None => None
      end
  end
with term_tail (fuel : nat) (acc : Z) (ts : list token) : option (Z * list token) :=
  match fuel with
  | O => None
  | S fuel' =>
      match ts with
      | TStar :: r =>
          match parse_factor fuel' r with
          | Some (v, rest) => term_tail fuel' (acc * v) rest
          | None => None
          end
      | _ => Some (acc, ts)
      end
  end
with parse_factor (fuel : nat) (ts : list token) : option (Z * list token) :=
  match fuel with
  | O => None
  | S fuel' =>
      match ts with
      | TPlus :: r => parse_factor fuel' r
      | TMinus :: r =>
          match parse_factor fuel' r with
          | Some (v, rest) => Some (- v, rest)
          | None => None
          end
      | TNum n :: r => Some (n, r)
      | TLParen :: r =>
          match parse_expr fuel' r with
          | Some (v, TRParen :: rest) => Some (v, rest)
          | _ => None
          end
      | _ => None
      end
  end.

Definition eval_int (s : string) : option Z :=
  let cs := list_ascii_of_string s in
  match tokenize (S (length cs)) cs with
  | Some ts =>
      match parse_expr (4 * length ts + 4) ts with
      | Some (v, []) => Some v
      | _ => None
      end
  | None => None
  end.

End Arith.

(** ** The assistant *)

Definition nl : string := String "010" EmptyString.
Definition dq : string := String "034" EmptyString.

(** The two status marks of [todo list], U+2713 and U+25CB, lie outside
    the character range of the embedding. They only ever reach standard
    output, where they stand as their UTF-8 bytes. *)
Definition check_mark : string :=
  String "226" (String "156" (String "147" EmptyString)).
Definition circle_mark : string :=
  String "226" (String "151" (String "139" EmptyString)).

(** The directory part of a path. *)
Fixpoint dirname_go (s : list ascii) : option (list ascii) :=
  match s with
  | [] => None
  | c :: s' =>
      match dirname_go s' with
      | Some d => Some (c :: d)
      | None => if Ascii.eqb c "/" then Some [] else None
      end
  end.

Definition dirname (p : string) : string :=
  match dirname_go (list_ascii_of_string p) with
  | None => "."
  | Some [] => "/"
  | Some d => string_of_list_ascii d
  end.

(** [l[-n:]] for a positive [n]. *)
Definition last_n {A} (n : nat) (l : list A) : list A :=
  drop (length l - n) l.

(** The JSON documents of the three collections. *)
Definition note_py (n : note) : pyval :=
  PDict [("content", PStr (content n)); ("timestamp", PStr (timestamp n))].

Definition notes_py (d : list (string * note)) : pyval :=
  PDict (map (fun kv => (fst kv, note_py (snd kv))) d).

Definition todo_py (t : todo) : pyval :=
  PDict [("task", PStr (task t)); ("done", PBool (done t));
         ("created", PStr (created t))].

Definition todos_py (l : list todo) : pyval := PList (map todo_py l).

Definition entry_py (e : history_entry) : pyval :=
  PDict [("command", PStr (command e)); ("timestamp", PStr (stamp e))].

Definition history_py (l : list history_entry) : pyval := PList (map entry_py l).

(** One of the three persisted collections. *)
Inductive collection :=
  | Notes (d : list (string * note))
  | Todos (l : list todo)
  | History (h : list history_entry).

Definition collection_py (X : collection) : pyval :=
  match X with
  | Notes d => notes_py d
  | Todos l => todos_py l
  | History h => history_py h
  end.

(** A [dict] of notes has no title twice. *)
Definition collection_wf (X : collection) : Prop :=
  match X with
  | Notes d => NoDup (PyDict.keys d)
  | _ => True
  end.

(** The file at [p] can be written and read back: it is a regular
    file open to both, or it is missing from a directory that takes
    new entries. *)
Definition store_ok (m : gmap string node) (p : string) : bool :=
  match m !! p with
  | Some (File r w _) => r && w
  | Some (Dir _) => false
  | None =>
      match m !! dirname p with
      | Some (Dir true) => true
      | _ => false
      end
  end.

(** What [search] prints for the matches [ms] of the walk. *)
Definition search_report (ms : list string) : list output :=
  match ms with
  | [] => [Line "No matches found"]
  | _ =>
      Line ("Found " +:+ PyStr.of_Z (Z.of_nat (length ms)) +:+ " matches:")
      :: map (fun m => Line ("  " +:+ m)) (take 20 ms)
      ++ (if (20 <? length ms)%nat
          then [Line ("  ... and " +:+ PyStr.of_Z (Z.of_nat (length ms) - 20)
                      +:+ " more")]
          else [])
  end.

Section Assistant.
Context {codec : JsonCodec} {host : Host}.

(** *** Files *)

Definition os_error (c : exn_class) (errno what path : string) : exn :=
  Exn c ("[Errno " +:+ errno +:+ "] " +:+ what +:+ ": '" +:+ path +:+ "'").

(** [file_path.exists()] *)
Definition path_exists (p : string) : M bool :=
  gets (fun st => match fs st !! p with Some _ => true | None => false end).

(** [open(file_path, 'r')] *)
Definition open_read (p : string) : M contents :=
  n <- gets (fun st => fs st !! p) ;;
  match n with
  | None => raise (os_error FileNotFoundError "2" "No such file or directory" p)
  | Some (Dir _) => raise (os_error IsADirectoryError "21" "Is a directory" p)
  | Some (File r _ c) =>
      if r then ret c
      else raise (os_error PermissionError "13" "Permission denied" p)
  end.

(** [f.read()] in text mode *)
Definition file_read (c : contents) : M string :=
  match c with
  | Text s => ret s
  | Garbled => raise (Exn UnicodeDecodeError "invalid start byte")
  end.

(** [open(file_path, 'w')]: truncates an existing file, creates a
    missing one in a directory that takes new entries. *)
Definition open_write (p : string) : M unit :=
  n <- gets (fun st => fs st !! p) ;;
  match n with
  | Some (Dir _) => raise (os_error IsADirectoryError "21" "Is a directory" p)
  | Some (File r w _) =>
      if w then modify (set_fs (insert p (File r w (Text ""))))
      else raise (os_error PermissionError "13" "Permission denied" p)
  | None =>
      d <- gets (fun st => fs st !! dirname p) ;;
      match d with
      | Some (Dir true) => modify (set_fs (insert p (File true true (Text ""))))
      | Some (Dir false) =>
          raise (os_error PermissionError "13" "Permission denied" p)
      | Some (File _ _ _) =>
          raise (os_error NotADirectoryError "20" "Not a directory" p)
      | None =>
          raise (os_error FileNotFoundError "2" "No such file or directory" p)
      end
  end.

(** [f.write(s)] on the file just opened at [p] *)
Definition file_write (p : string) (s : string) : M unit :=
  modify (set_fs (fun m =>
    match m !! p with
    | Some (File r w _) => <[p := File r w (Text s)]> m
    | _ => m
    end)).

(** [json.load(f)] *)
Definition json_load_file (f : contents) : M pyval :=
  s <- file_read f ;;
  match json_load s with
  | Some v => ret v
  | None => raise (Exn JSONDecodeError "Expecting value")
  end.

(** [datetime.datetime.now()]: the index of this reading of the clock *)
Definition now : M nat :=
  n <- gets clock ;;
  modify (set_clock S) ;;
  ret n.

Definition data_dir : string := home +:+ "/.cli_assistant".
Definition notes_file : string := data_dir +:+ "/notes.json".
Definition todos_file : string := data_dir +:+ "/todos.json".
Definition history_file : string := data_dir +:+ "/history.json".

(** *** Persistent store *)

(** The body of the [try] returns [Some v] where the source returns
    [json.load(f)] and [None] where it falls through to
    [return default]. *)
Definition load_json (file_path : string) (default : pyval) : M pyval :=
  r <- try_except
         (ex <- path_exists file_path ;;
          if ex : bool then
            f <- open_read file_path ;;
            v <- json_load_file f ;;
            ret (Some v)
          else ret None)
         (fun e => isinstance e JSONDecodeError || isinstance e OSError)
         (fun _ => ret None) ;;
  match r with
  | Some v => ret v
  | None => ret default
  end.

Definition save_json (file_path : string) (data : pyval) : M unit :=
  try_except
    (open_write file_path ;;
     file_write file_path (json_dump data))
    (fun e => isinstance e OSError)
    (fun e => print ("Error saving data: " +:+ exn_msg e)).

(** *** History log *)

Definition add_to_history (cmd : string) : M unit :=
  n <- now ;;
  let timestamp := isoformat n in
  modify (set_history (fun h => h ++ [HistoryEntry cmd timestamp])) ;;
  modify (set_history (last_n 100)) ;;
  h <- gets history ;;
  save_json history_file (history_py h).

(** *** Handlers *)

Definition help_text : string :=
  PyStr.join nl
    [ "";
      "CLI Assistant - Available Commands:";
      "";
      "General:";
      "  help          - Show this help message";
      "  time          - Show current time";
      "  date          - Show current date";
      "  clear         - Clear screen";
      "  exit/quit     - Exit the assistant";
      "";
      "Productivity:";
      "  note          - Note management (add, list, delete, search)";
      "  todo          - Todo list management (add, list, done, delete)";
      "  calc          - Calculator (basic math operations)";
      "  ";
      "System:";
      "  system        - Show system information";
      "  files         - File operations (ls, find, size)";
      "  search        - Search for files";
      "  ";
      "Utilities:";
      "  convert       - Unit conversions (length, weight, temperature)";
      "  weather       - Simple weather info (placeholder)";
      "  history       - Show command history";
      "";
      "Usage Examples:";
      "  note add " +:+ dq +:+ "Meeting notes" +:+ dq +:+ " " +:+ dq
        +:+ "Discussed project timeline" +:+ dq;
      "  todo add " +:+ dq +:+ "Buy groceries" +:+ dq;
      "  calc 15 * 8 + 32";
      "  files ls /home/user";
      "  convert 100 celsius fahrenheit";
      "        " ].

Definition show_help (args : list string) : M unit := print help_text.

Definition show_time (args : list string) : M unit :=
  n <- now ;;
  print ("Current time: " +:+ strftime "%H:%M:%S" n).

Definition show_date (args : list string) : M unit :=
  n <- now ;;
  print ("Current date: " +:+ strftime "%Y-%m-%d (%A)" n).

Definition get_weather (args : list string) : M unit :=
  print "Weather service not implemented. Use 'curl wttr.in' for weather info.".

(** [eval(expression)] followed by [str]. *)
Definition eval_str (expression : string) : M string :=
  match Arith.eval_int expression with
  | Some v => ret (PyStr.of_Z v)
  | None => lift (host_eval expression)
  end.

Definition allowed_chars : string := "0123456789+-*/.() ".

Definition calculator (args : list string) : M unit :=
  match args with
  | [] =>
      print "Usage: calc <expression>" ;;
      print "Example: calc 2 + 3 * 4"
  | _ =>
      let expression := PyStr.join " " args in
      try_except
        (if negb (PyStr.all_in allowed_chars expression) then
           print "Error: Only basic math operations allowed"
         else
           result <- eval_str expression ;;
           print (expression +:+ " = " +:+ result))
        (fun e => is_Exception (exn_class_of e))
        (fun e => print ("Error calculating: " +:+ exn_msg e))
  end.

Definition note_manager (args : list string) : M unit :=
  match args with
  | [] => print "Usage: note <add|list|delete|search> [arguments]"
  | a0 :: _ =>
      let action := PyStr.lower a0 in
      if String.eqb action "add" then
        if (length args <? 3)%nat then print "Usage: note add <title> <content>"
        else
          let title := nth 1 args "" in
          let content := PyStr.join " " (drop 2 args) in
          n <- now ;;
          let timestamp := isoformat n in
          modify (set_notes (PyDict.set title (Note content timestamp))) ;;
          ns <- gets notes ;;
          save_json notes_file (notes_py ns) ;;
          print ("Note '" +:+ title +:+ "' added successfully")
      else if String.eqb action "list" then
        ns <- gets notes ;;
        match ns with
        | [] => print "No notes found"
        | _ =>
            for_each ns (fun kv =>
              print (nl +:+ fst kv +:+ ":") ;;
              print ("  " +:+ content (snd kv)) ;;
              print ("  Created: " +:+ PyStr.take 19 (timestamp (snd kv))))
        end
      else if String.eqb action "delete" then
        if (length args <? 2)%nat then print "Usage: note delete <title>"
        else
          let title := nth 1 args "" in
          ns <- gets notes ;;
          if PyDict.mem title ns then
            modify (set_notes (PyDict.del title)) ;;
            ns' <- gets notes ;;
            save_json notes_file (notes_py ns') ;;
            print ("Note '" +:+ title +:+ "' deleted")
          else print ("Note '" +:+ title +:+ "' not found")
      else if String.eqb action "search" then
        if (length args <? 2)%nat then print "Usage: note search <keyword>"
        else
          let keyword := PyStr.lower (nth 1 args "") in
          ns <- gets notes ;;
          found <- for_fold ns false (fun found kv =>
            if PyStr.contains keyword (PyStr.lower (fst kv))
               || PyStr.contains keyword (PyStr.lower (content (snd kv)))
            then
              print (nl +:+ fst kv +:+ ":") ;;
              print ("  " +:+ content (snd kv)) ;;
              ret true
            else ret found) ;;
          if negb found then print "No notes found matching the keyword"
          else ret tt
      else ret tt
  end.

(** [enumerate(l, 1)] *)
Definition enumerate1 {A} (l : list A) : list (Z * A) :=
  imap (fun i x => (Z.of_nat i + 1, x)) l.

Definition mark_done (t : todo) : todo := Todo (task t) true (created t).

Definition todo_manager (args : list string) : M unit :=
  match args with
  | [] => print "Usage: todo <add|list|done|delete> [arguments]"
  | a0 :: _ =>
      let action := PyStr.lower a0 in
      if String.eqb action "add" then
        if (length args <? 2)%nat then print "Usage: todo add <task description>"
        else
          let task := PyStr.join " " (drop 1 args) in
          n <- now ;;
          let todo_item := Todo task false (isoformat n) in
          modify (set_todos (fun l => l ++ [todo_item])) ;;
          ts <- gets todos ;;
          save_json todos_file (todos_py ts) ;;
          print ("Todo added: " +:+ task)
      else if String.eqb action "list" then
        ts <- gets todos ;;
        match ts with
        | [] => print "No todos found"
        | _ =>
            for_each (enumerate1 ts) (fun it =>
              let status := if done (snd it) then check_mark else circle_mark in
              print (PyStr.of_Z (fst it) +:+ ". " +:+ status +:+ " "
                     +:+ task (snd it)))
        end
      else if String.eqb action "done" then
        if (length args <? 2)%nat then print "Usage: todo done <task_number>"
        else
          try_except
            (k <- int_ (nth 1 args "") ;;
             let task_num := k - 1 in
             ts <- gets todos ;;
             if (0 <=? task_num) && (task_num <? Z.of_nat (length ts)) then
               modify (set_todos (alter mark_done (Z.to_nat task_num))) ;;
               ts' <- gets todos ;;
               save_json todos_file (todos_py ts') ;;
               print ("Todo marked as done: "
                      +:+ from_option task "" (ts' !! Z.to_nat task_num))
             else print "Invalid task number")
            (fun e => isinstance e ValueError)
            (fun _ => print "Task number must be a number")
      else if String.eqb action "delete" then
        if (length args <? 2)%nat then print "Usage: todo delete <task_number>"
        else
          try_except
            (k <- int_ (nth 1 args "") ;;
             let task_num := k - 1 in
             ts <- gets todos ;;
             if (0 <=? task_num) && (task_num <? Z.of_nat (length ts)) then
               let deleted_task := ts !! Z.to_nat task_num in
               modify (set_todos (delete (Z.to_nat task_num))) ;;
               ts' <- gets todos ;;
               save_json todos_file (todos_py ts') ;;
               print ("Todo deleted: " +:+ from_option task "" deleted_task)
             else print "Invalid task number")
            (fun e => isinstance e ValueError)
            (fun _ => print "Task number must be a number")
      else ret tt
  end.

(** The lines of a collaborator, then the exception it lets escape. *)
Definition emit (d : display) : M unit :=
  for_each (fst d) print ;;
  match snd d with
  | Some e => raise e
  | None => ret tt
  end.

Definition file_operations (args : list string) : M unit :=
  match args with
  | [] => print "Usage: files <ls|find|size> [path]"
  | a0 :: rest =>
      let action := PyStr.lower a0 in
      let path := match rest with p :: _ => path_str p | [] => cwd end in
      if String.eqb action "ls" then
        m <- gets fs ;; emit (host_ls m path)
      else if String.eqb action "size" then
        m <- gets fs ;; emit (host_size m path)
      else ret tt
  end.

Definition system_info (args : list string) : M unit :=
  m <- gets fs ;; emit (host_system_info m).

Definition unit_converter (args : list string) : M unit :=
  if (length args <? 3)%nat then
    print "Usage: convert <value> <from_unit> <to_unit>" ;;
    print "Supported: celsius/fahrenheit, kg/lbs, m/ft, km/miles"
  else emit (host_convert args).

Definition search_files (args : list string) : M unit :=
  match args with
  | [] => print "Usage: search <filename_pattern> [directory]"
  | pattern :: rest =>
      let directory := match rest with d :: _ => path_str d | [] => cwd end in
      try_except
        (m <- gets fs ;;
         matches <- lift (rglob m directory ("*" +:+ pattern +:+ "*")) ;;
         match matches with
         | _ :: _ =>
             print ("Found " +:+ PyStr.of_Z (Z.of_nat (length matches))
                    +:+ " matches:") ;;
             for_each (take 20 matches) (fun match_ => print ("  " +:+ match_)) ;;
             if (20 <? length matches)%nat then
               print ("  ... and "
                      +:+ PyStr.of_Z (Z.of_nat (length matches) - 20) +:+ " more")
             else ret tt
         | [] => print "No matches found"
         end)
        (fun e => isinstance e PermissionError)
        (fun _ => print ("Permission denied: " +:+ directory))
  end.

Definition show_history (args : list string) : M unit :=
  h <- gets history ;;
  match h with
  | [] => print "No command history"
  | _ =>
      print "Recent commands:" ;;
      for_each (enumerate1 (last_n 10 h)) (fun it =>
        let timestamp := PyStr.take 19 (stamp (snd it)) in
        print (PyStr.pad2 (fst it) +:+ ". " +:+ command (snd it)
               +:+ " (" +:+ timestamp +:+ ")"))
  end.

(** [os.system('clear')] acts on the terminal only. *)
Definition clear_screen (args : list string) : M unit := ret tt.

Definition exit_assistant (args : list string) : M unit :=
  print "Goodbye!" ;;
  raise (Exn SystemExit "0").

(** *** Command registry and dispatcher *)

Definition commands : list (string * (list string -> M unit)) :=
  [ ("help", show_help);
    ("time", show_time);
    ("date", show_date);
    ("weather", get_weather);
    ("calc", calculator);
    ("note", note_manager);
    ("todo", todo_manager);
    ("files", file_operations);
    ("system", system_info);
    ("convert", unit_converter);
    ("search", search_files);
    ("history", show_history);
    ("clear", clear_screen);
    ("exit", exit_assistant);
    ("quit", exit_assistant) ].

Definition parse_command (command_line : string) : option string * list string :=
  match PyStr.split (PyStr.strip command_line) with
  | [] => (None, [])
  | p :: parts => (Some (PyStr.lower p), parts)
  end.

Definition execute_command (cmd : string) (args : list string) : M unit :=
  match PyDict.get cmd commands with
  | Some handler =>
      add_to_history (cmd +:+ " " +:+ PyStr.join " " args) ;;
      handler args
  | None =>
      print ("Unknown command: " +:+ cmd) ;;
      print "Type 'help' for available commands"
  end.

(** *** Interactive shell *)

(** What [input] delivers. *)
Inductive input_event :=
  | InLine (s : string)
  | InInterrupt
  | InEOF.

(** The body of the loop once [input] has returned [line]. *)
Definition run_line (line : string) : M unit :=
  let command_line := PyStr.strip line in
  if String.eqb command_line "" then ret tt
  else
    match parse_command command_line with
    | (Some cmd, args) =>
        if String.eqb cmd "" then ret tt else execute_command cmd args
    | (None, _) => ret tt
    end.

(** [run] on the events standard input delivers; the end of the
    list is the end of input. *)
Fixpoint run_loop (inputs : list input_event) : M unit :=
  modify (set_out (fun o => o ++ [Prompt (nl +:+ "> ")])) ;;
  match inputs with
  | InLine line :: inputs' =>
      stop <- try_except
                (run_line line ;; ret false)
                (fun e => isinstance e KeyboardInterrupt || isinstance e EOFError)
                (fun _ => print (nl +:+ "Exiting...") ;; ret true) ;;
      if stop : bool then ret tt else run_loop inputs'
  | InInterrupt :: _ => print (nl +:+ "Exiting...")
  | InEOF :: _ | [] => print (nl +:+ "Exiting...")
  end.

Definition run (inputs : list input_event) : M unit :=
  print "Welcome to CLI Assistant!" ;;
  print "Type 'help' for available commands or 'exit' to quit." ;;
  run_loop inputs.

(** A word that argparse may read as an option or as the separator
    [--]. *)
Definition option_like (w : string) : bool := String.prefix "-" w.

(** [parser.parse_args()] on the words [argv] of the command line,
    the parser having the one positional [command] with [nargs='*'].
    Words that do not begin with '-' are collected as they are; with a
    word that does, what argparse prints, collects or raises is the
    host's. *)
Definition parse_args (argv : list string) : M (list string) :=
  if forallb (fun w => negb (option_like w)) argv then ret argv
  else
    for_each (fst (host_parse_args argv)) print ;;
    lift (snd (host_parse_args argv)).

(** [main] on the words of the command line.  The assistant is
    constructed once the command line is parsed. *)
Definition main (argv : list string) (inputs : list input_event) : M unit :=
  command <- parse_args argv ;;
  match command with
  | a0 :: command_args => execute_command (PyStr.lower a0) command_args
  | [] => run inputs
  end.

(** *** Runs of commands *)

(** A run of [note add <title> <content...>] commands. *)
Definition note_add_all (ops : list (string * list string)) : M unit :=
  for_each ops (fun op => note_manager ("add" :: fst op :: snd op)).

End Assistant.

(** ** A reference JSON codec

    An implementation of the [json] interface for the values of
    [pyval]: the layout of [indent=2], the escapes of [ensure_ascii],
    and a recursive-descent reader for integers, strings, arrays and
    objects. It instantiates [JsonCodec] in the examples. *)
Module RefJson.

Definition chars (s : string) : list ascii := list_ascii_of_string s.

Definition quote : ascii := "034".
Definition backslash : ascii := "\".

Definition hex_digit (n : nat) : ascii :=
  nth n (chars "0123456789abcdef") "0"%char.

Definition hex_val (c : ascii) : option nat :=
  let n := nat_of_ascii c in
  if ((48 <=? n) && (n <=? 57))%nat then Some (n - 48)%nat
  else if ((97 <=? n) && (n <=? 102))%nat then Some (n - 87)%nat
  else if ((65 <=? n) && (n <=? 70))%nat then Some (n - 55)%nat
  else None.

(** *** Writer *)

Definition escape_char (c : ascii) : list ascii :=
  let n := nat_of_ascii c in
  if Ascii.eqb c quote then [backslash; quote]
  else if Ascii.eqb c backslash then [backslash; backslash]
  else if (n =? 10)%nat then [backslash; "n"%char]
  else if (n =? 13)%nat then [backslash; "r"%char]
  else if (n =? 9)%nat then [backslash; "t"%char]
  else if (n =? 8)%nat then [backslash; "b"%char]
  else if (n =? 12)%nat then [backslash; "f"%char]
  else if ((n <? 32) || (126 <? n))%nat then
    [backslash; "u"%char; "0"%char; "0"%char;
     hex_digit (n / 16); hex_digit (n mod 16)]
  else [c].

Definition print_string (s : string) : list ascii :=
  quote :: flat_map escape_char (chars s) ++ [quote].

Definition newline_indent (n : nat) : list ascii :=
  "010"%char :: repeat " "%char n.

Fixpoint join_items (sep : list ascii) (items : list (list ascii)) : list ascii :=
  match items with
  | [] => []
  | [i] => i
  | i :: rest => i ++ sep ++ join_items sep rest
  end.

Fixpoint print (ind : nat) (v : pyval) : list ascii :=
  match v with
  | PNone => chars "null"
  | PBool true => chars "true"
  | PBool false => chars "false"
  | PInt n => chars (pretty n)
  | PStr s => print_string s
  | PList [] => chars "[]"
  | PList l =>
      "["%char :: newline_indent (ind + 2)
      ++ join_items (","%char :: newline_indent (ind + 2))
           (map (print (ind + 2)) l)
      ++ newline_indent ind ++ ["]"%char]
  | PDict [] => chars "{}"
  | PDict d =>
      "{"%char :: newline_indent (ind + 2)
      ++ join_items (","%char :: newline_indent (ind + 2))
           (map (fun kv => print_string (fst kv) ++ chars ": "
                           ++ print (ind + 2) (snd kv)) d)
      ++ newline_indent ind ++ ["}"%char]
  end.

Definition dump (v : pyval) : string := string_of_list_ascii (print 0 v).

(** *** Reader *)

Definition is_ws (c : ascii) : bool :=
  match c with
  | " " | "010" | "013" | "009" => true
  | _ => false
  end%char.

Fixpoint skip_ws (s : list ascii) : list ascii :=
  match s with
  | c :: s' => if is_ws c then skip_ws s' else s
  | [] => []
  end.

Fixpoint strip_prefix (p s : list ascii) : option (list ascii) :=
  match p, s with
  | [], _ => Some s
  | c :: p', c' :: s' => if Ascii.eqb c c' then strip_prefix p' s' else None
  | _ :: _, [] => None
  end.

Definition unescape (e : ascii) : option ascii :=
  if Ascii.eqb e quote then Some quote
  else if Ascii.eqb e backslash then Some backslash
  else if Ascii.eqb e "/" then Some "/"%char
  else if Ascii.eqb e "n" then Some "010"%char
  else if Ascii.eqb e "r" then Some "013"%char
  else if Ascii.eqb e "t" then Some "009"%char
  else if Ascii.eqb e "b" then Some "008"%char
  else if Ascii.eqb e "f" then Some "012"%char
  else None.

Definition hex4 (a b c d : ascii) : option nat :=
  match hex_val a, hex_val b, hex_val c, hex_val d with
  | Some x, Some y, Some z, Some w => Some (((x * 16 + y) * 16 + z) * 16 + w)%nat
  | _, _, _, _ => None
  end.

(** The characters of a string up to its closing quote; [acc] holds
    the characters read, latest first. *)
Fixpoint parse_chars (s : list ascii) (acc : list ascii)
  : option (string * list ascii) :=
  match s with
  | [] => None
  | c :: r =>
      if Ascii.eqb c quote then Some (string_of_list_ascii (rev acc), r)
      else if Ascii.eqb c backslash then
        match r with
        | e :: r' =>
            if Ascii.eqb e "u" then
              match r' with
              | h1 :: h2 :: h3 :: h4 :: r'' =>
                  match hex4 h1 h2 h3 h4 with
                  | Some n =>
                      if (n <? 256)%nat then parse_chars r'' (ascii_of_nat n :: acc)
                      else None
                  | None => None
                  end
              | _ => None
              end
            else
              match unescape e with
              | Some c' => parse_chars r' (c' :: acc)
              | None => None
              end
        | [] => None
        end
      else if (nat_of_ascii c <? 32)%nat then None
      else parse_chars r (c :: acc)
  end.

Definition starts_fraction (s : list ascii) : bool :=
  match s with
  | c :: _ => Ascii.eqb c "." || Ascii.eqb c "e" || Ascii.eqb c "E"
  | [] => false
  end.

Definition parse_digits (s : list ascii) : option (Z * list ascii) :=
  match s with
  | c :: r =>
      match PyStr.digit c with
      | Some d =>
          let '(n, rest) := Arith.lex_num d r in
          if (d =? 0) && negb (length rest =? length r)%nat then None
          else if starts_fraction rest then None
          else Some (n, rest)
      | None => None
      end
  | [] => None
  end.

Definition parse_number (s : list ascii) : option (Z * list ascii) :=
  match s with
  | "-"%char :: r =>
      match parse_digits r with
      | Some (n, rest) => Some (- n, rest)
      | None => None
      end
  | _ => parse_digits s
  end.

(** [dict(pairs)]: a later item replaces an earlier one with its key. *)
Definition dict_of (kvs : list (string * pyval)) : list (string * pyval) :=
  fold_left (fun d kv => PyDict.set (fst kv) (snd kv) d) kvs [].

Definition head_is (c : ascii) (s : list ascii) : bool :=
  match s with
  | c' :: _ => Ascii.eqb c c'
  | [] => false
  end.

Fixpoint parse_value (fuel : nat) (s : list ascii) : option (pyval * list ascii) :=
  match fuel with
  | O => None
  | S fuel' =>
      if head_is "n" s then
        r ← strip_prefix (chars "null") s; Some (PNone, r)
      else if head_is "t" s then
        r ← strip_prefix (chars "true") s; Some (PBool true, r)
      else if head_is "f" s then
        r ← strip_prefix (chars "false") s; Some (PBool false, r)
      else if head_is quote s then
        '(str, r) ← parse_chars (tail s) []; Some (PStr str, r)
      else if head_is "[" s then
        let r := skip_ws (tail s) in
        if head_is "]" r then Some (PList [], tail r)
        else '(l, r') ← parse_elems fuel' r; Some (PList l, r')
      else if head_is "{" s then
        let r := skip_ws (tail s) in
        if head_is "}" r then Some (PDict [], tail r)
        else '(d, r') ← parse_members fuel' r; Some (PDict (dict_of d), r')
      else
        '(n, r) ← parse_number s; Some (PInt n, r)
  end
with parse_elems (fuel : nat) (s : list ascii) : option (list pyval * list ascii) :=
  match fuel with
  | O => None
  | S fuel' =>
      '(v, r) ← parse_value fuel' s;
      let r1 := skip_ws r in
      if head_is "," r1 then
        '(vs, r2) ← parse_elems fuel' (skip_ws (tail r1)); Some (v :: vs, r2)
      else if head_is "]" r1 then Some ([v], tail r1)
      else None
  end
with parse_members (fuel : nat) (s : list ascii)
  : option (list (string * pyval) * list ascii) :=
  match fuel with
  | O => None
  | S fuel' =>
      if head_is quote s then
        '(k, r) ← parse_chars (tail s) [];
        let r1 := skip_ws r in
        if head_is ":" r1 then
          '(v, r2) ← parse_value fuel' (skip_ws (tail r1));
          let r3 := skip_ws r2 in
          if head_is "," r3 then
            '(kvs, r4) ← parse_members fuel' (skip_ws (tail r3));
            Some ((k, v) :: kvs, r4)
          else if head_is "}" r3 then Some ([(k, v)], tail r3)
          else None
        else None
      else None
  end.

Definition load (s : string) : option pyval :=
  let cs := skip_ws (chars s) in
  match parse_value (S (length cs)) cs with
  | Some (v, rest) =>
      match skip_ws rest with
      | [] => Some v
      | _ => None
      end
  | None => None
  end.

(** *** Vocabulary of the read-back proof *)

(** What may follow an integer literal. *)
Definition delimited (rest : list ascii) : bool :=
  match rest with
  | c :: _ => negb (PyStr.is_digit c) && negb (starts_fraction rest)
  | [] => true
  end.

(** The characters a literal can start with are none of those the
    reader dispatches on before it tries a number. *)
Definition number_head (c : ascii) : bool :=
  PyStr.is_digit c || Ascii.eqb c "-".

(** The fuel a value needs. *)
Fixpoint sz (v : pyval) : nat :=
  match v with
  | PList l => S (list_sum (map (fun x => S (sz x)) l))
  | PDict d => S (list_sum (map (fun kv => S (sz (snd kv))) d))
  | _ => 1
  end.

(** One item of a printed object. *)
Definition item (ind : nat) (kv : string * pyval) : list ascii :=
  print_string (fst kv) ++ chars ": " ++ print ind (snd kv).

(** The reader on a printed value followed by [rest]. *)
Definition reads_back (v : pyval) : Prop :=
  forall fuel ind rest,
    py_wf v = true -> (sz v <= fuel)%nat -> delimited rest = true ->
    parse_value fuel (print ind v ++ rest) = Some (v, rest).

End RefJson.

(** ** Sizes in words

    [format_bytes] is called on the integer sizes the file system
    reports.  For a size below 2^53 the conversion to [float] and the
    divisions by [1024.0] are exact, so the value in hand is the
    fraction [num / den] with [den] a power of 1024, and [.1f] rounds
    it to the nearest tenth, a tie going to the even one. *)

(** The integer nearest to [num / den], for a positive [den]. *)
Definition round_half_even (num den : Z) : Z :=
  let q := num / den in
  let r := num mod den in
  if 2 * r <? den then q
  else if den <? 2 * r then q + 1
  else if Z.even q then q else q + 1.

(** [f"{x:.1f}"] for [x = num / den], not negative. *)
Definition format_1f (num den : Z) : string :=
  let t := round_half_even (10 * num) den in
  PyStr.of_Z (t / 10) +:+ "." +:+ PyStr.of_Z (t mod 10).

Fixpoint format_bytes_loop (units : list string) (num den : Z) : string :=
  match units with
  | unit :: units' =>
      if num <? 1024 * den then format_1f num den +:+ " " +:+ unit
      else format_bytes_loop units' num (1024 * den)
  | [] => format_1f num den +:+ " TB"
  end.

Definition format_bytes (bytes_size : Z) : string :=
  format_bytes_loop ["B"; "KB"; "MB"; "GB"] bytes_size 1.

(** ** Listings, runs and the session invariant *)

Section Runs.
Context {codec : JsonCodec} {host : Host}.

(** A run of [todo add <task...>] commands. *)
Definition todo_add_all (ops : list (list string)) : M unit :=
  for_each ops (fun op => todo_manager ("add" :: op)).

End Runs.

(** The line [todo list] prints for the item at index [i], from 0. *)
Definition todo_line (i : nat) (t : todo) : output :=
  Line (PyStr.of_Z (Z.of_nat i + 1) +:+ ". "
        +:+ (if done t then check_mark else circle_mark) +:+ " " +:+ task t).

(** The lines [note list] prints for one note. *)
Definition note_lines (kv : string * note) : list output :=
  [Line (nl +:+ fst kv +:+ ":");
   Line ("  " +:+ content (snd kv));
   Line ("  Created: " +:+ PyStr.take 19 (timestamp (snd kv)))].

(** [keyword in title.lower() or keyword in note['content'].lower()] *)
Definition note_matches (keyword : string) (kv : string * note) : bool :=
  PyStr.contains keyword (PyStr.lower (fst kv))
  || PyStr.contains keyword (PyStr.lower (content (snd kv))).

(** The lines [note search] prints for one hit. *)
Definition hit_lines (kv : string * note) : list output :=
  [Line (nl +:+ fst kv +:+ ":"); Line ("  " +:+ content (snd kv))].

(** The line [history] prints for the entry at index [i], from 0. *)
Definition history_line (i : nat) (e : history_entry) : output :=
  Line (PyStr.pad2 (Z.of_nat i + 1) +:+ ". " +:+ command e
        +:+ " (" +:+ PyStr.take 19 (stamp e) +:+ ")").

(** [open(p, 'w')] succeeds. *)
Definition can_write (m : gmap string node) (p : string) : bool :=
  match m !! p with
  | Some (File _ w _) => w
  | Some (Dir _) => false
  | None =>
      match m !! dirname p with
      | Some (Dir true) => true
      | _ => false
      end
  end.

(** A word: not empty and free of white space. *)
Definition is_word (t : string) : Prop :=
  t <> ""
  /\ forallb (fun c => negb (PyStr.is_space c)) (list_ascii_of_string t) = true.

(** Two states with the same collections and files: they differ in
    the clock and in standard output at most. *)
Definition same_data (st st' : assistant) : Prop :=
  notes st' = notes st /\ todos st' = todos st
  /\ history st' = history st /\ fs st' = fs st.

(** The file at [p] of the directory [dir] mirrors the collection
    whose JSON document is [v]: it holds the text of [v], open to
    reading and writing, or it has not been written yet, [v] is still
    the [empty] default and [dir] takes new entries. *)
Definition on_disk {codec : JsonCodec} (m : gmap string node)
    (dir p : string) (v empty : pyval) : Prop :=
  m !! p = Some (File true true (Text (json_dump v)))
  \/ (m !! p = None /\ m !! dir = Some (Dir true) /\ v = empty).

Section Session.
Context {codec : JsonCodec} {host : Host}.

(** What a session keeps true: the history is bounded, no title
    occurs twice, and each data file mirrors its collection. *)
Definition session_ok (st : assistant) : Prop :=
  (length (history st) <= 100)%nat
  /\ NoDup (PyDict.keys (notes st))
  /\ on_disk (fs st) data_dir notes_file (notes_py (notes st)) (PDict [])
  /\ on_disk (fs st) data_dir todos_file (todos_py (todos st)) (PList [])
  /\ on_disk (fs st) data_dir history_file (history_py (history st)) (PList []).

End Session.

(** A computation keeps a property of the state, whether it returns
    or raises. *)
Definition preserves {A} (P : assistant -> Prop) (m : M A) : Prop :=
  forall st, P st -> P (snd (m st)).

(** ** Sample host and states

    A host with a fixed clock format and a small directory tree, and a
    few states of the assistant, for the worked examples. *)

Definition sample_tree : list string :=
  map (fun i => "/srv/logs/app" +:+ pretty i +:+ ".log") (seqZ 1 25)
  ++ ["/srv/logs/readme.txt"].

(** The text between the two stars of the pattern [search] builds. *)
Definition glob_core (pat : string) : string :=
  String.substring 1 (String.length pat - 2) pat.

(** The usage argparse prints for [-h]. *)
Definition sample_usage : list string :=
  [ "usage: cli_assistant.py [-h] [command ...]";
    "";
    "CLI Assistant";
    "";
    "positional arguments:";
    "  command     Command to execute";
    "";
    "options:";
    "  -h, --help  show this help message and exit" ].

(** An argparse that drops the first [--] and collects the words
    after it as they are, answers [-h] and [--help] with the usage and
    rejects any other word that begins with '-'; the complaint goes to
    standard error. *)
Fixpoint sample_parse_args (argv : list string)
    : list string * result (list string) :=
  match argv with
  | [] => ([], Ok [])
  | w :: rest =>
      if String.eqb w "--" then ([], Ok rest)
      else if String.eqb w "-h" || String.eqb w "--help" then
        (sample_usage, Raise (Exn SystemExit "0"))
      else if String.prefix "-" w then ([], Raise (Exn SystemExit "2"))
      else
        match sample_parse_args rest with
        | (ls, Ok ws) => (ls, Ok (w :: ws))
        | r => r
        end
  end.

Definition sample_host : Host :=
  {| isoformat n := "2024-05-01T12:00:00.00000" +:+ pretty n;
     strftime fmt n := fmt;
     home := "/home/user";
     cwd := "/srv/logs";
     path_str p := p;
     rglob m dir pat :=
       if String.eqb dir "/root" then
         Raise (Exn PermissionError "[Errno 13] Permission denied: '/root'")
       else if String.eqb dir "/srv/logs" then
         Ok (List.filter (PyStr.contains (glob_core pat)) sample_tree)
       else Ok [];
     host_eval e := Raise (Exn OtherException "invalid syntax");
     host_ls m p := ([], None);
     host_size m p := ([], None);
     host_system_info m := ([], None);
     host_convert args := ([], None);
     host_parse_args := sample_parse_args |}.

Definition data_files : gmap string node :=
  {[ "/home/user" := Dir true; "/home/user/.cli_assistant" := Dir true ]}.

(** A fresh assistant. *)
Definition st0 : assistant := Assistant [] [] [] data_files 0 [].

(** An assistant with three todos. *)
Definition st_todos : assistant :=
  Assistant []
    [Todo "buy milk" false "2024-04-30T09:00:00";
     Todo "call Ada" true "2024-04-30T09:05:00";
     Todo "write report" false "2024-04-30T09:10:00"]
    [] data_files 0 [].

(** An assistant whose history is full. *)
Definition st_full : assistant :=
  Assistant [] []
    (HistoryEntry "date " "2024-04-30T08:00:00"
     :: replicate 99 (HistoryEntry "time " "2024-04-30T08:30:00"))
    data_files 7 [].

(** The todo file is read-only and holds an empty list. *)
Definition st_read_only : assistant :=
  Assistant [] [] []
    (<["/home/user/.cli_assistant/todos.json" := File true false (Text "[]")]>
       data_files)
    0 [].

(** The history file holds bytes that are no text, such as the single
    byte 0xFF. *)
Definition st_garbled : assistant :=
  Assistant [] [] []
    (<["/home/user/.cli_assistant/history.json" := File true true Garbled]>
       data_files)
    0 [].

(** An assistant with two notes. *)
Definition st_notes : assistant :=
  Assistant
    [("Groceries", Note "Milk and eggs" "2024-04-30T09:00:00.000001");
     ("Ideas", Note "Try the MILK tart" "2024-04-30T09:05:00.000002")]
    [] [] data_files 0 [].

(** * Properties *)

(** ** Strings *)

Module PyStrFacts.
Import PyStr.

Lemma split_go_spaces cur w :
  forallb is_space w = true ->
  split_go cur w = split_go cur [].
Proof.
  intros Hw.
  assert (Hnil : split_go [] w = []).
  { induction w as [|c w IH]; simpl in *; [done|].
    apply andb_true_iff in Hw as [-> Hw]. by apply IH. }
  destruct w as [|c w]; [done|]. simpl in *.
  apply andb_true_iff in Hw as [Hc Hw]. rewrite Hc in *.
  destruct cur; [done|]. by rewrite Hnil.
Qed.

Lemma split_go_app_spaces s w cur :
  forallb is_space w = true ->
  split_go cur (s ++ w) = split_go cur s.
Proof.
  intros Hw. revert cur.
  induction s as [|c s IH]; intros cur; simpl.
  - by apply split_go_spaces.
  - destruct (is_space c); [destruct cur|]; by rewrite ?IH.
Qed.

Lemma lstrip_chars_split s :
  exists w, s = w ++ lstrip_chars s /\ forallb is_space w = true.
Proof.
  induction s as [|c s (w & Hs & Hw)]; simpl.
  - by exists [].
  - destruct (is_space c) eqn:Hc.
    + exists (c :: w). simpl. rewrite Hc, Hw. split; [by f_equal|done].
    + by exists [].
Qed.

Lemma split_go_lstrip s :
  split_go [] (lstrip_chars s) = split_go [] s.
Proof.
  induction s as [|c s IH]; simpl; [done|].
  destruct (is_space c) eqn:Hc; [done|]. simpl. by rewrite Hc.
Qed.

Lemma forallb_rev {A} (f : A -> bool) l :
  forallb f (rev l) = forallb f l.
Proof.
  induction l as [|x l IH]; simpl; [done|].
  rewrite forallb_app, IH. simpl. rewrite andb_true_r. apply andb_comm.
Qed.

(** [split] ignores the white space that [strip] removes. *)
Lemma split_go_strip s :
  split_go [] (strip_chars s) = split_go [] s.
Proof.
  unfold strip_chars. rewrite <- (split_go_lstrip s).
  set (t := lstrip_chars s).
  destruct (lstrip_chars_split (rev t)) as (w & Hs & Hw).
  assert (Ht : t = rev (lstrip_chars (rev t)) ++ rev w).
  { by rewrite <- rev_app_distr, <- Hs, rev_involutive. }
  rewrite Ht at 2.
  rewrite split_go_app_spaces; [done|]. by rewrite forallb_rev.
Qed.

Lemma split_strip s : split (strip s) = split s.
Proof.
  unfold split, strip.
  by rewrite list_ascii_of_string_of_list_ascii, split_go_strip.
Qed.

(** The tokens, put end to end, are the characters of the line that
    are not white space; no token is empty or holds white space. *)
Lemma split_go_concat s cur :
  concat (split_go cur s) = rev cur ++ List.filter (fun c => negb (is_space c)) s.
Proof.
  revert cur. induction s as [|c s IH]; intros cur; simpl.
  - destruct cur; simpl; by rewrite ?app_nil_r.
  - destruct (is_space c) eqn:Hc; simpl.
    + destruct cur as [|c' cur]; simpl; rewrite IH; simpl; [done|].
      done.
    + rewrite IH. simpl. by rewrite <- app_assoc.
Qed.

Lemma split_go_tokens s cur :
  forallb (fun c => negb (is_space c)) cur = true ->
  Forall (fun t => t <> [] /\ forallb (fun c => negb (is_space c)) t = true)
         (split_go cur s).
Proof.
  revert cur. induction s as [|c s IH]; intros cur Hcur; simpl.
  - destruct cur as [|c' cur]; [constructor|].
    constructor; [|constructor]. split.
    + simpl. by destruct (rev cur).
    + by rewrite forallb_rev.
  - destruct (is_space c) eqn:Hc.
    + destruct cur as [|c' cur]; [by apply IH|].
      constructor; [|by apply IH]. split.
      * simpl. by destruct (rev cur).
      * by rewrite forallb_rev.
    + apply IH. simpl. by rewrite Hc.
Qed.

(** [split] computes the relation. *)
Lemma split_go_splits s cur :
  forallb (fun c => negb (is_space c)) cur = true ->
  splits (rev cur ++ s) (split_go cur s).
Proof.
  revert cur. induction s as [|c s IH]; intros cur Hcur; simpl.
  - destruct cur as [|c' cur]; [constructor|].
    apply splits_token; [| |done|constructor].
    + simpl. by destruct (rev cur).
    + by rewrite forallb_rev.
  - destruct (is_space c) eqn:Hc.
    + assert (Hs : splits (c :: s) (split_go [] s)).
      { apply splits_space; [done|]. by apply (IH []). }
      destruct cur as [|c' cur]; [done|].
      apply splits_token; [| |done|done].
      * simpl. by destruct (rev cur).
      * by rewrite forallb_rev.
    + specialize (IH (c :: cur)). simpl in IH. rewrite <- app_assoc in IH.
      apply IH. by rewrite Hc.
Qed.

(** A run without white space that ends at white space or at the end
    of the text is determined by the text. *)
Lemma token_unique (a b x y : list ascii) :
  forallb (fun c => negb (is_space c)) a = true ->
  forallb (fun c => negb (is_space c)) b = true ->
  match x with c :: _ => is_space c = true | [] => True end ->
  match y with c :: _ => is_space c = true | [] => True end ->
  a ++ x = b ++ y -> a = b /\ x = y.
Proof.
  revert b. induction a as [|c a IHa]; intros [|d b] Ha Hb Hx Hy Heq;
    simpl in *.
  - done.
  - subst x. apply andb_true_iff in Hb as [Hd _]. rewrite Hx in Hd. done.
  - subst y. apply andb_true_iff in Ha as [Hc _]. rewrite Hy in Hc. done.
  - injection Heq as -> Heq.
    apply andb_true_iff in Ha as [_ Ha]. apply andb_true_iff in Hb as [_ Hb].
    destruct (IHa b Ha Hb Hx Hy Heq) as [-> ->]. done.
Qed.

(** The relation has one solution. *)
Lemma splits_unique s ts1 ts2 : splits s ts1 -> splits s ts2 -> ts1 = ts2.
Proof.
  intros H1 H2. remember s as s2 eqn:Heq in H2. revert s2 ts2 H2 Heq.
  induction H1 as [|c s ts Hc _ IH|t s ts Ht Hns Hs _ IH];
    intros s2 ts2 H2 Heq; destruct H2 as [|c' s' ts' Hc' H2|t' s' ts' Ht' Hns' Hs' H2].
  - done.
  - done.
  - by destruct t'.
  - done.
  - simplify_eq. by eapply IH.
  - destruct t' as [|d t']; [done|]. simpl in *. simplify_eq.
    apply andb_true_iff in Hns' as [Hd _]. rewrite Hc in Hd. done.
  - by destruct t.
  - destruct t as [|d t]; [done|]. simpl in *. simplify_eq.
    apply andb_true_iff in Hns as [Hd _]. rewrite Hc' in Hd. done.
  - destruct (token_unique t t' s s' Hns Hns' Hs Hs' (eq_sym Heq)) as [-> ->].
    f_equal. by eapply IH.
Qed.

Lemma split_blank s :
  forallb is_space (list_ascii_of_string s) = true -> split s = [].
Proof.
  intros Hs. unfold split.
  by rewrite (split_go_spaces [] _ Hs).
Qed.

Lemma split_nil_blank s :
  split s = [] -> forallb is_space (list_ascii_of_string s) = true.
Proof.
  unfold split. intros Hs%map_eq_nil.
  pose proof (split_go_concat (list_ascii_of_string s) []) as Hc.
  rewrite Hs in Hc. simpl in Hc.
  induction (list_ascii_of_string s) as [|c l IH]; simpl in *; [done|].
  destruct (is_space c); simpl in *; [by apply IH|done].
Qed.

Lemma strip_blank s :
  forallb is_space (list_ascii_of_string s) = true -> strip s = "".
Proof.
  intros Hs. unfold strip, strip_chars.
  assert (Hl : forall l, forallb is_space l = true -> lstrip_chars l = []).
  { induction l as [|c l IH]; simpl; [done|].
    intros [Hc Hl]%andb_true_iff. rewrite Hc. by apply IH. }
  by rewrite (Hl _ Hs).
Qed.

End PyStrFacts.

(** ** Decimal literals *)

Module DigitFacts.
Import PyStr.

Lemma dval_app ds1 ds2 acc : dval (ds1 ++ ds2) acc = dval ds2 (dval ds1 acc).
Proof. apply fold_left_app. Qed.

Lemma digit_pretty_N_char x :
  (x < 10)%N -> digit (pretty_N_char x) = Some (Z.of_N x).
Proof.
  intros Hx.
  assert (x = 0 \/ x = 1 \/ x = 2 \/ x = 3 \/ x = 4 \/ x = 5 \/ x = 6
          \/ x = 7 \/ x = 8 \/ x = 9)%N as Hcases by lia.
  repeat (destruct Hcases as [-> | Hcases]; [done|]). by subst.
Qed.

Lemma digit_zero c : digit c = Some 0 -> c = "0"%char.
Proof.
  unfold digit. intros Hc.
  destruct (_ && _)%nat eqn:Hr; [|done].
  injection Hc as Hc.
  assert (nat_of_ascii c = 48%nat) as Hn by lia.
  by rewrite <- (ascii_nat_embedding c), Hn.
Qed.

(** The digits [pretty_N_go x s] puts in front of [s]. *)
Lemma pretty_N_go_digits x :
  exists ds,
    (forall s, list_ascii_of_string (pretty_N_go x s)
               = ds ++ list_ascii_of_string s)
    /\ forallb is_digit ds = true
    /\ (forall acc, dval ds acc = acc * 10 ^ Z.of_nat (length ds) + Z.of_N x)
    /\ (x = 0%N -> ds = [])
    /\ ((0 < x)%N -> exists c r, ds = c :: r /\ c <> "0"%char).
Proof.
  induction (N.lt_wf_0 x) as [x _ IH].
  destruct (decide (x = 0%N)) as [->|Hx].
  - exists []. split; [done|]. split; [done|]. split; [|split; [done|lia]].
    intros acc. simpl. lia.
  - assert (0 < x)%N as Hpos by lia.
    destruct (IH (x `div` 10)%N) as (ds & Hds & Hdig & Hval & Hnil & Hhd).
    { by apply N.div_lt. }
    pose proof (N.mod_lt x 10 ltac:(done)) as Hmod.
    pose proof (digit_pretty_N_char _ Hmod) as Hd.
    pose proof (N.div_mod x 10 ltac:(done)) as Hdm.
    exists (ds ++ [pretty_N_char (x `mod` 10)]).
    split; [|split; [|split; [|split]]].
    + intros s. rewrite pretty_N_go_step by done.
      rewrite Hds. simpl. by rewrite <- app_assoc.
    + rewrite forallb_app, Hdig. simpl. unfold is_digit. by rewrite Hd.
    + intros acc. rewrite dval_app, Hval. simpl. rewrite Hd. simpl.
      rewrite length_app. simpl.
      rewrite Nat2Z.inj_add, Z.pow_add_r by lia.
      change (10 ^ Z.of_nat 1) with 10. lia.
    + done.
    + intros _. destruct (decide (x `div` 10 = 0)%N) as [Hz|Hnz].
      * rewrite (Hnil Hz). eexists _, []. split; [done|]. intros Hc.
        rewrite Hc in Hd. change (digit "0") with (Some 0) in Hd.
        injection Hd as Hd. lia.
      * destruct Hhd as (c & r & -> & Hc); [lia|]. by eexists _, _.
Qed.

Lemma pretty_N_chars x :
  exists c r,
    list_ascii_of_string (pretty x) = c :: r
    /\ forallb is_digit (c :: r) = true
    /\ (forall acc, dval (c :: r) acc
                    = acc * 10 ^ Z.of_nat (length (c :: r)) + Z.of_N x)
    /\ (c = "0"%char -> r = [] /\ x = 0%N).
Proof.
  unfold pretty, pretty_N. destruct (decide (x = 0%N)) as [->|Hx].
  - eexists _, []. split; [done|]. split; [done|]. split; [|done].
    intros acc. simpl. change (nat_of_ascii "0") with 48%nat.
    change (10 ^ Z.of_nat 1) with 10. lia.
  - destruct (pretty_N_go_digits x) as (ds & Hds & Hdig & Hval & _ & Hhd).
    destruct Hhd as (c & r & -> & Hc); [lia|].
    exists c, r. rewrite Hds. simpl. rewrite app_nil_r. done.
Qed.

(** [lex_num] reads a run of digits up to a character that is none. *)
Lemma lex_num_digits ds rest acc :
  forallb is_digit ds = true ->
  match rest with c :: _ => is_digit c = false | [] => True end ->
  Arith.lex_num acc (ds ++ rest) = (dval ds acc, rest).
Proof.
  intros Hds Hrest. revert acc.
  induction ds as [|c ds IH]; intros acc; simpl.
  - destruct rest as [|c rest]; [done|]. unfold is_digit in Hrest. simpl.
    by destruct (digit c).
  - simpl in Hds. apply andb_true_iff in Hds as [Hc Hds].
    unfold is_digit in Hc. destruct (digit c) as [d|]; [|done]. simpl.
    by apply IH.
Qed.

Lemma digits_go_digits ds acc b :
  forallb is_digit ds = true ->
  digits_go acc b ds
  = if b || negb (bool_decide (ds = [])) then Some (dval ds acc) else None.
Proof.
  revert acc b. induction ds as [|c ds IH]; intros acc b Hds; simpl.
  - by destruct b.
  - simpl in Hds. apply andb_true_iff in Hds as [Hc Hds].
    unfold is_digit in Hc. destruct (digit c) as [d|]; [|done]. simpl.
    rewrite IH by done. simpl. by rewrite orb_true_r.
Qed.

Lemma is_digit_not_space c : is_digit c = true -> is_int_space c = false.
Proof.
  unfold is_digit, digit. destruct (_ && _)%nat eqn:Hr; [|done]. intros _.
  destruct (is_int_space c) eqn:Hs; [|done]. exfalso.
  destruct c as [[] [] [] [] [] [] [] []];
    vm_compute in Hr; vm_compute in Hs; congruence.
Qed.

Lemma strip_chars_id l :
  match l with c :: _ => is_int_space c = false | [] => True end ->
  match rev l with c :: _ => is_int_space c = false | [] => True end ->
  int_strip_chars l = l.
Proof.
  intros Hhd Hlast. unfold int_strip_chars.
  assert (Hl : forall l,
            match l with c :: _ => is_int_space c = false | [] => True end
            -> int_lstrip_chars l = l).
  { intros [|c l']; simpl; [done|]. by intros ->. }
  by rewrite (Hl l Hhd), (Hl _ Hlast), rev_involutive.
Qed.

Lemma digits_strip ds :
  forallb is_digit ds = true -> int_strip_chars ds = ds.
Proof.
  intros Hds. apply strip_chars_id.
  - destruct ds as [|c ds]; [done|]. simpl in Hds.
    apply andb_true_iff in Hds as [Hc _]. by apply is_digit_not_space.
  - rewrite <- PyStrFacts.forallb_rev in Hds.
    destruct (rev ds) as [|c r]; [done|]. simpl in Hds.
    apply andb_true_iff in Hds as [Hc _]. by apply is_digit_not_space.
Qed.

(** [int(str(k)) == k]. *)
Lemma to_Z_of_Z k : to_Z (of_Z k) = Some k.
Proof.
  unfold to_Z, of_Z.
  assert (Hpos : forall p,
    exists c r, list_ascii_of_string (pretty (N.pos p)) = c :: r
                /\ forallb is_digit (c :: r) = true
                /\ dval (c :: r) 0 = Z.pos p).
  { intros p. destruct (pretty_N_chars (N.pos p)) as (c & r & Hc & Hd & Hv & _).
    exists c, r. split; [done|]. split; [done|]. rewrite Hv. simpl. lia. }
  destruct k as [|p|p].
  - done.
  - destruct (Hpos p) as (c & r & Hc & Hd & Hv).
    change (pretty (Z.pos p)) with (pretty (N.pos p)).
    rewrite Hc, digits_strip by done.
    assert (c <> "+"%char /\ c <> "-"%char) as [Hp Hm].
    { simpl in Hd. apply andb_true_iff in Hd as [Hd _].
      split; intros ->; vm_compute in Hd; done. }
    transitivity (digits_go 0 false (c :: r)).
    + destruct c as [[] [] [] [] [] [] [] []]; done.
    + rewrite digits_go_digits by done.
      rewrite bool_decide_eq_false_2 by done. cbn [orb negb]. by rewrite Hv.
  - destruct (Hpos p) as (c & r & Hc & Hd & Hv).
    change (pretty (Z.neg p)) with ("-" +:+ pretty (N.pos p)).
    change (list_ascii_of_string ("-" +:+ pretty (N.pos p)))
      with ("-"%char :: list_ascii_of_string (pretty (N.pos p))).
    rewrite Hc.
    rewrite strip_chars_id.
    + rewrite digits_go_digits by done.
      rewrite bool_decide_eq_false_2 by done. cbn [orb negb]. by rewrite Hv.
    + done.
    + simpl. rewrite <- PyStrFacts.forallb_rev in Hd.
      change (rev r ++ [c]) with (rev (c :: r)).
      destruct (rev (c :: r)) as [|c' r'] eqn:Hr; simpl.
      * done.
      * simpl in Hd. apply andb_true_iff in Hd as [Hd _].
        by apply is_digit_not_space.
Qed.

End DigitFacts.

(** ** The reference codec reads back what it writes *)

Module RefJsonFacts.
Import RefJson DigitFacts.
Import PyStr (is_digit, dval).

(** *** Strings *)

Lemma parse_chars_escape c r acc :
  parse_chars (escape_char c ++ r) acc = parse_chars r (c :: acc).
Proof. destruct c as [[] [] [] [] [] [] [] []]; reflexivity. Qed.

Lemma parse_chars_flat cs r acc :
  parse_chars (flat_map escape_char cs ++ quote :: r) acc
  = Some (string_of_list_ascii (rev acc ++ cs), r).
Proof.
  revert acc. induction cs as [|c cs IH]; intros acc; simpl.
  - by rewrite app_nil_r.
  - rewrite <- app_assoc, parse_chars_escape, IH. simpl.
    by rewrite <- app_assoc.
Qed.

Lemma parse_print_string s r :
  parse_chars (tail (print_string s ++ r)) [] = Some (s, r).
Proof.
  unfold print_string. simpl. rewrite <- app_assoc. simpl.
  rewrite parse_chars_flat. simpl. unfold chars.
  by rewrite string_of_list_ascii_of_string.
Qed.

(** *** White space *)

Lemma skip_ws_indent n s : skip_ws (newline_indent n ++ s) = skip_ws s.
Proof.
  unfold newline_indent. simpl. induction n as [|n IH]; simpl; done.
Qed.

(** *** Numbers *)

Lemma number_head_dispatch c r :
  number_head c = true ->
  head_is "n" (c :: r) = false /\ head_is "t" (c :: r) = false
  /\ head_is "f" (c :: r) = false /\ head_is quote (c :: r) = false
  /\ head_is "[" (c :: r) = false /\ head_is "{" (c :: r) = false
  /\ head_is "]" (c :: r) = false /\ is_ws c = false.
Proof.
  destruct c as [[] [] [] [] [] [] [] []]; vm_compute; intros Hc;
    try discriminate Hc; repeat split.
Qed.

Lemma parse_digits_pretty (x : N) rest :
  delimited rest = true ->
  parse_digits (chars (pretty x) ++ rest) = Some (Z.of_N x, rest).
Proof.
  intros Hrest.
  destruct (pretty_N_chars x) as (c & r & Hc & Hd & Hv & Hz).
  unfold chars. rewrite Hc. simpl in Hd |- *.
  apply andb_true_iff in Hd as [Hdc Hdr].
  pose proof (Hv 0) as Hv0. simpl in Hv0.
  unfold is_digit in Hdc. destruct (PyStr.digit c) as [d|] eqn:Hdig; [|done].
  simpl in Hv0.
  rewrite lex_num_digits; [|done|].
  2:{ destruct rest as [|c' rest]; [done|]. simpl in Hrest.
      apply andb_true_iff in Hrest as [Hr _]. by destruct (is_digit c'). }
  fold (dval r (10 * 0 + d)) in Hv0.
  replace (10 * 0 + d) with d in Hv0 by lia.
  assert (Hlead : (d =? 0) && negb (length rest =? length (r ++ rest))%nat = false).
  { destruct (Z.eqb_spec d 0) as [->|_]; [|done].
    apply digit_zero in Hdig. destruct (Hz Hdig) as [-> _]. simpl.
    by rewrite Nat.eqb_refl. }
  rewrite Hlead.
  assert (Hfr : starts_fraction rest = false).
  { destruct rest as [|c' rest]; [done|]. simpl in Hrest.
    apply andb_true_iff in Hrest as [_ Hr]. by apply negb_true_iff in Hr. }
  rewrite Hfr. f_equal. f_equal. lia.
Qed.

Lemma pretty_Z_head (n : Z) :
  exists c r, chars (pretty n) = c :: r /\ number_head c = true.
Proof.
  destruct n as [|p|p].
  - by eexists _, _.
  - destruct (pretty_N_chars (N.pos p)) as (c & r & Hc & Hd & _).
    exists c, r. split; [done|]. simpl in Hd.
    apply andb_true_iff in Hd as [Hd _]. unfold number_head. by rewrite Hd.
  - by eexists _, _.
Qed.

Lemma parse_number_pretty (n : Z) rest :
  delimited rest = true ->
  parse_number (chars (pretty n) ++ rest) = Some (n, rest).
Proof.
  intros Hrest. destruct n as [|p|p].
  - apply (parse_digits_pretty 0 rest Hrest).
  - change (pretty (Z.pos p)) with (pretty (N.pos p)).
    pose proof (parse_digits_pretty (N.pos p) rest Hrest) as Hp.
    destruct (pretty_N_chars (N.pos p)) as (c & r & Hc & Hd & _).
    unfold chars in *. rewrite Hc in *. simpl in Hd.
    apply andb_true_iff in Hd as [Hd _].
    unfold parse_number. simpl app.
    destruct c as [[] [] [] [] [] [] [] []]; try exact Hp; done.
  - change (chars (pretty (Z.neg p)) ++ rest)
      with ("-"%char :: (chars (pretty (N.pos p)) ++ rest)).
    unfold parse_number.
    by rewrite (parse_digits_pretty (N.pos p) rest Hrest).
Qed.

(** *** Values *)

Section Induction.
Variable P : pyval -> Prop.
Hypothesis HNone : P PNone.
Hypothesis HBool : forall b, P (PBool b).
Hypothesis HInt : forall n, P (PInt n).
Hypothesis HStr : forall s, P (PStr s).
Hypothesis HList : forall l, Forall P l -> P (PList l).
Hypothesis HDict : forall d, Forall (fun kv => P (snd kv)) d -> P (PDict d).

Fixpoint pyval_nested_ind (v : pyval) : P v :=
  match v with
  | PNone => HNone
  | PBool b => HBool b
  | PInt n => HInt n
  | PStr s => HStr s
  | PList l =>
      HList l
        ((fix go (l : list pyval) : Forall P l :=
            match l with
            | [] => @List.Forall_nil _ P
            | x :: l' => @List.Forall_cons _ P x l' (pyval_nested_ind x) (go l')
            end) l)
  | PDict d =>
      HDict d
        ((fix go (d : list (string * pyval)) : Forall (fun kv => P (snd kv)) d :=
            match d with
            | [] => @List.Forall_nil _ _
            | kv :: d' =>
                @List.Forall_cons _ _ kv d' (pyval_nested_ind (snd kv)) (go d')
            end) d)
  end.
End Induction.

Lemma print_list_cons ind x xs :
  print ind (PList (x :: xs))
  = "["%char :: newline_indent (ind + 2)
    ++ join_items (","%char :: newline_indent (ind + 2))
         (map (print (ind + 2)) (x :: xs))
    ++ newline_indent ind ++ ["]"%char].
Proof. done. Qed.

Lemma print_dict_cons ind kv d :
  print ind (PDict (kv :: d))
  = "{"%char :: newline_indent (ind + 2)
    ++ join_items (","%char :: newline_indent (ind + 2))
         (map (fun kv => print_string (fst kv) ++ chars ": "
                         ++ print (ind + 2) (snd kv)) (kv :: d))
    ++ newline_indent ind ++ ["}"%char].
Proof. done. Qed.

(** A printed value starts with a character that is neither white
    space nor a closing bracket. *)
Lemma print_head ind v :
  exists c r, print ind v = c :: r
              /\ is_ws c = false /\ Ascii.eqb "]" c = false.
Proof.
  destruct v as [|[]|n|s|[|x l]|[|kv d]]; try by eexists _, _.
  destruct (pretty_Z_head n) as (c & r & Hc & Hn).
  exists c, r. split; [done|].
  destruct (number_head_dispatch c [] Hn) as (_ & _ & _ & _ & _ & _ & H1 & H2).
  done.
Qed.

Lemma skip_ws_print ind v r : skip_ws (print ind v ++ r) = print ind v ++ r.
Proof.
  destruct (print_head ind v) as (c & r' & -> & Hws & _). simpl. by rewrite Hws.
Qed.

Lemma head_is_print ind v r : head_is "]" (print ind v ++ r) = false.
Proof. by destruct (print_head ind v) as (c & r' & -> & _ & Hc). Qed.

Lemma join_items_cons sep i j items :
  join_items sep (i :: j :: items) = i ++ sep ++ join_items sep (j :: items).
Proof. done. Qed.

Lemma parse_elems_print l :
  Forall reads_back l -> l <> [] ->
  forall fuel ind ind0 rest,
    forallb py_wf l = true ->
    (list_sum (map (fun x => S (sz x)) l) <= fuel)%nat ->
    parse_elems fuel
      (join_items (","%char :: newline_indent ind) (map (print ind) l)
       ++ newline_indent ind0 ++ "]"%char :: rest)
    = Some (l, rest).
Proof.
  induction 1 as [|x l Hx Hl IH]; [done|]. intros _ fuel ind ind0 rest Hwf Hfuel.
  simpl in Hwf, Hfuel. apply andb_true_iff in Hwf as [Hwx Hwl].
  destruct fuel as [|fuel]; [lia|].
  destruct l as [|y l].
  - simpl map. cbn [join_items parse_elems].
    rewrite Hx; [|done|lia|done]. cbn [mbind option_bind].
    rewrite skip_ws_indent. simpl. done.
  - simpl map. rewrite join_items_cons. rewrite <- !app_assoc.
    cbn [parse_elems]. rewrite Hx; [|done|lia|done]. cbn [mbind option_bind].
    assert (Hcomma : forall X Y : list ascii,
              skip_ws ((","%char :: X) ++ Y) = ","%char :: X ++ Y) by done.
    rewrite !Hcomma. cbn [head_is tail].
    change (Ascii.eqb "," ",") with true. cbv iota.
    rewrite skip_ws_indent.
    change (print ind y :: map (print ind) l) with (map (print ind) (y :: l)).
    assert (Hsk : forall r, skip_ws (join_items (","%char :: newline_indent ind)
                                      (map (print ind) (y :: l)) ++ r)
                            = join_items (","%char :: newline_indent ind)
                                (map (print ind) (y :: l)) ++ r).
    { intros r. destruct l as [|z l]; simpl map.
      - cbn [join_items]. apply skip_ws_print.
      - rewrite join_items_cons, <- !app_assoc. apply skip_ws_print. }
    rewrite Hsk.
    rewrite IH; [done|done|done|].
    simpl in Hfuel |- *. lia.
Qed.

Lemma parse_members_print d :
  Forall (fun kv => reads_back (snd kv)) d -> d <> [] ->
  forall fuel ind ind0 rest,
    forallb (fun kv => py_wf (snd kv)) d = true ->
    (list_sum (map (fun kv => S (sz (snd kv))) d) <= fuel)%nat ->
    parse_members fuel
      (join_items (","%char :: newline_indent ind) (map (item ind) d)
       ++ newline_indent ind0 ++ "}"%char :: rest)
    = Some (d, rest).
Proof.
  induction 1 as [|[k v] d Hv Hd IH]; [done|].
  intros _ fuel ind ind0 rest Hwf Hfuel.
  simpl in Hwf, Hfuel, Hv. apply andb_true_iff in Hwf as [Hwv Hwd].
  destruct fuel as [|fuel]; [lia|].
  assert (Hitem : forall R, delimited R = true ->
    parse_members (S fuel) (item ind (k, v) ++ R)
    = let r3 := skip_ws R in
      if head_is "," r3 then
        '(kvs, r4) ← parse_members fuel (skip_ws (tail r3));
        Some ((k, v) :: kvs, r4)
      else if head_is "}" r3 then Some ([(k, v)], tail r3)
      else None).
  { intros R HR. unfold item. cbn [fst snd parse_members].
    rewrite <- !app_assoc.
    change (head_is quote (print_string k ++ chars ": " ++ print ind v ++ R))
      with true. cbv iota.
    rewrite parse_print_string. cbn [mbind option_bind].
    change (skip_ws (chars ": " ++ print ind v ++ R))
      with (":"%char :: " "%char :: print ind v ++ R).
    cbn [head_is tail]. change (Ascii.eqb ":" ":") with true. cbv iota.
    change (skip_ws (" "%char :: print ind v ++ R))
      with (skip_ws (print ind v ++ R)).
    rewrite skip_ws_print.
    rewrite Hv; [|done|lia|done]. done. }
  destruct d as [|kv d].
  - simpl map. cbn [join_items]. rewrite Hitem by done. cbv zeta.
    rewrite skip_ws_indent. done.
  - simpl map. rewrite join_items_cons, <- !app_assoc.
    rewrite Hitem by done. cbv zeta.
    assert (Hcomma : forall X Y : list ascii,
              skip_ws ((","%char :: X) ++ Y) = ","%char :: X ++ Y) by done.
    rewrite !Hcomma. cbn [head_is tail].
    change (Ascii.eqb "," ",") with true. cbv iota.
    rewrite skip_ws_indent.
    change (item ind kv :: map (item ind) d) with (map (item ind) (kv :: d)).
    assert (Hsk : forall r, skip_ws (join_items (","%char :: newline_indent ind)
                                      (map (item ind) (kv :: d)) ++ r)
                            = join_items (","%char :: newline_indent ind)
                                (map (item ind) (kv :: d)) ++ r).
    { intros r. destruct d as [|kv' d]; simpl map.
      - cbn [join_items]. done.
      - rewrite join_items_cons, <- !app_assoc. done. }
    rewrite Hsk.
    rewrite IH; [done|done|done|].
    simpl in Hfuel |- *. lia.
Qed.

(** Building the [dict] from items with distinct keys changes
    nothing. *)
Lemma set_fresh {V} k (v : V) d :
  k ∉ PyDict.keys d -> PyDict.set k v d = d ++ [(k, v)].
Proof.
  induction d as [|[k' v'] d IH]; simpl; [done|].
  intros [Hne Hk]%not_elem_of_cons.
  apply String.eqb_neq in Hne as ->. by rewrite IH.
Qed.

Lemma dict_of_NoDup d : NoDup (map fst d) -> dict_of d = d.
Proof.
  unfold dict_of.
  assert (Hgen : forall acc, NoDup (map fst (acc ++ d)) ->
            fold_left (fun d kv => PyDict.set (fst kv) (snd kv) d) d acc
            = acc ++ d).
  { induction d as [|[k v] d IH]; intros acc Hnd; simpl.
    - by rewrite app_nil_r.
    - rewrite set_fresh.
      + rewrite IH; rewrite <- app_assoc; done.
      + rewrite map_app in Hnd. simpl in Hnd.
        apply NoDup_app in Hnd as (_ & Hdis & _).
        intros Hin. apply (Hdis k Hin). apply elem_of_cons. by left. }
  intros Hnd. by apply (Hgen []).
Qed.

Theorem parse_print v : reads_back v.
Proof.
  induction v as [|b|n|s|l IH|d IH] using pyval_nested_ind;
    intros fuel ind rest Hwf Hfuel Hrest;
    (destruct fuel as [|fuel]; [simpl in Hfuel; lia|]).
  - done.
  - by destruct b.
  - destruct (pretty_Z_head n) as (c & r & Hc & Hn).
    pose proof (parse_number_pretty n rest Hrest) as Hnum.
    cbn [print parse_value]. rewrite Hc in *. simpl app in *.
    destruct (number_head_dispatch c (r ++ rest) Hn)
      as (-> & -> & -> & -> & -> & -> & _).
    by rewrite Hnum.
  - cbn [print parse_value].
    change (head_is "n" (print_string s ++ rest)) with false.
    change (head_is "t" (print_string s ++ rest)) with false.
    change (head_is "f" (print_string s ++ rest)) with false.
    change (head_is quote (print_string s ++ rest)) with true.
    cbv iota. by rewrite parse_print_string.
  - destruct l as [|x l]; [done|].
    rewrite print_list_cons. cbn [parse_value app head_is tail].
    change (Ascii.eqb "n" "[") with false. change (Ascii.eqb "t" "[") with false.
    change (Ascii.eqb "f" "[") with false. change (Ascii.eqb quote "[") with false.
    change (Ascii.eqb "[" "[") with true. cbv iota zeta.
    rewrite <- !app_assoc, skip_ws_indent.
    assert (Hsk : forall r, skip_ws (join_items (","%char :: newline_indent (ind + 2))
                                      (map (print (ind + 2)) (x :: l)) ++ r)
                            = join_items (","%char :: newline_indent (ind + 2))
                                (map (print (ind + 2)) (x :: l)) ++ r
                            /\ head_is "]" (join_items (","%char :: newline_indent (ind + 2))
                                      (map (print (ind + 2)) (x :: l)) ++ r) = false).
    { intros r. destruct l as [|z l]; simpl map.
      - cbn [join_items]. split; [apply skip_ws_print|apply head_is_print].
      - rewrite join_items_cons, <- !app_assoc.
        split; [apply skip_ws_print|apply head_is_print]. }
    destruct (Hsk (newline_indent ind ++ ["]"%char] ++ rest)) as [-> ->].
    change (["]"%char] ++ rest) with ("]"%char :: rest).
    rewrite (parse_elems_print (x :: l)); [done|done|done|done|].
    simpl in Hfuel |- *. lia.
  - destruct d as [|kv d]; [done|].
    rewrite print_dict_cons. cbn [parse_value app head_is tail].
    change (Ascii.eqb "n" "{") with false. change (Ascii.eqb "t" "{") with false.
    change (Ascii.eqb "f" "{") with false. change (Ascii.eqb quote "{") with false.
    change (Ascii.eqb "[" "{") with false.
    change (Ascii.eqb "{" "{") with true. cbv iota zeta.
    rewrite <- !app_assoc, skip_ws_indent.
    fold (item (ind + 2)).
    assert (Hsk : forall r, skip_ws (join_items (","%char :: newline_indent (ind + 2))
                                      (map (item (ind + 2)) (kv :: d)) ++ r)
                            = join_items (","%char :: newline_indent (ind + 2))
                                (map (item (ind + 2)) (kv :: d)) ++ r
                            /\ head_is "}" (join_items (","%char :: newline_indent (ind + 2))
                                      (map (item (ind + 2)) (kv :: d)) ++ r) = false).
    { intros r. destruct d as [|kv' d]; simpl map.
      - cbn [join_items]. done.
      - rewrite join_items_cons, <- !app_assoc. done. }
    destruct (Hsk (newline_indent ind ++ ["}"%char] ++ rest)) as [-> ->].
    change (["}"%char] ++ rest) with ("}"%char :: rest).
    cbn [py_wf] in Hwf. apply andb_true_iff in Hwf as [Hnd Hwf].
    apply bool_decide_eq_true in Hnd.
    rewrite (parse_members_print (kv :: d)); [|done|done|done|].
    + cbn [mbind option_bind]. by rewrite dict_of_NoDup.
    + simpl in Hfuel |- *. lia.
Qed.

(** *** Fuel *)

Lemma join_items_length {A} (f : A -> list ascii) (g : A -> nat) sep l :
  Forall (fun a => (g a <= length (f a))%nat) l ->
  (1 <= length sep)%nat ->
  (list_sum (map (fun a => S (g a)) l)
   <= S (length (join_items sep (map f l))))%nat.
Proof.
  intros Hl Hsep. induction Hl as [|a l Ha Hl IH]; simpl; [lia|].
  destruct l as [|b l]; simpl in *; [lia|].
  rewrite !length_app. lia.
Qed.

Lemma print_nonempty ind v : (1 <= length (print ind v))%nat.
Proof. destruct (print_head ind v) as (c & r & -> & _). simpl. lia. Qed.

Lemma sz_le_length v : forall ind, (sz v <= length (print ind v))%nat.
Proof.
  induction v as [|b|n|s|l IH|d IH] using pyval_nested_ind; intros ind;
    try apply print_nonempty.
  - destruct l as [|x l]; [simpl; lia|].
    rewrite print_list_cons. cbn [sz length]. rewrite !length_app.
    pose proof (join_items_length (print (ind + 2)) sz
                  (","%char :: newline_indent (ind + 2)) (x :: l)) as Hj.
    cbn [length] in *.
    assert (Hall : Forall (fun a => (sz a <= length (print (ind + 2) a))%nat) (x :: l)).
    { eapply Forall_impl; [exact IH|]. intros a Ha. apply Ha. }
    specialize (Hj Hall ltac:(lia)). lia.
  - destruct d as [|kv d]; [simpl; lia|].
    rewrite print_dict_cons. cbn [sz length]. rewrite !length_app.
    fold (item (ind + 2)).
    pose proof (join_items_length (item (ind + 2)) (fun kv => sz (snd kv))
                  (","%char :: newline_indent (ind + 2)) (kv :: d)) as Hj.
    cbn [length] in *.
    assert (Hall : Forall (fun a => (sz (snd a) <= length (item (ind + 2) a))%nat)
                     (kv :: d)).
    { eapply Forall_impl; [exact IH|]. intros a Ha. unfold item.
      rewrite !length_app. specialize (Ha (ind + 2)%nat). lia. }
    specialize (Hj Hall ltac:(lia)). lia.
Qed.

(** [json.loads(json.dumps(v)) == v]. *)
Theorem load_dump v : py_wf v = true -> load (dump v) = Some v.
Proof.
  intros Hwf. unfold load, dump, chars.
  rewrite list_ascii_of_string_of_list_ascii.
  pose proof (skip_ws_print 0 v []) as Hsk. rewrite app_nil_r in Hsk.
  rewrite Hsk.
  pose proof (parse_print v (S (length (print 0 v))) 0%nat [] Hwf) as Hp.
  rewrite app_nil_r in Hp. rewrite Hp; [done| |done].
  pose proof (sz_le_length v 0). lia.
Qed.

End RefJsonFacts.

(** The reference codec implements the interface. *)
Definition ref_codec : JsonCodec :=
  {| json_dump := RefJson.dump;
     json_load := RefJson.load;
     json_load_dump := RefJsonFacts.load_dump |}.

(** ** The monad and the store *)

Section Keeps.
Context {X : Type} (f : assistant -> X).

Lemma keeps_ret {A} (a : A) : keeps f (ret a).
Proof. by intros st. Qed.

Lemma keeps_raise {A} e : keeps f (@raise A e).
Proof. by intros st. Qed.

Lemma keeps_lift {A} (r : result A) : keeps f (lift r).
Proof. by intros st. Qed.

Lemma keeps_gets {A} (g : assistant -> A) : keeps f (gets g).
Proof. by intros st. Qed.

Lemma keeps_bind {A B} (m : M A) (k : A -> M B) :
  keeps f m -> (forall a, keeps f (k a)) -> keeps f (bind m k).
Proof.
  intros Hm Hk st. simpl. specialize (Hm st).
  destruct (m st) as [[a|e] st']; simpl in *; [|done].
  by rewrite Hk.
Qed.

Lemma keeps_try {A} (m : M A) c h :
  keeps f m -> (forall e, keeps f (h e)) -> keeps f (try_except m c h).
Proof.
  intros Hm Hh st. simpl. specialize (Hm st).
  destruct (m st) as [[a|e] st']; simpl in *; [done|].
  destruct (c e); [|done]. by rewrite Hh.
Qed.

Lemma keeps_modify g : (forall st, f (g st) = f st) -> keeps f (modify g).
Proof. intros Hg st. apply Hg. Qed.

Lemma keeps_for_each {A} (l : list A) body :
  (forall x, keeps f (body x)) -> keeps f (for_each l body).
Proof.
  intros Hb. induction l as [|x l IH]; simpl.
  - apply keeps_ret.
  - apply keeps_bind; [apply Hb|]. intros _. apply IH.
Qed.

Lemma keeps_for_fold {A B} (l : list A) (b : B) body :
  (forall b x, keeps f (body b x)) -> keeps f (for_fold l b body).
Proof.
  intros Hb. revert b. induction l as [|x l IH]; intros b; simpl.
  - apply keeps_ret.
  - apply keeps_bind; [apply Hb|]. intros b'. apply IH.
Qed.

Lemma keeps_if {A} (b : bool) (m1 m2 : M A) :
  keeps f m1 -> keeps f m2 -> keeps f (if b then m1 else m2).
Proof. by destruct b. Qed.
End Keeps.

Section Store.
Context {codec : JsonCodec} {host : Host}.

Lemma keeps_print {X} (f : assistant -> X) s :
  (forall g st, f (set_out g st) = f st) -> keeps f (print s).
Proof. intros Hf st. apply Hf. Qed.

(** [save_json] always returns, and touches only the files and,
    when the write fails, standard output. *)
Lemma save_json_returns p v st :
  exists m o,
    save_json p v st
    = (Ok tt, Assistant (notes st) (todos st) (history st) m (clock st) o).
Proof.
  unfold save_json, open_write, file_write. simpl.
  destruct st as [ns ts h m c o]; simpl.
  destruct (m !! p) as [[w|r w ct]|] eqn:Hp; simpl; eauto.
  - destruct w; simpl; eauto.
  - destruct (m !! dirname p) as [[[]|? ? ?]|]; simpl; eauto.
Qed.

Lemma keeps_save_json {X} (f : assistant -> X) p v :
  (forall ns ts h m c o m' o',
     f (Assistant ns ts h m' c o') = f (Assistant ns ts h m c o)) ->
  keeps f (save_json p v).
Proof.
  intros Hf st. destruct (save_json_returns p v st) as (m & o & ->).
  destruct st; simpl. apply Hf.
Qed.

Lemma save_json_ok p v st : fst (save_json p v st) = Ok tt.
Proof. by destruct (save_json_returns p v st) as (m & o & ->). Qed.

End Store.

(** ** History log and dispatcher *)

Ltac keeps_step :=
  first
    [ apply keeps_ret | apply keeps_raise | apply keeps_lift | apply keeps_gets
    | apply keeps_print; solve [done | intros; auto]
    | apply keeps_modify; solve [done | intros; auto]
    | apply keeps_save_json; solve [done | intros; auto]
    | apply keeps_bind | apply keeps_try
    | apply keeps_for_each | apply keeps_for_fold
    | match goal with
      | |- keeps _ (if ?b then _ else _) => destruct b
      | |- keeps _ (match ?x with _ => _ end) => destruct x
      | |- keeps _ (let '(_, _) := ?x in _) => destruct x
      end
    | intro ].

Ltac keeps_auto := repeat keeps_step.

Lemma last_n_length {A} n (l : list A) : (length (last_n n l) <= n)%nat.
Proof. unfold last_n. rewrite length_drop. lia. Qed.

Lemma last_n_short {A} n (l : list A) : (length l <= n)%nat -> last_n n l = l.
Proof.
  intros Hl. unfold last_n. replace (length l - n)%nat with 0%nat by lia. done.
Qed.

Lemma last_n_full {A} n (l : list A) x :
  (0 < n)%nat -> length l = n -> last_n n (l ++ [x]) = drop 1 l ++ [x].
Proof.
  intros Hn Hl. unfold last_n. rewrite length_app. simpl.
  replace (length l + 1 - n)%nat with 1%nat by lia.
  destruct l as [|y l]; simpl.
  - simpl in Hl. lia.
  - by rewrite drop_0.
Qed.

(** [l[-n:]] is a suffix: the entries it drops are the oldest. *)
Lemma last_n_suffix {A} n (l : list A) :
  l = take (length l - n) l ++ last_n n l.
Proof. unfold last_n. by rewrite take_drop. Qed.

Section Dispatcher.
Context {codec : JsonCodec} {host : Host}.

Lemma keeps_now {X} (f : assistant -> X) :
  (forall g st, f (set_clock g st) = f st) -> keeps f now.
Proof. intros Hf. unfold now. keeps_auto. Qed.

Lemma keeps_emit {X} (f : assistant -> X) d :
  (forall g st, f (set_out g st) = f st) -> keeps f (emit d).
Proof. intros Hf. unfold emit. keeps_auto. Qed.

Lemma add_to_history_run cmd st :
  exists m o,
    add_to_history cmd st
    = (Ok tt,
       Assistant (notes st) (todos st)
         (last_n 100 (history st ++ [HistoryEntry cmd (isoformat (clock st))]))
         m (S (clock st)) o).
Proof.
  unfold add_to_history, now. simpl.
  match goal with
  | |- context [save_json ?p ?v ?s] =>
      destruct (save_json_returns p v s) as (m & o & ->)
  end.
  simpl. eauto.
Qed.

Lemma show_help_keeps_history args : keeps history (show_help args).
Proof. unfold show_help. keeps_auto. Qed.
Lemma show_time_keeps_history args : keeps history (show_time args).
Proof. unfold show_time. keeps_auto; by apply keeps_now. Qed.
Lemma show_date_keeps_history args : keeps history (show_date args).
Proof. unfold show_date. keeps_auto; by apply keeps_now. Qed.
Lemma get_weather_keeps_history args : keeps history (get_weather args).
Proof. unfold get_weather. keeps_auto. Qed.
Lemma calculator_keeps_history args : keeps history (calculator args).
Proof. unfold calculator, eval_str. keeps_auto. Qed.
Lemma note_manager_keeps_history args : keeps history (note_manager args).
Proof. unfold note_manager. keeps_auto; by apply keeps_now. Qed.
Lemma todo_manager_keeps_history args : keeps history (todo_manager args).
Proof. unfold todo_manager, int_. keeps_auto; by apply keeps_now. Qed.
Lemma file_operations_keeps_history args : keeps history (file_operations args).
Proof. unfold file_operations. keeps_auto; by apply keeps_emit. Qed.
Lemma system_info_keeps_history args : keeps history (system_info args).
Proof. unfold system_info. keeps_auto; by apply keeps_emit. Qed.
Lemma unit_converter_keeps_history args : keeps history (unit_converter args).
Proof. unfold unit_converter. keeps_auto; by apply keeps_emit. Qed.
Lemma search_files_keeps_history args : keeps history (search_files args).
Proof. unfold search_files. keeps_auto. Qed.
Lemma show_history_keeps_history args : keeps history (show_history args).
Proof. unfold show_history. keeps_auto. Qed.
Lemma clear_screen_keeps_history args : keeps history (clear_screen args).
Proof. unfold clear_screen. keeps_auto. Qed.
Lemma exit_assistant_keeps_history args : keeps history (exit_assistant args).
Proof. unfold exit_assistant. keeps_auto. Qed.

(** No handler of the registry writes the history. *)
Lemma handlers_keep_history name handler args :
  PyDict.get name commands = Some handler -> keeps history (handler args).
Proof.
  unfold commands. simpl.
  repeat (destruct (String.eqb name _);
          [intros [= <-];
           eauto using show_help_keeps_history, show_time_keeps_history,
             show_date_keeps_history, get_weather_keeps_history,
             calculator_keeps_history, note_manager_keeps_history,
             todo_manager_keeps_history, file_operations_keeps_history,
             system_info_keeps_history, unit_converter_keeps_history,
             search_files_keeps_history, show_history_keeps_history,
             clear_screen_keeps_history, exit_assistant_keeps_history|]).
  done.
Qed.

End Dispatcher.

Lemma with_out_app st a b : with_out (with_out st a) b = with_out st (a ++ b).
Proof. unfold with_out, set_out. simpl. by rewrite app_assoc. Qed.

Lemma with_out_nil st : with_out st [] = st.
Proof. destruct st. unfold with_out, set_out. simpl. by rewrite app_nil_r. Qed.

Lemma print_run s st : print s st = (Ok tt, with_out st [Line s]).
Proof. done. Qed.

Lemma for_each_print {A} (g : A -> string) l st :
  for_each l (fun x => print (g x)) st
  = (Ok tt, with_out st (map (fun x => Line (g x)) l)).
Proof.
  revert st. induction l as [|x l IH]; intros st; simpl.
  - by rewrite with_out_nil.
  - rewrite IH. fold (with_out st [Line (g x)]). by rewrite with_out_app.
Qed.

(** ** Dictionaries *)

Module PyDictFacts.
Import PyDict.
Section Facts.
Context {V : Type}.
Implicit Types (d : list (string * V)) (k : string) (v : V).

Lemma get_set_eq k v d : get k (set k v d) = Some v.
Proof.
  induction d as [|[k' v'] d IH]; simpl.
  - by rewrite String.eqb_refl.
  - destruct (String.eqb k k') eqn:Hk; simpl.
    + by rewrite String.eqb_refl.
    + by rewrite Hk.
Qed.

Lemma get_set_ne k k' v d : k <> k' -> get k' (set k v d) = get k' d.
Proof.
  intros Hne.
  assert (Hk' : String.eqb k' k = false) by (apply String.eqb_neq; congruence).
  induction d as [|[k0 v0] d IH]; simpl.
  - by rewrite Hk'.
  - destruct (String.eqb k k0) eqn:Hk; simpl.
    + apply String.eqb_eq in Hk as <-. by rewrite Hk'.
    + by rewrite IH.
Qed.

Lemma get_None_keys k d : get k d = None <-> k ∉ keys d.
Proof.
  induction d as [|[k' v'] d IH]; simpl.
  - split; [intros _; apply not_elem_of_nil|done].
  - rewrite not_elem_of_cons.
    destruct (String.eqb k k') eqn:Hk.
    + apply String.eqb_eq in Hk. split; [done|]. by intros [? _].
    + apply String.eqb_neq in Hk. rewrite IH. tauto.
Qed.

Lemma elem_of_keys_set k v d k' :
  k' ∈ keys (set k v d) <-> k' = k \/ k' ∈ keys d.
Proof.
  induction d as [|[k0 v0] d IH]; simpl.
  - rewrite list_elem_of_singleton. split; [auto|].
    intros [?|?%elem_of_nil]; done.
  - destruct (String.eqb k k0) eqn:Hk; simpl.
    + apply String.eqb_eq in Hk as <-. rewrite !elem_of_cons. tauto.
    + rewrite !elem_of_cons, IH. tauto.
Qed.

Lemma NoDup_keys_set k v d : NoDup (keys d) -> NoDup (keys (set k v d)).
Proof.
  induction d as [|[k0 v0] d IH]; simpl; intros Hd.
  - apply NoDup_singleton.
  - apply NoDup_cons in Hd as [Hk0 Hd].
    destruct (String.eqb k k0) eqn:Hk; simpl.
    + apply String.eqb_eq in Hk as <-. by apply NoDup_cons.
    + apply String.eqb_neq in Hk. apply NoDup_cons. split; [|by apply IH].
      fold (keys (set k v d)). rewrite elem_of_keys_set.
      intros [?|?]; congruence.
Qed.

(** With distinct keys, a key that is present heads exactly one
    item. *)
Lemma NoDup_keys_one k d :
  NoDup (keys d) -> k ∈ keys d ->
  length (List.filter (fun kv => String.eqb k (fst kv)) d) = 1%nat.
Proof.
  induction d as [|[k0 v0] d IH]; simpl; intros Hd Hin.
  - by apply elem_of_nil in Hin.
  - apply NoDup_cons in Hd as [Hk0 Hd].
    destruct (String.eqb k k0) eqn:Hk; simpl.
    + apply String.eqb_eq in Hk as <-. f_equal.
      clear IH Hin Hd. induction d as [|[k1 v1] d IH]; simpl; [done|].
      simpl in Hk0. apply not_elem_of_cons in Hk0 as [Hne Hk0].
      apply String.eqb_neq in Hne as ->. by apply IH.
    + apply String.eqb_neq in Hk. apply elem_of_cons in Hin as [?|Hin]; [done|].
      by apply IH.
Qed.
End Facts.
End PyDictFacts.

Section Claims.
Context {codec : JsonCodec} {host : Host}.

(** *** History *)

(** C2. After [add_to_history] the history holds at most 100
    entries: it is the last 100 of the old history followed by the
    new entry, so a history of 100 loses exactly its oldest entry. *)
Theorem add_to_history_bounded cmd st :
  let e := HistoryEntry cmd (isoformat (clock st)) in
  let st' := snd (add_to_history cmd st) in
  fst (add_to_history cmd st) = Ok tt
  /\ (length (history st') <= 100)%nat
  /\ history st' = last_n 100 (history st ++ [e])
  /\ (length (history st) = 100%nat -> history st' = drop 1 (history st) ++ [e]).
Proof.
  intros e st'. subst st'.
  destruct (add_to_history_run cmd st) as (m & o & ->). simpl.
  repeat split.
  - apply last_n_length.
  - intros Hl. apply last_n_full; [lia|done].
Qed.

(** The bound is an invariant of the dispatcher. *)
Lemma execute_command_history_bounded cmd args st :
  (length (history st) <= 100)%nat ->
  (length (history (snd (execute_command cmd args st))) <= 100)%nat.
Proof.
  intros Hst. unfold execute_command.
  destruct (PyDict.get cmd commands) as [handler|] eqn:Hc; [|done].
  simpl. destruct (add_to_history_run (cmd +:+ " " +:+ PyStr.join " " args) st)
    as (m & o & ->).
  rewrite (handlers_keep_history _ _ args Hc). simpl. apply last_n_length.
Qed.

(** C1, as the code has it. A command that resolves in the registry
    is recorded as [<command> <space-joined args>] before its handler
    runs, whatever the handler then does; a command that does not
    resolve is reported and leaves the history, and everything but
    standard output, as it was. *)
Theorem execute_command_records cmd args st :
  (is_Some (PyDict.get cmd commands) ->
   history (snd (execute_command cmd args st))
   = last_n 100
       (history st
        ++ [HistoryEntry (cmd +:+ " " +:+ PyStr.join " " args)
              (isoformat (clock st))]))
  /\ (PyDict.get cmd commands = None ->
      execute_command cmd args st
      = (Ok tt,
         with_out st [Line ("Unknown command: " +:+ cmd);
                      Line "Type 'help' for available commands"])).
Proof.
  unfold execute_command. split.
  - intros [handler Hc]. rewrite Hc. simpl.
    destruct (add_to_history_run (cmd +:+ " " +:+ PyStr.join " " args) st)
      as (m & o & ->).
    by rewrite (handlers_keep_history _ _ args Hc).
  - intros ->. simpl. unfold with_out, set_out. simpl.
    by rewrite <- app_assoc.
Qed.

(** *** Todo list *)

(** C5. [todo done k] and [todo delete k] with [k] outside [1, N],
    [k] written in decimal or in any other way [int] reads, print
    "Invalid task number" and change nothing else: todos, files and
    clock are as before. *)
Theorem todo_out_of_range a s rest k st :
  PyStr.lower a = "done" \/ PyStr.lower a = "delete" ->
  s = PyStr.of_Z k \/ PyStr.to_Z s = Some k ->
  k < 1 \/ k > Z.of_nat (length (todos st)) ->
  todo_manager (a :: s :: rest) st
  = (Ok tt, with_out st [Line "Invalid task number"]).
Proof.
  intros Ha Hs Hk. unfold todo_manager.
  assert (Hs' : PyStr.to_Z s = Some k).
  { destruct Hs as [->|Hs]; [apply DigitFacts.to_Z_of_Z|done]. }
  clear Hs. rename Hs' into Hs.
  assert (Hc : (0 <=? k - 1) && (k - 1 <? Z.of_nat (length (todos st))) = false).
  { apply andb_false_iff. destruct Hk; [left|right]; lia. }
  destruct Ha as [-> | ->]; simpl; unfold int_; rewrite Hs; simpl;
    by rewrite Hc.
Qed.

(** C10. When the index argument of [todo done] or [todo delete] is
    no integer literal, the handler prints "Task number must be a
    number", returns normally and changes nothing else. *)
Theorem todo_not_a_number a s rest st :
  PyStr.lower a = "done" \/ PyStr.lower a = "delete" ->
  PyStr.to_Z s = None ->
  todo_manager (a :: s :: rest) st
  = (Ok tt, with_out st [Line "Task number must be a number"]).
Proof.
  intros Ha Hs. unfold todo_manager.
  destruct Ha as [-> | ->]; simpl; unfold int_; by rewrite Hs.
Qed.

(** *** Calculator *)

Lemma all_in_false_iff allowed s :
  PyStr.all_in allowed s = false
  <-> exists c, In c (list_ascii_of_string s) /\ PyStr.mem_char c allowed = false.
Proof.
  unfold PyStr.all_in. split.
  - intros Hf. induction (list_ascii_of_string s) as [|c l IH]; simpl in *; [done|].
    destruct (PyStr.mem_char c allowed) eqn:Hc; simpl in *.
    + destruct (IH Hf) as (c' & ? & ?). eauto.
    + eauto.
  - intros (c & Hin & Hc).
    destruct (forallb _ _) eqn:Hall; [|done].
    rewrite forallb_forall in Hall. apply Hall in Hin. congruence.
Qed.

(** C7. [calc 2 + 3 * 4] prints [2 + 3 * 4 = 14]; an argument list
    whose joined expression holds a character outside the whitelist
    prints the rejection and nothing else, whatever the host's
    evaluator would have made of it. *)
Theorem calculator_whitelist :
  (forall st,
     calculator ["2"; "+"; "3"; "*"; "4"] st
     = (Ok tt, with_out st [Line "2 + 3 * 4 = 14"]))
  /\ (forall args c st,
        In c (list_ascii_of_string (PyStr.join " " args)) ->
        PyStr.mem_char c allowed_chars = false ->
        calculator args st
        = (Ok tt, with_out st [Line "Error: Only basic math operations allowed"])).
Proof.
  split.
  - intros st. reflexivity.
  - intros args c st Hin Hc.
    assert (Hall : PyStr.all_in allowed_chars (PyStr.join " " args) = false).
    { apply all_in_false_iff. eauto. }
    unfold calculator. destruct args as [|a args]; [done|].
    cbv zeta. unfold try_except. by rewrite Hall.
Qed.

(** *** File search *)

(** C9. Whatever the pattern and directory, [search] prints the
    header, the first 20 matches at most, and, when there are more,
    one line with the number of matches left out. *)
Theorem search_files_first_20 pattern rest st :
  let directory := match rest with d :: _ => path_str d | [] => cwd end in
  match rglob (fs st) directory ("*" +:+ pattern +:+ "*") with
  | Ok ms =>
      search_files (pattern :: rest) st = (Ok tt, with_out st (search_report ms))
      /\ (length (take 20 ms) <= 20)%nat
      /\ take 20 ms `prefix_of` ms
  | Raise e =>
      search_files (pattern :: rest) st
      = if isinstance e PermissionError
        then (Ok tt, with_out st [Line ("Permission denied: " +:+ directory)])
        else (Raise e, st)
  end.
Proof.
  intros directory. unfold search_files. fold directory.
  cbn [try_except bind gets lift].
  destruct (rglob _ _ _) as [ms|e].
  - split; [|split].
    + destruct ms as [|m0 ms]; [done|].
      cbn [bind]. rewrite print_run, for_each_print.
      unfold search_report.
      destruct (20 <? length (m0 :: ms))%nat.
      * by rewrite print_run, !with_out_app.
      * unfold ret. by rewrite !with_out_app, app_nil_r.
    + rewrite length_take. lia.
    + apply prefix_take.
  - cbv iota beta. destruct (isinstance e PermissionError); reflexivity.
Qed.

(** *** Notes *)

Lemma note_add_run t c st :
  c <> [] ->
  exists m o,
    note_manager ("add" :: t :: c) st
    = (Ok tt,
       Assistant
         (PyDict.set t (Note (PyStr.join " " c) (isoformat (clock st))) (notes st))
         (todos st) (history st) m (S (clock st)) o).
Proof.
  intros Hc. destruct c as [|c0 c]; [done|].
  unfold note_manager.
  change (PyStr.lower "add") with "add".
  cbn [String.eqb Ascii.eqb Bool.eqb length Nat.ltb Nat.leb nth drop].
  cbn [bind now gets modify ret].
  match goal with
  | |- context [save_json ?p ?v ?s] =>
      destruct (save_json_returns p v s) as (m & o & ->)
  end.
  cbn. eauto.
Qed.

Lemma note_add_all_spec ops st :
  NoDup (PyDict.keys (notes st)) ->
  Forall (fun op => snd op <> []) ops ->
  let st' := snd (note_add_all ops st) in
  fst (note_add_all ops st) = Ok tt
  /\ NoDup (PyDict.keys (notes st'))
  /\ (forall t, t ∈ PyDict.keys (notes st')
                <-> t ∈ PyDict.keys (notes st) \/ t ∈ map fst ops)
  /\ (forall pre t c post,
        ops = pre ++ (t, c) :: post -> t ∉ map fst post ->
        PyDict.get t (notes st')
        = Some (Note (PyStr.join " " c)
                  (isoformat (clock st + length pre)%nat)))
  /\ (forall t, t ∉ map fst ops ->
                PyDict.get t (notes st') = PyDict.get t (notes st)).
Proof.
  intros Hst Hops. revert st Hst.
  induction Hops as [|[t0 c0] ops Hc0 Hops IH]; intros st Hst; simpl.
  - split; [done|]. split; [done|]. split; [|split].
    + intros t. rewrite elem_of_nil. tauto.
    + intros pre t c post Hnil. by destruct pre.
    + done.
  - simpl in Hc0.
    destruct (note_add_run t0 c0 st Hc0) as (m & o & Hrun).
    unfold note_add_all. cbn [for_each bind]. cbn [fst snd].
    rewrite Hrun. cbn [fst snd].
    set (st1 := Assistant _ _ _ _ _ _).
    fold (note_add_all ops).
    destruct (IH st1) as (Hok & Hnd & Hkeys & Hlast & Hother).
    { by apply PyDictFacts.NoDup_keys_set. }
    destruct (note_add_all ops st1) as [r st'] eqn:Hrest. simpl in *.
    subst r. split; [done|]. split; [done|]. split; [|split].
    + intros t. rewrite Hkeys. subst st1. cbn [notes].
      rewrite PyDictFacts.elem_of_keys_set, elem_of_cons. tauto.
    + intros pre t c post Heq Hpost.
      destruct pre as [|p pre]; simpl in Heq.
      * injection Heq as Heq1 Heq2 Heq3. subst t0 c0 post.
        rewrite Hother by done. subst st1. cbn [notes].
        rewrite PyDictFacts.get_set_eq. by rewrite Nat.add_0_r.
      * injection Heq as Heq1 Heq2. subst p ops.
        rewrite (Hlast pre t c post eq_refl Hpost). subst st1. cbn [clock length].
        by rewrite Nat.add_succ_r.
    + intros t Ht. apply not_elem_of_cons in Ht as [Hne Ht].
      rewrite Hother by done. subst st1. cbn [notes].
      by rewrite PyDictFacts.get_set_ne.
Qed.

(** C6. After a run of [note add] commands the collection holds
    exactly one entry per title: the keys are distinct, they are the
    old keys and the titles of the run, each title of the run heads
    one item, and that item carries the content and the clock reading
    of the last [note add] of the title. *)
Theorem note_add_last_wins ops st :
  NoDup (PyDict.keys (notes st)) ->
  Forall (fun op => snd op <> []) ops ->
  let st' := snd (note_add_all ops st) in
  fst (note_add_all ops st) = Ok tt
  /\ NoDup (PyDict.keys (notes st'))
  /\ (forall t, t ∈ PyDict.keys (notes st')
                <-> t ∈ PyDict.keys (notes st) \/ t ∈ map fst ops)
  /\ (forall t, t ∈ map fst ops ->
        length (List.filter (fun kv => String.eqb t (fst kv)) (notes st')) = 1%nat)
  /\ (forall pre t c post,
        ops = pre ++ (t, c) :: post -> t ∉ map fst post ->
        PyDict.get t (notes st')
        = Some (Note (PyStr.join " " c)
                  (isoformat (clock st + length pre)%nat))).
Proof.
  intros Hst Hops st'.
  destruct (note_add_all_spec ops st Hst Hops) as (Hok & Hnd & Hkeys & Hlast & _).
  fold st' in Hnd, Hkeys, Hlast.
  split; [done|]. split; [done|]. split; [done|]. split; [|done].
  intros t Ht. apply PyDictFacts.NoDup_keys_one; [done|].
  apply Hkeys. by right.
Qed.

(** *** Parsing a command line *)

Lemma lower_nonempty s : s <> "" -> PyStr.lower s <> "".
Proof. by destruct s. Qed.

Lemma string_of_list_ascii_nonempty l : l <> [] -> string_of_list_ascii l <> "".
Proof. by destruct l. Qed.

Lemma split_tokens line :
  Forall (fun t => t <> ""
                   /\ forallb (fun c => negb (PyStr.is_space c))
                        (list_ascii_of_string t) = true)
         (PyStr.split line).
Proof.
  unfold PyStr.split. apply Forall_fmap.
  eapply Forall_impl; [by apply PyStrFacts.split_go_tokens|].
  intros t [Hne Hsp]. simpl. split.
  - by apply string_of_list_ascii_nonempty.
  - by rewrite list_ascii_of_string_of_list_ascii.
Qed.

Lemma split_concat line :
  concat (map list_ascii_of_string (PyStr.split line))
  = List.filter (fun c => negb (PyStr.is_space c)) (list_ascii_of_string line).
Proof.
  unfold PyStr.split. rewrite map_map.
  rewrite (map_ext _ id), map_id.
  - by rewrite PyStrFacts.split_go_concat.
  - intros l. apply list_ascii_of_string_of_list_ascii.
Qed.

Lemma split_splits line :
  PyStr.splits (list_ascii_of_string line)
    (map list_ascii_of_string (PyStr.split line)).
Proof.
  unfold PyStr.split. rewrite map_map.
  rewrite (map_ext _ id), map_id.
  - by apply (PyStrFacts.split_go_splits _ []).
  - intros l. apply list_ascii_of_string_of_list_ascii.
Qed.

Lemma parse_command_split line :
  parse_command line
  = match PyStr.split line with
    | [] => (None, [])
    | p :: parts => (Some (PyStr.lower p), parts)
    end.
Proof. unfold parse_command. by rewrite PyStrFacts.split_strip. Qed.

(** A line with a token is dispatched with that token, lowercased, as
    the command. *)
Lemma run_line_dispatch line p parts :
  PyStr.split line = p :: parts ->
  run_line line = execute_command (PyStr.lower p) parts.
Proof.
  intros Hs. unfold run_line.
  pose proof (split_tokens line) as Htok. rewrite Hs in Htok.
  apply Forall_cons in Htok as [[Hp _] _].
  destruct (String.eqb_spec (PyStr.strip line) "") as [He|_].
  - pose proof (PyStrFacts.split_strip line) as Hss.
    rewrite He, Hs in Hss. done.
  - rewrite parse_command_split, PyStrFacts.split_strip, Hs.
    destruct (String.eqb_spec (PyStr.lower p) "") as [He|_]; [|done].
    by apply lower_nonempty in He.
Qed.

Lemma lower_char_spec c :
  (if PyStr.is_upper c
   then nat_of_ascii (PyStr.lower_char c) = (nat_of_ascii c + 32)%nat
   else PyStr.lower_char c = c)
  /\ PyStr.is_upper (PyStr.lower_char c) = false.
Proof. by destruct c as [[] [] [] [] [] [] [] []]. Qed.

Lemma lower_spec p :
  Forall2 (fun c c' =>
             if PyStr.is_upper c
             then nat_of_ascii c' = (nat_of_ascii c + 32)%nat
             else c' = c)
    (list_ascii_of_string p) (list_ascii_of_string (PyStr.lower p))
  /\ forallb (fun c => negb (PyStr.is_upper c))
       (list_ascii_of_string (PyStr.lower p)) = true.
Proof.
  induction p as [|c p [IH1 IH2]]; simpl; [by split|].
  destruct (lower_char_spec c) as [Hc Hu]. split.
  - by constructor.
  - by rewrite Hu, IH2.
Qed.

(** C8. [parse_command] splits the line on white space: the first
    token, lowercased, is the command and the other tokens are the
    arguments; the tokens are the maximal runs of characters that
    are not white space. Lowercased: the command has the characters
    of the first token, each upper-case letter moved up by 32 to its
    lower-case form and every other character kept, so that no
    upper-case letter is left. A blank line yields no command, and
    the shell then leaves the whole state, history included, as it
    was. *)
Theorem parse_command_tokens line :
  parse_command line
  = match PyStr.split line with
    | [] => (None, [])
    | p :: parts => (Some (PyStr.lower p), parts)
    end
  /\ (forall p parts,
        PyStr.split line = p :: parts ->
        exists cmd,
          parse_command line = (Some cmd, parts)
          /\ Forall2 (fun c c' =>
                        if PyStr.is_upper c
                        then nat_of_ascii c' = (nat_of_ascii c + 32)%nat
                        else c' = c)
               (list_ascii_of_string p) (list_ascii_of_string cmd)
          /\ forallb (fun c => negb (PyStr.is_upper c))
               (list_ascii_of_string cmd) = true)
  /\ PyStr.splits (list_ascii_of_string line)
       (map list_ascii_of_string (PyStr.split line))
  /\ Forall (fun t => t <> ""
                      /\ forallb (fun c => negb (PyStr.is_space c))
                           (list_ascii_of_string t) = true)
            (PyStr.split line)
  /\ concat (map list_ascii_of_string (PyStr.split line))
     = List.filter (fun c => negb (PyStr.is_space c)) (list_ascii_of_string line)
  /\ (forallb PyStr.is_space (list_ascii_of_string line) = true ->
      parse_command line = (None, [])
      /\ forall st, run_line line st = (Ok tt, st)).
Proof.
  split; [apply parse_command_split|].
  split.
  { intros p parts Hs. exists (PyStr.lower p).
    split; [by rewrite parse_command_split, Hs|]. apply lower_spec. }
  split; [apply split_splits|].
  split; [apply split_tokens|].
  split; [apply split_concat|].
  intros Hb. split.
  - by rewrite parse_command_split, PyStrFacts.split_blank.
  - intros st. unfold run_line. by rewrite PyStrFacts.strip_blank.
Qed.

(** *** Persistent store *)

Lemma collection_py_wf X : collection_wf X -> py_wf (collection_py X) = true.
Proof.
  destruct X as [d|l|h]; simpl; intros Hwf.
  - apply andb_true_iff. split.
    + apply bool_decide_eq_true. rewrite map_map. simpl. exact Hwf.
    + rewrite forallb_forall. intros kv [[k n] [<- _]]%in_map_iff. done.
  - rewrite forallb_forall. intros v [t [<- _]]%in_map_iff. done.
  - rewrite forallb_forall. intros v [e [<- _]]%in_map_iff. done.
Qed.

(** [load_json], case by case on what lies at the path. *)
Lemma load_json_cases p default st :
  load_json p default st
  = match fs st !! p with
    | Some (File true _ (Text s)) =>
        (Ok (match json_load s with Some v => v | None => default end), st)
    | Some (File true _ Garbled) =>
        (Raise (Exn UnicodeDecodeError "invalid start byte"), st)
    | _ => (Ok default, st)
    end.
Proof.
  unfold load_json, path_exists, open_read, json_load_file, file_read.
  cbn [bind try_except gets].
  destruct (fs st !! p) as [[w|r w [s|]]|] eqn:Hp; cbn; rewrite ?Hp; cbn;
    try done.
  - destruct r; cbn; [|done]. by destruct (json_load s).
  - by destruct r.
Qed.

(** What a successful [save_json] leaves at the path. *)
Lemma save_json_written p v st :
  store_ok (fs st) p = true ->
  exists m w,
    save_json p v st
    = (Ok tt, Assistant (notes st) (todos st) (history st) m (clock st) (out st))
    /\ m !! p = Some (File true w (Text (json_dump v)))
    /\ forall q, q <> p -> m !! q = fs st !! q.
Proof.
  unfold store_ok, save_json, open_write, file_write.
  cbn [bind try_except gets modify].
  destruct st as [ns ts h m c o]; cbn [fs notes todos history clock out set_fs].
  destruct (m !! p) as [[w|r w ct]|] eqn:Hp; [done| |].
  - intros [-> ->]%andb_true_iff. cbn. unfold set_fs. cbn.
    rewrite lookup_insert_eq. eexists _, _. split; [done|]. split.
    + by rewrite lookup_insert_eq.
    + intros q Hq. by rewrite !lookup_insert_ne.
  - destruct (m !! dirname p) as [[[]|? ? ?]|] eqn:Hd; try done. intros _. cbn.
    unfold set_fs. cbn. rewrite Hd. cbn.
    rewrite lookup_insert_eq. eexists _, _. split; [done|]. split.
    + by rewrite lookup_insert_eq.
    + intros q Hq. by rewrite !lookup_insert_ne.
Qed.

(** C3, as the code has it. Where the file can be written and read
    back, [load_json] after [save_json] returns the saved collection,
    whatever the default. *)
Theorem save_load_roundtrip p X default st :
  store_ok (fs st) p = true ->
  collection_wf X ->
  let st1 := snd (save_json p (collection_py X) st) in
  fst (save_json p (collection_py X) st) = Ok tt
  /\ load_json p default st1 = (Ok (collection_py X), st1).
Proof.
  intros Hok Hwf.
  destruct (save_json_written p (collection_py X) st Hok) as (m & w & -> & Hp & _).
  cbn [fst snd]. split; [done|].
  rewrite load_json_cases. cbn [fs]. rewrite Hp.
  by rewrite json_load_dump by by apply collection_py_wf.
Qed.

(** The part of the load contract the code delivers: a missing file,
    an unreadable one, a directory and a text that is not JSON all give
    the default, and a JSON text gives its value. *)
Lemma load_json_fallback p default st :
  match fs st !! p with
  | Some (File true _ Garbled) => True
  | Some (File true _ (Text s)) =>
      load_json p default st
      = (Ok (match json_load s with Some v => v | None => default end), st)
  | _ => load_json p default st = (Ok default, st)
  end.
Proof.
  rewrite load_json_cases.
  by destruct (fs st !! p) as [[w|[] w [s|]]|].
Qed.

End Claims.

(** * Further properties of the handlers, the store and the shell *)

Section Coverage.
Context {codec : JsonCodec} {host : Host}.

Lemma save_json_frame p v st :
  fst (save_json p v st) = Ok tt
  /\ notes (snd (save_json p v st)) = notes st
  /\ todos (snd (save_json p v st)) = todos st
  /\ history (snd (save_json p v st)) = history st
  /\ clock (snd (save_json p v st)) = clock st.
Proof. by destruct (save_json_returns p v st) as (m & o & ->). Qed.

Lemma save_json_pair p v st : save_json p v st = (Ok tt, snd (save_json p v st)).
Proof. by destruct (save_json_returns p v st) as (m & o & ->). Qed.

Lemma save_json_fs_other p v st q :
  q <> p -> fs (snd (save_json p v st)) !! q = fs st !! q.
Proof.
  intros Hq. unfold save_json, open_write, file_write.
  cbn [bind try_except gets modify].
  destruct st as [ns ts h m c o]; cbn [fs notes todos history clock out set_fs].
  destruct (m !! p) as [[w|r w ct]|] eqn:Hp; [done| |].
  - destruct w; [|done]. cbn. rewrite lookup_insert_eq. cbn.
    by rewrite !lookup_insert_ne.
  - destruct (m !! dirname p) as [[[]|? ? ?]|] eqn:Hd; cbn; rewrite Hd; cbn;
      try done.
    rewrite lookup_insert_eq. cbn. by rewrite !lookup_insert_ne.
Qed.

(** On a file that exists and can be written, [save_json] replaces
    the text and does nothing else. *)
Lemma save_json_over p v st r c :
  fs st !! p = Some (File r true c) ->
  save_json p v st
  = (Ok tt, set_fs (fun _ => <[p := File r true (Text (json_dump v))]> (fs st)) st).
Proof.
  intros Hp. unfold save_json, open_write, file_write.
  cbn [bind try_except gets modify].
  destruct st as [ns ts h m c0 o]; cbn [fs] in *. rewrite Hp. cbn.
  unfold set_fs. cbn. rewrite lookup_insert_eq.
  by rewrite insert_insert_eq.
Qed.

(** *** Persistent store *)

(** X1. [save_json] never raises, and leaves every other path, the
    collections and the clock as they were.  Where the file can be
    opened for writing it then holds the JSON text of the data and
    nothing is printed; where it cannot, the files stay as they were
    and one line "Error saving data: ..." is printed. *)
Theorem save_json_effect p v st :
  let st' := snd (save_json p v st) in
  fst (save_json p v st) = Ok tt
  /\ notes st' = notes st /\ todos st' = todos st
  /\ history st' = history st /\ clock st' = clock st
  /\ (forall q, q <> p -> fs st' !! q = fs st !! q)
  /\ (if can_write (fs st) p
      then out st' = out st
           /\ exists r w, fs st' !! p = Some (File r w (Text (json_dump v)))
      else fs st' = fs st
           /\ exists msg,
                out st' = out st ++ [Line ("Error saving data: " +:+ msg)]).
Proof.
  intros st'. subst st'.
  destruct (save_json_frame p v st) as (H1 & H2 & H3 & H4 & H5).
  do 5 (split; [done|]). split; [intros q; apply save_json_fs_other|].
  clear. unfold can_write, save_json, open_write, file_write.
  cbn [bind try_except gets modify].
  destruct st as [ns ts h m c o]; cbn [fs notes todos history clock out set_fs].
  destruct (m !! p) as [[w|r w ct]|] eqn:Hp.
  - cbn. eauto.
  - destruct w; cbn; [|eauto]. rewrite lookup_insert_eq. cbn.
    rewrite lookup_insert_eq. eauto.
  - destruct (m !! dirname p) as [[[]|? ? ?]|] eqn:Hd; cbn; rewrite Hd; cbn;
      eauto.
    rewrite lookup_insert_eq. cbn. rewrite lookup_insert_eq. eauto.
Qed.

(** *** Todo list *)

Lemma todo_add_eq a t ts st :
  PyStr.lower a = "add" ->
  todo_manager (a :: t :: ts) st
  = let task := PyStr.join " " (t :: ts) in
    let st1 := set_todos (fun l => l ++ [Todo task false (isoformat (clock st))])
                 (set_clock S st) in
    (Ok tt,
     with_out (snd (save_json todos_file (todos_py (todos st1)) st1))
       [Line ("Todo added: " +:+ task)]).
Proof.
  intros Ha. unfold todo_manager. rewrite Ha.
  change (String.eqb "add" "add") with true. cbv iota.
  change (length (a :: t :: ts) <? 2)%nat with false. cbv iota.
  cbn [bind now gets modify ret drop].
  rewrite save_json_pair. reflexivity.
Qed.

Lemma todo_done_eq a s rest k st :
  PyStr.lower a = "done" -> PyStr.to_Z s = Some k ->
  1 <= k <= Z.of_nat (length (todos st)) ->
  todo_manager (a :: s :: rest) st
  = let i := Z.to_nat (k - 1) in
    let st1 := set_todos (alter mark_done i) st in
    (Ok tt,
     with_out (snd (save_json todos_file (todos_py (todos st1)) st1))
       [Line ("Todo marked as done: "
              +:+ from_option task "" (todos st1 !! i))]).
Proof.
  intros Ha Hs Hk. unfold todo_manager. rewrite Ha.
  assert (Hc : (0 <=? k - 1) && (k - 1 <? Z.of_nat (length (todos st))) = true).
  { apply andb_true_iff. lia. }
  simpl. unfold int_. rewrite Hs. simpl. rewrite Hc.
  cbn.
  match goal with
  | |- context [save_json ?p ?v ?s] =>
      destruct (save_json_returns p v s) as (m & o & ->)
  end.
  reflexivity.
Qed.

Lemma todo_delete_eq a s rest k st :
  PyStr.lower a = "delete" -> PyStr.to_Z s = Some k ->
  1 <= k <= Z.of_nat (length (todos st)) ->
  todo_manager (a :: s :: rest) st
  = let i := Z.to_nat (k - 1) in
    let st1 := set_todos (delete i) st in
    (Ok tt,
     with_out (snd (save_json todos_file (todos_py (todos st1)) st1))
       [Line ("Todo deleted: " +:+ from_option task "" (todos st !! i))]).
Proof.
  intros Ha Hs Hk. unfold todo_manager. rewrite Ha.
  assert (Hc : (0 <=? k - 1) && (k - 1 <? Z.of_nat (length (todos st))) = true).
  { apply andb_true_iff. lia. }
  simpl. unfold int_. rewrite Hs. simpl. rewrite Hc.
  cbn.
  match goal with
  | |- context [save_json ?p ?v ?s] =>
      destruct (save_json_returns p v s) as (m & o & ->)
  end.
  reflexivity.
Qed.

Lemma map_imap {A B C} (f : B -> C) (g : nat -> A -> B) l :
  map f (imap g l) = imap (fun i x => f (g i x)) l.
Proof.
  revert g. induction l as [|x l IH]; intros g; [done|].
  simpl. f_equal. apply IH.
Qed.

(** X2. [todo add <words>] appends: after a run of such commands the
    list is the old one followed by one open item per command, in the
    order given, each with its words joined by single spaces and the
    clock reading of its command; notes and history are untouched. *)
Theorem todo_add_all_order ops st :
  Forall (fun op => op <> []) ops ->
  let st' := snd (todo_add_all ops st) in
  fst (todo_add_all ops st) = Ok tt
  /\ todos st'
     = todos st
       ++ imap (fun i op =>
                  Todo (PyStr.join " " op) false (isoformat (clock st + i))) ops
  /\ clock st' = (clock st + length ops)%nat
  /\ notes st' = notes st
  /\ history st' = history st.
Proof.
  intros Hops. revert st.
  induction Hops as [|op ops Hop _ IH]; intros st; cbn zeta.
  - simpl. rewrite app_nil_r. repeat split; lia.
  - destruct op as [|t ts]; [done|].
    unfold todo_add_all in *. cbn [for_each bind].
    rewrite (todo_add_eq "add" t ts st eq_refl). cbn zeta.
    match goal with
    | |- context [with_out ?s ?l] => specialize (IH (with_out s l)); set (s1 := with_out s l) in *
    end.
    cbn zeta in IH. destruct IH as (IH1 & IH2 & IH3 & IH4 & IH5).
    destruct (for_each ops _ s1) as [r s2] eqn:Hrun. cbn [fst snd] in *.
    subst r. split; [done|].
    rewrite IH2, IH3, IH4, IH5. subst s1. cbn [with_out set_out todos clock notes history].
    match goal with
    | |- context [save_json ?p ?v ?s] =>
        destruct (save_json_frame p v s) as (_ & -> & -> & -> & ->)
    end.
    cbn. rewrite <- app_assoc. cbn. rewrite Nat.add_0_r.
    repeat split; [|lia].
    do 2 f_equal. apply imap_ext. intros i x _. cbn. do 2 f_equal. lia.
Qed.

(** X3. [todo list] prints one line per item, numbered from 1 in list
    order with the check mark on the items that are done, or "No todos
    found" for an empty list; it changes nothing else. *)
Theorem todo_list_lines a rest st :
  PyStr.lower a = "list" ->
  todo_manager (a :: rest) st
  = (Ok tt,
     with_out st
       match todos st with
       | [] => [Line "No todos found"]
       | ts => imap todo_line ts
       end).
Proof.
  intros Ha. unfold todo_manager. rewrite Ha.
  change (String.eqb "list" "add") with false.
  change (String.eqb "list" "list") with true. cbv iota.
  cbn [bind gets]. destruct (todos st) as [|t ts] eqn:Hts; [done|].
  rewrite for_each_print. unfold enumerate1. by rewrite map_imap.
Qed.

(** X4. [todo done k] with [k] in [1, N] marks item [k] done and
    keeps its task and creation time; the list keeps its length and
    every other item, and the task of item [k] is reported.  Notes,
    history and clock are untouched. *)
Theorem todo_done_marks a s rest k st :
  PyStr.lower a = "done" -> PyStr.to_Z s = Some k ->
  1 <= k <= Z.of_nat (length (todos st)) ->
  let i := Z.to_nat (k - 1) in
  let st' := snd (todo_manager (a :: s :: rest) st) in
  fst (todo_manager (a :: s :: rest) st) = Ok tt
  /\ length (todos st') = length (todos st)
  /\ (exists t,
        todos st !! i = Some t
        /\ todos st' !! i = Some (Todo (task t) true (created t))
        /\ last (out st') = Some (Line ("Todo marked as done: " +:+ task t)))
  /\ (forall j, j <> i -> todos st' !! j = todos st !! j)
  /\ notes st' = notes st /\ history st' = history st /\ clock st' = clock st.
Proof.
  intros Ha Hs Hk i st'. subst st'.
  rewrite (todo_done_eq a s rest k st Ha Hs Hk). cbn zeta. fold i.
  cbn [fst snd with_out set_out todos notes history clock out].
  match goal with
  | |- context [save_json ?p ?v ?s] =>
      destruct (save_json_frame p v s) as (_ & -> & -> & -> & ->)
  end.
  cbn [set_todos todos notes history clock].
  split; [done|]. split; [by rewrite length_alter|].
  split.
  - destruct (lookup_lt_is_Some_2 (todos st) i) as [t Ht]; [lia|].
    exists t. rewrite list_lookup_alter_eq, Ht. split; [done|]. split; [done|].
    by rewrite last_snoc.
  - split; [|done]. intros j Hj. by rewrite list_lookup_alter_ne.
Qed.

(** X5. [todo delete k] with [k] in [1, N] removes item [k] and no
    other: the items before it keep their place, the items after it
    move up by one, and the task removed is reported.  Notes, history
    and clock are untouched. *)
Theorem todo_delete_removes a s rest k st :
  PyStr.lower a = "delete" -> PyStr.to_Z s = Some k ->
  1 <= k <= Z.of_nat (length (todos st)) ->
  let i := Z.to_nat (k - 1) in
  let st' := snd (todo_manager (a :: s :: rest) st) in
  fst (todo_manager (a :: s :: rest) st) = Ok tt
  /\ todos st' = take i (todos st) ++ drop (S i) (todos st)
  /\ S (length (todos st')) = length (todos st)
  /\ (forall j, (j < i)%nat -> todos st' !! j = todos st !! j)
  /\ (forall j, (i <= j)%nat -> todos st' !! j = todos st !! S j)
  /\ (exists t,
        todos st !! i = Some t
        /\ last (out st') = Some (Line ("Todo deleted: " +:+ task t)))
  /\ notes st' = notes st /\ history st' = history st /\ clock st' = clock st.
Proof.
  intros Ha Hs Hk i st'. subst st'.
  rewrite (todo_delete_eq a s rest k st Ha Hs Hk). cbn zeta. fold i.
  cbn [fst snd with_out set_out todos notes history clock out].
  match goal with
  | |- context [save_json ?p ?v ?s] =>
      destruct (save_json_frame p v s) as (_ & -> & -> & -> & ->)
  end.
  cbn [set_todos todos notes history clock].
  assert (Hi : (i < length (todos st))%nat) by lia.
  split; [done|]. split; [apply delete_take_drop|].
  split; [rewrite length_delete by (by apply lookup_lt_is_Some_2); lia|].
  split; [intros j Hj; by apply list_lookup_delete_lt|].
  split; [intros j Hj; by apply list_lookup_delete_ge|].
  split; [|done].
  destruct (lookup_lt_is_Some_2 (todos st) i Hi) as [t Ht].
  exists t. split; [done|]. by rewrite Ht, last_snoc.
Qed.

(** X6. Adding a task and then deleting the last item by its number
    gives back the list as it was. *)
Theorem todo_add_delete_roundtrip t ts s rest st :
  PyStr.to_Z s = Some (Z.of_nat (length (todos st)) + 1) ->
  let st1 := snd (todo_manager ("add" :: t :: ts) st) in
  todos (snd (todo_manager ("delete" :: s :: rest) st1)) = todos st.
Proof.
  intros Hs st1.
  assert (Ht1 : todos st1
                = todos st ++ [Todo (PyStr.join " " (t :: ts)) false
                                 (isoformat (clock st))]).
  { subst st1. rewrite (todo_add_eq "add" t ts st eq_refl). cbn zeta.
    cbn [fst snd with_out set_out todos].
    match goal with
    | |- context [save_json ?p ?v ?s] =>
        destruct (save_json_frame p v s) as (_ & _ & -> & _)
    end.
    done. }
  assert (Hl : length (todos st1) = S (length (todos st))).
  { rewrite Ht1, length_app. simpl. lia. }
  rewrite (todo_delete_eq "delete" s rest _ st1 eq_refl Hs) by lia.
  cbn zeta. cbn [fst snd with_out set_out todos].
  match goal with
  | |- context [save_json ?p ?v ?s] =>
      destruct (save_json_frame p v s) as (_ & _ & -> & _)
  end.
  cbn [set_todos todos]. rewrite Ht1.
  replace (Z.to_nat (Z.of_nat (length (todos st)) + 1 - 1))
    with (length (todos st)) by lia.
  rewrite delete_take_drop, take_app_length, drop_app_ge by lia.
  replace (S (length (todos st)) - length (todos st))%nat with 1%nat by lia.
  simpl. by rewrite app_nil_r.
Qed.

(** *** Notes *)

Lemma del_set_fresh {V} k (v : V) d :
  k ∉ PyDict.keys d -> PyDict.del k (PyDict.set k v d) = d.
Proof.
  induction d as [|[k' v'] d IH]; simpl; intros Hk.
  - by rewrite String.eqb_refl.
  - apply not_elem_of_cons in Hk as [Hne Hk].
    apply String.eqb_neq in Hne. rewrite Hne. simpl. rewrite Hne.
    by rewrite IH.
Qed.

Lemma keys_del_subset {V} k k' (d : list (string * V)) :
  k' ∈ PyDict.keys (PyDict.del k d) -> k' ∈ PyDict.keys d.
Proof.
  induction d as [|[k0 v0] d IH]; simpl; [done|].
  destruct (String.eqb k k0); simpl; rewrite !elem_of_cons; tauto.
Qed.

Lemma NoDup_keys_del {V} k (d : list (string * V)) :
  NoDup (PyDict.keys d) -> NoDup (PyDict.keys (PyDict.del k d)).
Proof.
  induction d as [|[k0 v0] d IH]; simpl; [done|].
  intros [Hk0 Hd]%NoDup_cons. destruct (String.eqb k k0); [done|]. simpl.
  apply NoDup_cons. split; [|by apply IH].
  intros Hin. by apply Hk0, (keys_del_subset k).
Qed.

Lemma get_del_eq {V} k (d : list (string * V)) :
  NoDup (PyDict.keys d) -> PyDict.get k (PyDict.del k d) = None.
Proof.
  induction d as [|[k0 v0] d IH]; simpl; [done|].
  intros [Hk0 Hd]%NoDup_cons. destruct (String.eqb k k0) eqn:Hk; simpl.
  - apply String.eqb_eq in Hk as <-. by apply PyDictFacts.get_None_keys.
  - rewrite Hk. by apply IH.
Qed.

Lemma get_del_ne {V} k k' (d : list (string * V)) :
  k' <> k -> PyDict.get k' (PyDict.del k d) = PyDict.get k' d.
Proof.
  intros Hne. induction d as [|[k0 v0] d IH]; simpl; [done|].
  destruct (String.eqb k k0) eqn:Hk; simpl.
  - apply String.eqb_eq in Hk as <-.
    by apply String.eqb_neq in Hne as ->.
  - by rewrite IH.
Qed.

Lemma mem_false_del {V} k (d : list (string * V)) :
  PyDict.mem k d = false -> PyDict.get k d = None.
Proof. unfold PyDict.mem. by destruct (PyDict.get k d). Qed.

Lemma note_add_eq a t c cs st :
  PyStr.lower a = "add" ->
  note_manager (a :: t :: c :: cs) st
  = let st1 :=
      set_notes
        (PyDict.set t (Note (PyStr.join " " (c :: cs)) (isoformat (clock st))))
        (set_clock S st) in
    (Ok tt,
     with_out (snd (save_json notes_file (notes_py (notes st1)) st1))
       [Line ("Note '" +:+ t +:+ "' added successfully")]).
Proof.
  intros Ha. unfold note_manager. rewrite Ha.
  change (String.eqb "add" "add") with true. cbv iota.
  change (length (a :: t :: c :: cs) <? 3)%nat with false. cbv iota.
  cbn [bind now gets modify ret nth drop].
  match goal with
  | |- context [save_json ?p ?v ?s] =>
      destruct (save_json_returns p v s) as (m & o & ->)
  end.
  reflexivity.
Qed.

Lemma note_delete_eq a t rest st :
  PyStr.lower a = "delete" ->
  note_manager (a :: t :: rest) st
  = if PyDict.mem t (notes st) then
      let st1 := set_notes (PyDict.del t) st in
      (Ok tt,
       with_out (snd (save_json notes_file (notes_py (notes st1)) st1))
         [Line ("Note '" +:+ t +:+ "' deleted")])
    else (Ok tt, with_out st [Line ("Note '" +:+ t +:+ "' not found")]).
Proof.
  intros Ha. unfold note_manager. rewrite Ha.
  change (String.eqb "delete" "add") with false.
  change (String.eqb "delete" "list") with false.
  change (String.eqb "delete" "delete") with true. cbv iota.
  change (length (a :: t :: rest) <? 2)%nat with false. cbv iota.
  cbn [bind now gets modify ret nth].
  destruct (PyDict.mem t (notes st)); [|done].
  cbn [bind now gets modify ret nth].
  match goal with
  | |- context [save_json ?p ?v ?s] =>
      destruct (save_json_returns p v s) as (m & o & ->)
  end.
  reflexivity.
Qed.

(** X7. [note delete <title>] removes that title and no other: the
    title is absent afterwards and every other title keeps its note.
    A title that was absent is reported as not found and nothing but
    standard output changes. *)
Theorem note_delete_removes a t rest st :
  PyStr.lower a = "delete" ->
  NoDup (PyDict.keys (notes st)) ->
  let st' := snd (note_manager (a :: t :: rest) st) in
  fst (note_manager (a :: t :: rest) st) = Ok tt
  /\ PyDict.get t (notes st') = None
  /\ (forall t', t' <> t -> PyDict.get t' (notes st') = PyDict.get t' (notes st))
  /\ NoDup (PyDict.keys (notes st'))
  /\ last (out st')
     = Some (Line ("Note '" +:+ t
                   +:+ (if PyDict.mem t (notes st) then "' deleted"
                        else "' not found")))
  /\ (PyDict.mem t (notes st) = false ->
      st' = with_out st [Line ("Note '" +:+ t +:+ "' not found")])
  /\ todos st' = todos st /\ history st' = history st /\ clock st' = clock st.
Proof.
  intros Ha Hnd st'. subst st'. rewrite (note_delete_eq a t rest st Ha).
  destruct (PyDict.mem t (notes st)) eqn:Hm.
  - cbn zeta. cbn [fst snd with_out set_out todos notes history clock out].
    match goal with
    | |- context [save_json ?p ?v ?s] =>
        destruct (save_json_frame p v s) as (_ & -> & -> & -> & ->)
    end.
    cbn [set_notes todos notes history clock].
    split; [done|]. split; [by apply get_del_eq|].
    split; [intros t' Ht'; by apply get_del_ne|].
    split; [by apply NoDup_keys_del|].
    split; [by rewrite last_snoc|]. done.
  - cbn [fst snd with_out set_out todos notes history clock out].
    split; [done|]. split; [by apply mem_false_del|].
    split; [done|]. split; [done|]. split; [by rewrite last_snoc|]. done.
Qed.

(** X8. Adding a note under a title that is not in use and deleting
    that title gives back the notes as they were, order included. *)
Theorem note_add_delete_roundtrip t c cs rest st :
  t ∉ PyDict.keys (notes st) ->
  let st1 := snd (note_manager ("add" :: t :: c :: cs) st) in
  notes (snd (note_manager ("delete" :: t :: rest) st1)) = notes st.
Proof.
  intros Ht st1.
  assert (Hn1 : notes st1
                = PyDict.set t (Note (PyStr.join " " (c :: cs))
                                  (isoformat (clock st))) (notes st)).
  { subst st1. rewrite (note_add_eq "add" t c cs st eq_refl). cbn zeta.
    cbn [fst snd with_out set_out notes].
    match goal with
    | |- context [save_json ?p ?v ?s] =>
        destruct (save_json_frame p v s) as (_ & -> & _)
    end.
    done. }
  rewrite (note_delete_eq "delete" t rest st1 eq_refl).
  assert (Hm : PyDict.mem t (notes st1) = true).
  { unfold PyDict.mem. by rewrite Hn1, PyDictFacts.get_set_eq. }
  rewrite Hm. cbn zeta. cbn [fst snd with_out set_out notes].
  match goal with
  | |- context [save_json ?p ?v ?s] =>
      destruct (save_json_frame p v s) as (_ & -> & _)
  end.
  cbn [set_notes notes]. rewrite Hn1. by apply del_set_fresh.
Qed.

Lemma for_each_lines {A} (body : A -> M unit) (g : A -> list output) l st :
  (forall x s, body x s = (Ok tt, with_out s (g x))) ->
  for_each l body st = (Ok tt, with_out st (concat (map g l))).
Proof.
  intros Hbody. revert st. induction l as [|x l IH]; intros st; simpl.
  - by rewrite with_out_nil.
  - rewrite Hbody, IH. by rewrite with_out_app.
Qed.

(** X9. [note list] prints three lines per note, in insertion order:
    the title, the content and the first 19 characters of the time
    stamp; with no notes it prints "No notes found".  Nothing else
    changes. *)
Theorem note_list_lines a rest st :
  PyStr.lower a = "list" ->
  note_manager (a :: rest) st
  = (Ok tt,
     with_out st
       match notes st with
       | [] => [Line "No notes found"]
       | ns => concat (map note_lines ns)
       end).
Proof.
  intros Ha. unfold note_manager. rewrite Ha.
  change (String.eqb "list" "add") with false.
  change (String.eqb "list" "list") with true. cbv iota.
  cbn [bind gets]. destruct (notes st) as [|n ns] eqn:Hns; [done|].
  apply for_each_lines. intros x s. cbn. unfold with_out, set_out. cbn.
  by rewrite <- !app_assoc.
Qed.

Lemma note_search_loop keyword ns found st :
  for_fold ns found (fun found kv =>
    if PyStr.contains keyword (PyStr.lower (fst kv))
       || PyStr.contains keyword (PyStr.lower (content (snd kv)))
    then
      print (nl +:+ fst kv +:+ ":") ;;
      print ("  " +:+ content (snd kv)) ;;
      ret true
    else ret found) st
  = (Ok (found || existsb (note_matches keyword) ns),
     with_out st (concat (map hit_lines (List.filter (note_matches keyword) ns)))).
Proof.
  revert found st. induction ns as [|kv ns IH]; intros found st.
  - simpl. by rewrite orb_false_r, with_out_nil.
  - cbn [for_fold bind List.filter existsb]. unfold note_matches at 1 3.
    destruct (PyStr.contains keyword (PyStr.lower (fst kv))
              || PyStr.contains keyword (PyStr.lower (content (snd kv)))).
    + cbn [print modify bind ret]. rewrite IH. cbn [map concat].
      rewrite orb_true_r. f_equal. unfold with_out, set_out. cbn.
      by rewrite <- !app_assoc.
    + cbn [ret]. rewrite IH. by rewrite orb_false_l.
Qed.

Lemma filter_nil_existsb {A} (f : A -> bool) l :
  existsb f l = match List.filter f l with [] => false | _ => true end.
Proof.
  induction l as [|x l IH]; simpl; [done|]. by destruct (f x).
Qed.

(** X10. [note search <keyword>] prints, in insertion order, title
    and content of exactly the notes whose title or content contains
    the lowercased keyword once lowercased themselves, and "No notes
    found matching the keyword" when there is none.  Nothing else
    changes. *)
Theorem note_search_lines a kw rest st :
  PyStr.lower a = "search" ->
  note_manager (a :: kw :: rest) st
  = (Ok tt,
     with_out st
       match List.filter (note_matches (PyStr.lower kw)) (notes st) with
       | [] => [Line "No notes found matching the keyword"]
       | hits => concat (map hit_lines hits)
       end).
Proof.
  intros Ha. unfold note_manager. rewrite Ha.
  change (String.eqb "search" "add") with false.
  change (String.eqb "search" "list") with false.
  change (String.eqb "search" "delete") with false.
  change (String.eqb "search" "search") with true. cbv iota.
  change (length (a :: kw :: rest) <? 2)%nat with false. cbv iota.
  cbn [bind gets nth]. rewrite note_search_loop. cbn [orb].
  rewrite filter_nil_existsb.
  destruct (List.filter (note_matches (PyStr.lower kw)) (notes st)) as [|h hs].
  - cbn. unfold with_out, set_out. cbn. by rewrite app_nil_r.
  - reflexivity.
Qed.

(** *** History *)

(** X11. [history] prints "Recent commands:" and then the last ten
    entries at most, oldest first, numbered from 1 whatever their
    place in the log, each with its command and the first 19
    characters of its time stamp; with an empty log it prints "No
    command history".  Nothing else changes. *)
Theorem show_history_lines args st :
  show_history args st
  = (Ok tt,
     with_out st
       match history st with
       | [] => [Line "No command history"]
       | h => Line "Recent commands:" :: imap history_line (last_n 10 h)
       end)
  /\ (length (imap history_line (last_n 10 (history st))) <= 10)%nat.
Proof.
  split.
  - unfold show_history. cbn [bind gets].
    destruct (history st) as [|e h] eqn:Hh; [done|].
    cbn [print modify bind]. rewrite for_each_print.
    unfold enumerate1. rewrite map_imap.
    unfold with_out, set_out. cbn. by rewrite <- app_assoc.
  - rewrite length_imap. apply last_n_length.
Qed.

(** *** What each command may change *)

Lemma keeps_save_json_other p q v :
  q <> p -> keeps (fun st => fs st !! q) (save_json p v).
Proof. intros Hq st. by apply save_json_fs_other. Qed.

Ltac frame_auto :=
  repeat first
    [ apply keeps_now; solve [done | intros; auto]
    | apply keeps_emit; solve [done | intros; auto]
    | apply keeps_save_json_other; solve [done | intros; auto]
    | keeps_step ].

Section Frame.
Context {X : Type} (f : assistant -> X).
Hypothesis Hout : forall g st, f (set_out g st) = f st.
Hypothesis Hclock : forall g st, f (set_clock g st) = f st.

Lemma show_help_frame args : keeps f (show_help args).
Proof. unfold show_help. frame_auto. Qed.
Lemma show_time_frame args : keeps f (show_time args).
Proof. unfold show_time. frame_auto. Qed.
Lemma show_date_frame args : keeps f (show_date args).
Proof. unfold show_date. frame_auto. Qed.
Lemma get_weather_frame args : keeps f (get_weather args).
Proof. unfold get_weather. frame_auto. Qed.
Lemma calculator_frame args : keeps f (calculator args).
Proof. unfold calculator, eval_str. frame_auto. Qed.
Lemma file_operations_frame args : keeps f (file_operations args).
Proof. unfold file_operations. frame_auto. Qed.
Lemma system_info_frame args : keeps f (system_info args).
Proof. unfold system_info. frame_auto. Qed.
Lemma unit_converter_frame args : keeps f (unit_converter args).
Proof. unfold unit_converter. frame_auto. Qed.
Lemma search_files_frame args : keeps f (search_files args).
Proof. unfold search_files. frame_auto. Qed.
Lemma show_history_frame args : keeps f (show_history args).
Proof. unfold show_history. frame_auto. Qed.
Lemma clear_screen_frame args : keeps f (clear_screen args).
Proof. unfold clear_screen. frame_auto. Qed.
Lemma exit_assistant_frame args : keeps f (exit_assistant args).
Proof. unfold exit_assistant. frame_auto. Qed.

(** The handlers other than [note] and [todo] read the clock and
    write to standard output, and do nothing else to the state. *)
Lemma handlers_frame name handler args :
  PyDict.get name commands = Some handler ->
  name <> "note" -> name <> "todo" ->
  keeps f (handler args).
Proof.
  intros Hget Hn Ht. revert Hget. unfold commands. simpl.
  repeat (destruct (String.eqb name _) eqn:E;
          [apply String.eqb_eq in E; intros [= <-]; try congruence;
           eauto using show_help_frame, show_time_frame, show_date_frame,
             get_weather_frame, calculator_frame, file_operations_frame,
             system_info_frame, unit_converter_frame, search_files_frame,
             show_history_frame, clear_screen_frame, exit_assistant_frame
          |clear E]).
  done.
Qed.

End Frame.

Lemma note_manager_keeps_todos args : keeps todos (note_manager args).
Proof. unfold note_manager. frame_auto. Qed.

Lemma todo_manager_keeps_notes args : keeps notes (todo_manager args).
Proof. unfold todo_manager, int_. frame_auto. Qed.

Lemma note_manager_keeps_file args p :
  p <> notes_file -> keeps (fun st => fs st !! p) (note_manager args).
Proof. intros Hp. unfold note_manager. frame_auto. Qed.

Lemma todo_manager_keeps_file args p :
  p <> todos_file -> keeps (fun st => fs st !! p) (todo_manager args).
Proof. intros Hp. unfold todo_manager, int_. frame_auto. Qed.

Lemma add_to_history_keeps_file cmd p :
  p <> history_file -> keeps (fun st => fs st !! p) (add_to_history cmd).
Proof. intros Hp. unfold add_to_history. frame_auto. Qed.

Lemma add_to_history_keeps_notes cmd : keeps notes (add_to_history cmd).
Proof. unfold add_to_history. frame_auto. Qed.

Lemma add_to_history_keeps_todos cmd : keeps todos (add_to_history cmd).
Proof. unfold add_to_history. frame_auto. Qed.

Lemma handlers_keep {X} (f : assistant -> X) name handler args :
  (forall g st, f (set_out g st) = f st) ->
  (forall g st, f (set_clock g st) = f st) ->
  PyDict.get name commands = Some handler ->
  (name = "note" -> keeps f (note_manager args)) ->
  (name = "todo" -> keeps f (todo_manager args)) ->
  keeps f (handler args).
Proof.
  intros Hout Hclock Hget Hn Ht.
  destruct (String.eqb name "note") eqn:En.
  { apply String.eqb_eq in En. subst name. injection Hget as <-. by apply Hn. }
  destruct (String.eqb name "todo") eqn:Et.
  { apply String.eqb_eq in Et. subst name. injection Hget as <-. by apply Ht. }
  apply String.eqb_neq in En, Et. by apply (handlers_frame f Hout Hclock name).
Qed.

Lemma execute_command_keeps {X} (f : assistant -> X) cmd args :
  (forall g st, f (set_out g st) = f st) ->
  (forall g st, f (set_clock g st) = f st) ->
  (forall c, keeps f (add_to_history c)) ->
  (cmd = "note" -> keeps f (note_manager args)) ->
  (cmd = "todo" -> keeps f (todo_manager args)) ->
  keeps f (execute_command cmd args).
Proof.
  intros Hout Hclock Hh Hn Ht. unfold execute_command.
  destruct (PyDict.get cmd commands) as [handler|] eqn:Hget.
  - apply keeps_bind; [apply Hh|]. intros _. by apply (handlers_keep f cmd).
  - frame_auto.
Qed.

(** X12. What a dispatched command may change.  Only [note] changes
    the notes and writes the notes file; only [todo] changes the todos
    and writes the todos file; besides those, a command writes the
    history file and no other path. *)
Theorem execute_command_frame cmd args st :
  let st' := snd (execute_command cmd args st) in
  (cmd <> "note" -> notes st' = notes st)
  /\ (cmd <> "todo" -> todos st' = todos st)
  /\ (forall p,
        p <> history_file ->
        cmd <> "note" \/ p <> notes_file ->
        cmd <> "todo" \/ p <> todos_file ->
        fs st' !! p = fs st !! p).
Proof.
  cbn zeta. split; [|split].
  - intros Hn. apply (execute_command_keeps notes); try done.
    + apply add_to_history_keeps_notes.
    + intros _. apply todo_manager_keeps_notes.
  - intros Ht. apply (execute_command_keeps todos); try done.
    + apply add_to_history_keeps_todos.
    + intros _. apply note_manager_keeps_todos.
  - intros p Hh Hn Ht.
    apply (execute_command_keeps (fun st => fs st !! p)); try done.
    + intros c. by apply add_to_history_keeps_file.
    + intros ->. apply note_manager_keeps_file. by destruct Hn.
    + intros ->. apply todo_manager_keeps_file. by destruct Ht.
Qed.

(** *** The data files *)

Lemma list_ascii_append s t :
  list_ascii_of_string (s +:+ t)
  = list_ascii_of_string s ++ list_ascii_of_string t.
Proof. induction s as [|c s IH]; simpl; [done|]. by rewrite IH. Qed.

Lemma append_inj_l s a b : s +:+ a = s +:+ b -> a = b.
Proof. induction s as [|c s IH]; simpl; [done|]. intros [= H]. by apply IH. Qed.

Lemma append_neq_l s t : t <> "" -> s +:+ t <> s.
Proof.
  intros Ht. induction s as [|c s IH]; simpl; [done|]. intros [= H]. by apply IH.
Qed.

Lemma dirname_go_none name :
  "/"%char ∉ name -> dirname_go name = None.
Proof.
  induction name as [|c name IH]; [done|].
  intros [Hc Hn]%not_elem_of_cons. simpl. rewrite IH by done.
  destruct (Ascii.eqb c "/") eqn:E; [|done].
  by apply Ascii.eqb_eq in E.
Qed.

Lemma dirname_go_app d name :
  "/"%char ∉ name -> dirname_go (d ++ "/"%char :: name) = Some d.
Proof.
  intros Hn. induction d as [|c d IH]; simpl.
  - by rewrite dirname_go_none.
  - by rewrite IH.
Qed.

(** The directory of a file named [name] in a directory [d]. *)
Lemma dirname_join d name :
  d <> "" -> "/"%char ∉ list_ascii_of_string name ->
  dirname (d +:+ String "/" name) = d.
Proof.
  intros Hd Hn. unfold dirname. rewrite list_ascii_append. simpl.
  rewrite dirname_go_app by done.
  destruct d as [|c d]; [done|]. simpl.
  by rewrite string_of_list_ascii_of_string.
Qed.

Lemma data_dir_nonempty : data_dir <> "".
Proof.
  unfold data_dir. intros H.
  apply (f_equal list_ascii_of_string) in H. rewrite list_ascii_append in H.
  by destruct (list_ascii_of_string home).
Qed.

Lemma dirname_notes_file : dirname notes_file = data_dir.
Proof.
  apply dirname_join; [apply data_dir_nonempty|].
  by apply (bool_decide_unpack _).
Qed.

Lemma dirname_todos_file : dirname todos_file = data_dir.
Proof.
  apply dirname_join; [apply data_dir_nonempty|].
  by apply (bool_decide_unpack _).
Qed.

Lemma dirname_history_file : dirname history_file = data_dir.
Proof.
  apply dirname_join; [apply data_dir_nonempty|].
  by apply (bool_decide_unpack _).
Qed.

(** The three files are distinct paths, and none is the directory. *)
Lemma data_paths_distinct :
  notes_file <> todos_file /\ notes_file <> history_file
  /\ todos_file <> history_file
  /\ data_dir <> notes_file /\ data_dir <> todos_file
  /\ data_dir <> history_file.
Proof.
  unfold notes_file, todos_file, history_file.
  repeat split; try (by intros ?%append_inj_l);
    intros H; symmetry in H; by apply append_neq_l in H.
Qed.

Lemma on_disk_saved m dir p v e :
  on_disk (<[p := File true true (Text (json_dump v))]> m) dir p v e.
Proof. left. apply lookup_insert_eq. Qed.

Lemma on_disk_other m dir p q n v e :
  q <> p -> dir <> p -> on_disk m dir q v e -> on_disk (<[p := n]> m) dir q v e.
Proof.
  intros Hq Hd. unfold on_disk. by rewrite !lookup_insert_ne.
Qed.

(** Where the file mirrors a collection, [save_json] succeeds
    silently. *)
Lemma save_json_on_disk p v v0 e st :
  on_disk (fs st) (dirname p) p v0 e ->
  save_json p v st
  = (Ok tt, set_fs <[p := File true true (Text (json_dump v))]> st).
Proof.
  intros [Hp|(Hp & Hd & _)].
  - by rewrite (save_json_over p v st _ _ Hp).
  - unfold save_json, open_write, file_write.
    cbn [bind try_except gets modify].
    destruct st as [ns ts h m c o]; cbn [fs] in *. rewrite Hp. cbn.
    rewrite Hd. cbn. unfold set_fs. cbn. rewrite lookup_insert_eq.
    by rewrite insert_insert_eq.
Qed.

Lemma session_ok_same_data st st' :
  same_data st st' -> session_ok st -> session_ok st'.
Proof.
  intros (Hn & Ht & Hh & Hf). unfold session_ok. by rewrite Hn, Ht, Hh, Hf.
Qed.

Lemma keeps_same_data {A} (m : M A) st :
  keeps notes m -> keeps todos m -> keeps history m -> keeps fs m ->
  same_data st (snd (m st)).
Proof. intros Hn Ht Hh Hf. by split; [|split; [|split]]. Qed.

(** *** The session invariant *)

Ltac same_data_auto :=
  apply keeps_same_data; frame_auto.

(** [note] either leaves collections and files alone, or it is an
    [add] with title and content, or a [delete] of a title in use. *)
Lemma note_manager_cases args st :
  same_data st (snd (note_manager args st))
  \/ (exists a t c cs, args = a :: t :: c :: cs /\ PyStr.lower a = "add")
  \/ (exists a t rest,
        args = a :: t :: rest /\ PyStr.lower a = "delete"
        /\ PyDict.mem t (notes st) = true).
Proof.
  destruct args as [|a rest]; [left; by same_data_auto|].
  destruct (String.eqb (PyStr.lower a) "add") eqn:E1.
  { apply String.eqb_eq in E1. destruct rest as [|t [|c cs]].
    - left. unfold note_manager. rewrite E1. by same_data_auto.
    - left. unfold note_manager. rewrite E1. by same_data_auto.
    - right. left. eauto 10. }
  destruct (String.eqb (PyStr.lower a) "delete") eqn:E3.
  { apply String.eqb_eq in E3. destruct rest as [|t rest].
    - left. unfold note_manager. rewrite E3. by same_data_auto.
    - destruct (PyDict.mem t (notes st)) eqn:Hm.
      + right. right. eauto 10.
      + left. rewrite (note_delete_eq a t rest st E3), Hm. done. }
  left. unfold note_manager. cbv zeta. rewrite E1, E3. cbv iota.
  by same_data_auto.
Qed.

(** [todo] either leaves collections and files alone, or it is an
    [add] with a task, or a [done] or [delete] with a number in
    range. *)
Lemma todo_manager_cases args st :
  same_data st (snd (todo_manager args st))
  \/ (exists a t ts, args = a :: t :: ts /\ PyStr.lower a = "add")
  \/ (exists a s rest k,
        args = a :: s :: rest
        /\ (PyStr.lower a = "done" \/ PyStr.lower a = "delete")
        /\ PyStr.to_Z s = Some k
        /\ 1 <= k <= Z.of_nat (length (todos st))).
Proof.
  destruct args as [|a rest]; [left; by same_data_auto|].
  destruct (String.eqb (PyStr.lower a) "add") eqn:E1.
  { apply String.eqb_eq in E1. destruct rest as [|t ts].
    - left. unfold todo_manager. rewrite E1. by same_data_auto.
    - right. left. eauto 10. }
  destruct (String.eqb (PyStr.lower a) "done") eqn:E3;
    [|destruct (String.eqb (PyStr.lower a) "delete") eqn:E4].
  3: { left. unfold todo_manager. cbv zeta. rewrite E1, E3, E4. cbv iota.
       by same_data_auto. }
  all: match goal with
       | H : String.eqb _ ?x = true |- _ =>
           apply String.eqb_eq in H; rename H into Ha
       end.
  all: destruct rest as [|s rest];
    [left; unfold todo_manager; rewrite Ha; by same_data_auto|].
  all: destruct (PyStr.to_Z s) as [k|] eqn:Hs;
    [|left; unfold todo_manager; rewrite Ha; simpl; unfold int_; rewrite Hs;
      done].
  all: destruct ((0 <=? k - 1) && (k - 1 <? Z.of_nat (length (todos st))))
         eqn:Hc;
    [right; right; exists a, s, rest, k;
     apply andb_true_iff in Hc; repeat split; auto; lia
    |left; unfold todo_manager; rewrite Ha; simpl; unfold int_; rewrite Hs;
     simpl; by rewrite Hc].
Qed.

Lemma note_manager_session_ok args st :
  session_ok st -> session_ok (snd (note_manager args st)).
Proof.
  intros Hok.
  destruct (data_paths_distinct) as (H1 & H2 & H3 & H4 & H5 & H6).
  destruct (note_manager_cases args st)
    as [Hs|[(a & t & c & cs & -> & Ha)|(a & t & rest & -> & Ha & Hm)]].
  - by apply (session_ok_same_data st).
  - rewrite (note_add_eq a t c cs st Ha). cbn zeta.
    destruct Hok as (Hh & Hnd & Hn & Ht & Hhi).
    erewrite save_json_on_disk
      by (rewrite dirname_notes_file; cbn [fs set_notes set_clock]; exact Hn).
    unfold session_ok.
    cbn [snd with_out set_out set_fs set_notes set_clock
         notes todos history fs].
    split; [done|]. split; [by apply PyDictFacts.NoDup_keys_set|].
    split; [apply on_disk_saved|].
    split; by apply on_disk_other.
  - rewrite (note_delete_eq a t rest st Ha), Hm. cbn zeta.
    destruct Hok as (Hh & Hnd & Hn & Ht & Hhi).
    erewrite save_json_on_disk
      by (rewrite dirname_notes_file; cbn [fs set_notes set_clock]; exact Hn).
    unfold session_ok.
    cbn [snd with_out set_out set_fs set_notes set_clock
         notes todos history fs].
    split; [done|]. split; [by apply NoDup_keys_del|].
    split; [apply on_disk_saved|].
    split; by apply on_disk_other.
Qed.

Lemma todo_manager_session_ok args st :
  session_ok st -> session_ok (snd (todo_manager args st)).
Proof.
  intros Hok.
  destruct (data_paths_distinct) as (H1 & H2 & H3 & H4 & H5 & H6).
  destruct (todo_manager_cases args st)
    as [Hs|[(a & t & ts & -> & Ha)
           |(a & s & rest & k & -> & Ha & Hs & Hk)]].
  - by apply (session_ok_same_data st).
  - rewrite (todo_add_eq a t ts st Ha). cbn zeta.
    destruct Hok as (Hh & Hnd & Hn & Ht & Hhi).
    erewrite save_json_on_disk
      by (rewrite dirname_todos_file; cbn [fs set_todos set_clock]; exact Ht).
    unfold session_ok.
    cbn [snd with_out set_out set_fs set_todos set_clock
         notes todos history fs].
    split; [done|]. split; [done|].
    split; [by apply on_disk_other|].
    split; [apply on_disk_saved|by apply on_disk_other].
  - destruct Hok as (Hh & Hnd & Hn & Ht & Hhi).
    destruct Ha as [Ha|Ha];
      [rewrite (todo_done_eq a s rest k st Ha Hs Hk)
      |rewrite (todo_delete_eq a s rest k st Ha Hs Hk)];
      cbn zeta;
      (erewrite save_json_on_disk
         by (rewrite dirname_todos_file; cbn [fs set_todos set_clock];
             exact Ht));
      unfold session_ok;
      cbn [snd with_out set_out set_fs set_todos set_clock
           notes todos history fs];
      (split; [done|]); (split; [done|]);
      (split; [by apply on_disk_other|]);
      (split; [apply on_disk_saved|by apply on_disk_other]).
Qed.

Lemma add_to_history_session_ok cmd st :
  session_ok st -> session_ok (snd (add_to_history cmd st)).
Proof.
  intros (Hh & Hnd & Hn & Ht & Hhi).
  destruct (data_paths_distinct) as (H1 & H2 & H3 & H4 & H5 & H6).
  unfold add_to_history. cbn [bind now gets modify ret].
  erewrite save_json_on_disk
    by (rewrite dirname_history_file; cbn [fs set_history set_clock];
        exact Hhi).
  unfold session_ok.
  cbn [snd set_fs set_history set_clock notes todos history fs].
  split; [apply last_n_length|]. split; [done|].
  split; [by apply on_disk_other|].
  split; [by apply on_disk_other|apply on_disk_saved].
Qed.

Lemma preserves_bind {A B} P (m : M A) (k : A -> M B) :
  preserves P m -> (forall a, preserves P (k a)) -> preserves P (bind m k).
Proof.
  intros Hm Hk st Hst. simpl. specialize (Hm st Hst).
  destruct (m st) as [[a|e] st']; simpl in *; [|done].
  by apply Hk.
Qed.

Lemma preserves_try {A} P (m : M A) c h :
  preserves P m -> (forall e, preserves P (h e)) ->
  preserves P (try_except m c h).
Proof.
  intros Hm Hh st Hst. simpl. specialize (Hm st Hst).
  destruct (m st) as [[a|e] st']; simpl in *; [done|].
  destruct (c e); [|done]. by apply Hh.
Qed.

Lemma preserves_ret {A} P (a : A) : preserves P (ret a).
Proof. by intros st. Qed.

Lemma session_ok_set_out g st : session_ok st -> session_ok (set_out g st).
Proof. by apply session_ok_same_data. Qed.

Lemma print_session_ok s : preserves session_ok (print s).
Proof. intros st. apply session_ok_set_out. Qed.

Lemma handler_session_ok name handler args :
  PyDict.get name commands = Some handler ->
  preserves session_ok (handler args).
Proof.
  intros Hget st Hok.
  destruct (String.eqb name "note") eqn:En.
  { apply String.eqb_eq in En. subst name. injection Hget as <-.
    by apply note_manager_session_ok. }
  destruct (String.eqb name "todo") eqn:Et.
  { apply String.eqb_eq in Et. subst name. injection Hget as <-.
    by apply todo_manager_session_ok. }
  apply String.eqb_neq in En, Et.
  apply (session_ok_same_data st); [|done].
  apply keeps_same_data; by apply (handlers_frame _) with (name := name).
Qed.

Lemma execute_command_session_ok cmd args :
  preserves session_ok (execute_command cmd args).
Proof.
  unfold execute_command.
  destruct (PyDict.get cmd commands) as [handler|] eqn:Hget.
  - apply preserves_bind.
    + intros st. apply add_to_history_session_ok.
    + intros _. by apply (handler_session_ok cmd).
  - apply preserves_bind; [apply print_session_ok|].
    intros _. apply print_session_ok.
Qed.

Lemma run_line_session_ok line : preserves session_ok (run_line line).
Proof.
  unfold run_line. cbv zeta.
  destruct (String.eqb (PyStr.strip line) ""); [apply preserves_ret|].
  destruct (parse_command (PyStr.strip line)) as [[cmd|] args];
    [|apply preserves_ret].
  destruct (String.eqb cmd ""); [apply preserves_ret|].
  apply execute_command_session_ok.
Qed.

Lemma run_loop_session_ok inputs : preserves session_ok (run_loop inputs).
Proof.
  induction inputs as [|ev inputs IH]; simpl run_loop.
  - apply preserves_bind; [|intros _; apply print_session_ok].
    intros st. apply session_ok_set_out.
  - apply preserves_bind; [intros st; apply session_ok_set_out|]. intros _.
    destruct ev as [line| |]; try apply print_session_ok.
    apply preserves_bind.
    + apply preserves_try.
      * apply preserves_bind; [apply run_line_session_ok|].
        intros _. apply preserves_ret.
      * intros _. apply preserves_bind; [apply print_session_ok|].
        intros _. apply preserves_ret.
    + intros [|]; [apply preserves_ret|apply IH].
Qed.

Lemma parse_args_session_ok argv : preserves session_ok (parse_args argv).
Proof.
  unfold parse_args. destruct (forallb _ argv); [apply preserves_ret|].
  apply preserves_bind; [|by intros _ st].
  induction (fst (host_parse_args argv)) as [|l ls IH]; simpl.
  - apply preserves_ret.
  - apply preserves_bind; [apply print_session_ok|]. by intros _.
Qed.

(** X13. The session invariant: through a whole run of [main], one
    command from the command line or an interactive session on any
    input, ended by [exit], by the end of input or by an interrupt,
    the history holds at most 100 entries, no title occurs twice and
    each of the three data files keeps mirroring its collection. *)
Theorem main_session_ok argv inputs st :
  session_ok st -> session_ok (snd (main argv inputs st)).
Proof.
  revert st. change (preserves session_ok (main argv inputs)).
  unfold main. apply preserves_bind; [apply parse_args_session_ok|].
  intros [|a0 command_args].
  - unfold run. apply preserves_bind; [apply print_session_ok|]. intros _.
    apply preserves_bind; [apply print_session_ok|]. intros _.
    apply run_loop_session_ok.
  - apply execute_command_session_ok.
Qed.

(** X14. Where the session invariant holds, the three loads of a
    restart return the collections as they are in memory; the state
    is not changed by loading. *)
Theorem session_restart st :
  session_ok st ->
  load_json notes_file (PDict []) st = (Ok (notes_py (notes st)), st)
  /\ load_json todos_file (PList []) st = (Ok (todos_py (todos st)), st)
  /\ load_json history_file (PList []) st = (Ok (history_py (history st)), st).
Proof.
  intros (Hh & Hnd & Hn & Ht & Hhi).
  assert (Hload : forall p X e,
            collection_wf X ->
            on_disk (fs st) data_dir p (collection_py X) e ->
            load_json p e st = (Ok (collection_py X), st)).
  { intros p X e HX [Hp|(Hp & _ & Hv)]; rewrite load_json_cases, Hp.
    - by rewrite json_load_dump by by apply collection_py_wf.
    - by rewrite Hv. }
  split; [|split].
  - by apply (Hload _ (Notes (notes st))).
  - by apply (Hload _ (Todos (todos st))).
  - by apply (Hload _ (History (history st))).
Qed.

(** *** Interactive shell *)

Lemma last_n_snoc {A} n (l : list A) x :
  last_n (S n) (l ++ [x]) = last_n n l ++ [x].
Proof.
  unfold last_n. rewrite length_app. simpl.
  replace (length l + 1 - S n)%nat with (length l - n)%nat by lia.
  rewrite drop_app_le by lia. done.
Qed.

(** The entry the dispatcher writes for a command of the registry is
    the last of the history when the handler is done. *)
Lemma execute_command_last cmd args st :
  is_Some (PyDict.get cmd commands) ->
  last (history (snd (execute_command cmd args st)))
  = Some (HistoryEntry (cmd +:+ " " +:+ PyStr.join " " args)
            (isoformat (clock st))).
Proof.
  intros [handler Hc]. unfold execute_command. rewrite Hc. simpl.
  destruct (add_to_history_run (cmd +:+ " " +:+ PyStr.join " " args) st)
    as (m & o & ->).
  rewrite (handlers_keep_history _ _ args Hc). simpl.
  by rewrite (last_n_snoc 99), last_snoc.
Qed.

(** X15. An interactive line is recorded in normal form: the command
    lowercased, then one space, then the arguments separated by single
    spaces, however the line was spaced and capitalised. *)
Theorem run_line_records line p parts st :
  PyStr.split line = p :: parts ->
  is_Some (PyDict.get (PyStr.lower p) commands) ->
  last (history (snd (run_line line st)))
  = Some (HistoryEntry (PyStr.lower p +:+ " " +:+ PyStr.join " " parts)
            (isoformat (clock st))).
Proof.
  intros Hs Hc. rewrite (run_line_dispatch line p parts Hs).
  by apply execute_command_last.
Qed.

(** X16. A line whose first token is [exit] or [quit], in any case,
    ends the session with [SystemExit(0)]: the command is recorded,
    "Goodbye!" is the last line printed, and the input after that
    line is never read. *)
Theorem run_loop_exit line p parts rest st :
  PyStr.split line = p :: parts ->
  PyStr.lower p = "exit" \/ PyStr.lower p = "quit" ->
  let st' := snd (run_loop (InLine line :: rest) st) in
  fst (run_loop (InLine line :: rest) st) = Raise (Exn SystemExit "0")
  /\ last (out st') = Some (Line "Goodbye!")
  /\ last (history st')
     = Some (HistoryEntry (PyStr.lower p +:+ " " +:+ PyStr.join " " parts)
               (isoformat (clock st)))
  /\ run_loop (InLine line :: rest) st = run_loop (InLine line :: []) st.
Proof.
  intros Hs Hp. cbn zeta. simpl run_loop. cbn [bind modify].
  rewrite (run_line_dispatch line p parts Hs).
  assert (Hex : execute_command (PyStr.lower p) parts
                = (add_to_history
                     (PyStr.lower p +:+ " " +:+ PyStr.join " " parts) ;;
                   exit_assistant parts)%py).
  { unfold execute_command. by destruct Hp as [-> | ->]. }
  rewrite Hex. cbn [bind try_except].
  match goal with
  | |- context [add_to_history ?c ?s] =>
      destruct (add_to_history_run c s) as (m & o & ->)
  end.
  remember (last_n 100 _) as h' eqn:Hh'. cbn. subst h'.
  cbn [history clock set_out].
  by rewrite (last_n_snoc 99), !last_snoc.
Qed.

(** X17. A line of white space only is skipped: the prompt is shown,
    nothing else happens, and the session goes on with the next
    input. *)
Theorem run_loop_blank line rest st :
  forallb PyStr.is_space (list_ascii_of_string line) = true ->
  run_loop (InLine line :: rest) st
  = run_loop rest (with_out st [Prompt (nl +:+ "> ")]).
Proof.
  intros Hb. simpl run_loop. cbn [bind modify].
  unfold run_line. rewrite (PyStrFacts.strip_blank line Hb).
  change (String.eqb "" "") with true. cbv iota.
  cbn [bind try_except ret]. reflexivity.
Qed.

(** X27. The interactive loop returns normally only by way of the
    end of input or an interrupt: whenever [run] returns, whatever the
    input was, the last line it printed is "Exiting...".  Every other
    way out is an exception, as the [SystemExit] of [exit]. *)
Theorem run_returns_after_exiting inputs st :
  fst (run inputs st) = Ok tt ->
  last (out (snd (run inputs st))) = Some (Line (nl +:+ "Exiting...")).
Proof.
  unfold run. cbn [bind print modify].
  generalize (set_out
                (fun o => o ++ [Line "Type 'help' for available commands or 'exit' to quit."])
                (set_out (fun o => o ++ [Line "Welcome to CLI Assistant!"]) st)).
  clear st. induction inputs as [|ev inputs IH]; intros st.
  - intros _. cbn. by rewrite last_snoc.
  - destruct ev as [line| |]; [|intros _; cbn; by rewrite last_snoc..].
    simpl run_loop. cbn [bind modify try_except ret].
    destruct (run_line line _) as [[[]|e] st2]; cbn [fst snd].
    + apply IH.
    + destruct (exn_class_of e); cbn; try done; intros _; by rewrite last_snoc.
Qed.

(** *** Calculator *)

(** X18. The calculator contains the failures of the evaluation: when
    [eval] raises an [Exception] on a whitelisted expression, as for a
    division by zero or a syntax error, the handler returns normally
    and prints "Error calculating: " with the message, and nothing
    else changes. *)
Theorem calculator_reports_errors args e st :
  args <> [] ->
  PyStr.all_in allowed_chars (PyStr.join " " args) = true ->
  eval_str (PyStr.join " " args) st = (Raise e, st) ->
  is_Exception (exn_class_of e) = true ->
  calculator args st
  = (Ok tt, with_out st [Line ("Error calculating: " +:+ exn_msg e)]).
Proof.
  intros Hargs Hall Hev He. unfold calculator.
  destruct args as [|a args]; [done|]. cbv zeta.
  rewrite Hall. cbn [negb bind try_except]. rewrite Hev. by rewrite He.
Qed.

(** *** Sub-commands *)

(** X19. A sub-command that the handler does not know is ignored
    without a word: [note], [todo] and [files] return normally, print
    nothing and change nothing.  That holds for [files find], which
    the usage line of [files] offers. *)
Theorem unknown_action_silent a rest st :
  (PyStr.lower a ∉ ["add"; "list"; "delete"; "search"] ->
   note_manager (a :: rest) st = (Ok tt, st))
  /\ (PyStr.lower a ∉ ["add"; "list"; "done"; "delete"] ->
      todo_manager (a :: rest) st = (Ok tt, st))
  /\ (PyStr.lower a ∉ ["ls"; "size"] ->
      file_operations (a :: rest) st = (Ok tt, st)).
Proof.
  split; [|split]; intros Ha.
  - unfold note_manager. cbv zeta.
    repeat match goal with
           | |- context [String.eqb (PyStr.lower a) ?x] =>
               destruct (String.eqb_spec (PyStr.lower a) x) as [E|_];
               [exfalso; apply Ha; rewrite E; set_solver|]
           end.
    done.
  - unfold todo_manager. cbv zeta.
    repeat match goal with
           | |- context [String.eqb (PyStr.lower a) ?x] =>
               destruct (String.eqb_spec (PyStr.lower a) x) as [E|_];
               [exfalso; apply Ha; rewrite E; set_solver|]
           end.
    done.
  - unfold file_operations. cbv zeta.
    repeat match goal with
           | |- context [String.eqb (PyStr.lower a) ?x] =>
               destruct (String.eqb_spec (PyStr.lower a) x) as [E|_];
               [exfalso; apply Ha; rewrite E; set_solver|]
           end.
    done.
Qed.

(** *** History *)

(** X20. Run through the dispatcher, [history] always has something
    to show: the last line it prints is the entry of this very
    command, numbered 10 or one more than the entries there were
    before, so "No command history" cannot be the answer. *)
Theorem history_shows_itself args st :
  let e := HistoryEntry ("history " +:+ PyStr.join " " args)
             (isoformat (clock st)) in
  let st' := snd (execute_command "history" args st) in
  fst (execute_command "history" args st) = Ok tt
  /\ last (out st') = Some (history_line (Nat.min 9 (length (history st))) e).
Proof.
  cbn zeta. unfold execute_command.
  change (PyDict.get "history" commands) with (Some show_history).
  cbn [bind]. unfold add_to_history.
  cbn [bind now gets modify ret].
  match goal with
  | |- context [save_json ?p ?v ?s] =>
      destruct (save_json_returns p v s) as (m & o & ->)
  end.
  unfold show_history. cbn [bind gets history set_history set_clock].
  rewrite (last_n_snoc 99).
  destruct (last_n 99 (history st) ++ [_]) as [|e0 h0] eqn:Hh.
  { by apply app_eq_nil in Hh as [_ ?]. }
  rewrite <- Hh. clear Hh e0 h0.
  cbn [print modify bind]. rewrite for_each_print.
  unfold enumerate1. rewrite map_imap.
  cbn [fst snd with_out set_out out].
  rewrite (last_n_snoc 9), imap_app. cbn [imap].
  split; [done|].
  rewrite !app_assoc, last_snoc. unfold history_line. cbn [command stamp].
  do 3 f_equal. unfold last_n. rewrite !length_drop, Nat.add_0_r.
  f_equal. lia.
Qed.

(** *** Words and lines *)

Lemma list_ascii_inj s t :
  list_ascii_of_string s = list_ascii_of_string t -> s = t.
Proof.
  intros H. apply (f_equal string_of_list_ascii) in H.
  by rewrite !string_of_list_ascii_of_string in H.
Qed.

Lemma splits_word t s ts :
  is_word t ->
  match s with c :: _ => PyStr.is_space c = true | [] => True end ->
  PyStr.splits s ts ->
  PyStr.splits (list_ascii_of_string t ++ s) (list_ascii_of_string t :: ts).
Proof.
  intros [Hne Hsp] Hs Hts. apply PyStr.splits_token; try done.
  intros H. apply Hne. apply list_ascii_inj. by rewrite H.
Qed.

Lemma splits_join l :
  Forall is_word l ->
  PyStr.splits (list_ascii_of_string (PyStr.join " " l))
    (map list_ascii_of_string l).
Proof.
  induction 1 as [|t l Ht Hl IH]; [constructor|].
  destruct l as [|t' l].
  - simpl.
    pose proof (splits_word t [] [] Ht I PyStr.splits_end) as Hs.
    by rewrite app_nil_r in Hs.
  - change (PyStr.join " " (t :: t' :: l))
      with (t +:+ " " +:+ PyStr.join " " (t' :: l)).
    rewrite !list_ascii_append.
    apply splits_word; [done|done|]. by apply PyStr.splits_space.
Qed.

Lemma split_of_splits s l :
  PyStr.splits (list_ascii_of_string s) (map list_ascii_of_string l) ->
  PyStr.split s = l.
Proof.
  intros Hs. pose proof (split_splits s) as Hs'.
  pose proof (PyStrFacts.splits_unique _ _ _ Hs' Hs) as Heq.
  clear Hs Hs'. revert Heq. generalize (PyStr.split s). intros l'. revert l.
  induction l' as [|x l' IH]; intros [|y l] Heq; simplify_eq/=; [done|].
  f_equal; [by apply list_ascii_inj|by apply IH].
Qed.

Lemma is_space_lower_char c :
  PyStr.is_space (PyStr.lower_char c) = PyStr.is_space c.
Proof. by destruct c as [[] [] [] [] [] [] [] []]. Qed.

Lemma lower_char_idem c :
  PyStr.lower_char (PyStr.lower_char c) = PyStr.lower_char c.
Proof. by destruct c as [[] [] [] [] [] [] [] []]. Qed.

Lemma lower_idem s : PyStr.lower (PyStr.lower s) = PyStr.lower s.
Proof.
  induction s as [|c s IH]; simpl; [done|]. by rewrite lower_char_idem, IH.
Qed.

Lemma is_word_lower t : is_word t -> is_word (PyStr.lower t).
Proof.
  intros [Hne Hsp]. split; [by apply lower_nonempty|].
  clear Hne. induction t as [|c t IH]; simpl in *; [done|].
  apply andb_true_iff in Hsp as [Hc Ht].
  by rewrite is_space_lower_char, Hc, IH.
Qed.

(** X21. Splitting undoes joining: words that are not empty and hold
    no white space, joined by single spaces, split back into the same
    words.  So a command line whose words, besides, do not begin with
    '-' does what the same words typed at the prompt do: argparse
    hands such words over as they are. *)
Theorem one_shot_matches_prompt p parts inputs :
  Forall is_word (p :: parts) ->
  Forall (fun w => option_like w = false) (p :: parts) ->
  PyStr.split (PyStr.join " " (p :: parts)) = p :: parts
  /\ parse_args (p :: parts) = ret (p :: parts)
  /\ run_line (PyStr.join " " (p :: parts)) = main (p :: parts) inputs.
Proof.
  intros Hw Ho.
  assert (Hs : PyStr.split (PyStr.join " " (p :: parts)) = p :: parts)
    by by apply split_of_splits, splits_join.
  assert (Hp : parse_args (p :: parts) = ret (p :: parts)).
  { unfold parse_args.
    assert (Hf : forallb (fun w => negb (option_like w)) (p :: parts) = true).
    { apply forallb_forall. intros w Hin.
      apply (proj1 (List.Forall_forall _ _) Ho) in Hin. by rewrite Hin. }
    by rewrite Hf. }
  split; [done|]. split; [done|].
  rewrite (run_line_dispatch _ p parts Hs). unfold main. by rewrite Hp.
Qed.

(** X22. A history entry can be replayed: the text recorded for an
    interactive line parses back into the command and the arguments
    that were dispatched, and so it is recorded again as itself. *)
Theorem history_entry_replays line p parts :
  PyStr.split line = p :: parts ->
  let recorded := PyStr.lower p +:+ " " +:+ PyStr.join " " parts in
  parse_command recorded = (Some (PyStr.lower p), parts)
  /\ run_line recorded = run_line line.
Proof.
  intros Hs recorded.
  pose proof (split_tokens line) as Hw. rewrite Hs in Hw.
  apply Forall_cons in Hw as [Hp Hparts].
  assert (Hr : PyStr.split recorded = PyStr.lower p :: parts).
  { apply split_of_splits. subst recorded. rewrite !list_ascii_append.
    apply splits_word; [by apply is_word_lower|done|].
    apply PyStr.splits_space; [done|]. by apply splits_join. }
  split.
  - by rewrite parse_command_split, Hr, lower_idem.
  - rewrite (run_line_dispatch _ _ _ Hr), (run_line_dispatch _ _ _ Hs).
    by rewrite lower_idem.
Qed.

(** *** Sizes in words *)

Lemma round_half_even_near num den :
  0 < den -> 2 * Z.abs (num - round_half_even num den * den) <= den.
Proof.
  intros Hd. unfold round_half_even.
  pose proof (Z.div_mod num den ltac:(lia)) as Hdm.
  pose proof (Z.mod_pos_bound num den Hd) as Hm.
  destruct (Z.ltb_spec (2 * (num mod den)) den);
    [|destruct (Z.ltb_spec den (2 * (num mod den)));
      [|destruct (Z.even (num / den))]]; cbv zeta; nia.
Qed.

Lemma format_1f_spec n d :
  0 < d -> d <= n ->
  exists t,
    format_1f n d = PyStr.of_Z (t / 10) +:+ "." +:+ PyStr.of_Z (t mod 10)
    /\ 2 * Z.abs (10 * n - t * d) <= d
    /\ 10 <= t
    /\ (n < 1024 * d -> t <= 10240).
Proof.
  intros Hd Hn. exists (round_half_even (10 * n) d).
  pose proof (round_half_even_near (10 * n) d Hd) as Hnear.
  split; [done|]. split; [done|]. split; nia.
Qed.

Lemma string_app_assoc a b c : (a +:+ b) +:+ c = a +:+ b +:+ c.
Proof.
  induction a as [|x a IH]; [done|].
  change (String x ((a +:+ b) +:+ c) = String x (a +:+ b +:+ c)).
  by rewrite IH.
Qed.

(** X23. A size below 1024 is shown in bytes, as it is, with ".0". *)
Theorem format_bytes_small n :
  0 <= n < 1024 ->
  format_bytes n = PyStr.of_Z n +:+ ".0 B".
Proof.
  intros Hn. unfold format_bytes, format_bytes_loop.
  destruct (Z.ltb_spec n (1024 * 1)); [|lia].
  unfold format_1f, round_half_even.
  rewrite Z.div_1_r, Z.mod_1_r.
  change (2 * 0 <? 1) with true. cbv iota.
  rewrite (Z.mul_comm 10 n), Z.div_mul, Z.mod_mul by lia.
  by rewrite string_app_assoc.
Qed.

(** X24. From 1024 bytes on, the size is shown in the largest unit
    that does not exceed it, terabytes at most: [1024^i <= n] and,
    below terabytes, [n < 1024^(i+1)] give the [i]-th unit, and the
    number shown is [n / 1024^i] to the nearest tenth.  It lies
    between 1.0 and 1024.0, the latter included. *)
Theorem format_bytes_scaled n i unit :
  0 <= n < 2 ^ 53 ->
  ["B"; "KB"; "MB"; "GB"; "TB"] !! i = Some unit ->
  1024 ^ Z.of_nat i <= n ->
  ((i < 4)%nat -> n < 1024 ^ Z.of_nat (S i)) ->
  exists t,
    format_bytes n
    = (PyStr.of_Z (t / 10) +:+ "." +:+ PyStr.of_Z (t mod 10)) +:+ " " +:+ unit
    /\ 2 * Z.abs (10 * n - t * 1024 ^ Z.of_nat i) <= 1024 ^ Z.of_nat i
    /\ 10 <= t
    /\ ((i < 4)%nat -> t <= 10240).
Proof.
  intros Hn Hu Hlo Hhi.
  assert (E1 : 1024 ^ Z.of_nat 1 = 1024) by reflexivity.
  assert (E2 : 1024 ^ Z.of_nat 2 = 1024 * 1024) by reflexivity.
  assert (E3 : 1024 ^ Z.of_nat 3 = 1024 * (1024 * 1024)) by reflexivity.
  assert (E4 : 1024 ^ Z.of_nat 4 = 1024 * (1024 * (1024 * 1024)))
    by reflexivity.
  change (1024 ^ Z.of_nat 0) with 1 in *.
  unfold format_bytes, format_bytes_loop.
  destruct i as [|[|[|[|[|i]]]]]; simplify_eq/=.
  - specialize (Hhi ltac:(lia)). rewrite E1 in Hhi.
    destruct (Z.ltb_spec n (1024 * 1)); [|lia].
    destruct (format_1f_spec n 1) as (t & -> & Ht1 & Ht2 & Ht3); [lia..|].
    exists t. repeat split; try done. intros _. apply Ht3. lia.
  - specialize (Hhi ltac:(lia)). rewrite ?E1, ?E2 in *.
    destruct (Z.ltb_spec n (1024 * 1)); [lia|].
    destruct (Z.ltb_spec n (1024 * (1024 * 1))); [|lia].
    destruct (format_1f_spec n (1024 * 1)) as (t & -> & Ht1 & Ht2 & Ht3);
      [lia..|].
    exists t. rewrite Z.mul_1_r in *. repeat split; try done.
    intros _. apply Ht3. lia.
  - specialize (Hhi ltac:(lia)). rewrite ?E2, ?E3 in *.
    destruct (Z.ltb_spec n (1024 * 1)); [lia|].
    destruct (Z.ltb_spec n (1024 * (1024 * 1))); [lia|].
    destruct (Z.ltb_spec n (1024 * (1024 * (1024 * 1)))); [|lia].
    destruct (format_1f_spec n (1024 * (1024 * 1)))
      as (t & -> & Ht1 & Ht2 & Ht3); [lia..|].
    exists t. rewrite Z.mul_1_r in *. repeat split; try done.
    intros _. apply Ht3. lia.
  - specialize (Hhi ltac:(lia)). rewrite ?E3, ?E4 in *.
    destruct (Z.ltb_spec n (1024 * 1)); [lia|].
    destruct (Z.ltb_spec n (1024 * (1024 * 1))); [lia|].
    destruct (Z.ltb_spec n (1024 * (1024 * (1024 * 1)))); [lia|].
    destruct (Z.ltb_spec n (1024 * (1024 * (1024 * (1024 * 1))))); [|lia].
    destruct (format_1f_spec n (1024 * (1024 * (1024 * 1))))
      as (t & -> & Ht1 & Ht2 & Ht3); [lia..|].
    exists t. rewrite Z.mul_1_r in *. repeat split; try done.
    intros _. apply Ht3. lia.
  - clear Hhi. rewrite ?E4 in *.
    destruct (Z.ltb_spec n (1024 * 1)); [lia|].
    destruct (Z.ltb_spec n (1024 * (1024 * 1))); [lia|].
    destruct (Z.ltb_spec n (1024 * (1024 * (1024 * 1)))); [lia|].
    destruct (Z.ltb_spec n (1024 * (1024 * (1024 * (1024 * 1))))); [lia|].
    destruct (format_1f_spec n (1024 * (1024 * (1024 * (1024 * 1)))))
      as (t & -> & Ht1 & Ht2 & Ht3); [lia..|].
    exists t. rewrite Z.mul_1_r in *. repeat split; try done. lia.
Qed.

(** *** Failures of the store *)

Lemma save_json_denied p v st :
  can_write (fs st) p = false ->
  exists msg,
    save_json p v st
    = (Ok tt, with_out st [Line ("Error saving data: " +:+ msg)]).
Proof.
  unfold can_write, save_json, open_write, file_write.
  cbn [bind try_except gets modify].
  destruct st as [ns ts h m c o]; cbn [fs].
  destruct (m !! p) as [[w|r w ct]|] eqn:Hp.
  - intros _. cbn. eauto.
  - intros ->. cbn. eauto.
  - destruct (m !! dirname p) as [[[]|? ? ?]|] eqn:Hd; [done|..]; intros _;
      cbn; rewrite Hd; cbn; eauto.
Qed.

(** X25. When the todos file cannot be written, [todo add] still
    adds the task in memory and still reports "Todo added": the
    failure shows only as the line "Error saving data: ..." printed
    before it, and the files stay as they were. *)
Theorem todo_add_unsaved a t ts st :
  PyStr.lower a = "add" ->
  can_write (fs st) todos_file = false ->
  let task := PyStr.join " " (t :: ts) in
  let st' := snd (todo_manager (a :: t :: ts) st) in
  fst (todo_manager (a :: t :: ts) st) = Ok tt
  /\ todos st' = todos st ++ [Todo task false (isoformat (clock st))]
  /\ fs st' = fs st
  /\ exists msg,
       out st' = out st ++ [Line ("Error saving data: " +:+ msg);
                            Line ("Todo added: " +:+ task)].
Proof.
  intros Ha Hw. cbn zeta. rewrite (todo_add_eq a t ts st Ha). cbn zeta.
  match goal with
  | |- context [save_json ?p ?v ?s] =>
      destruct (save_json_denied p v s Hw) as (msg & ->)
  end.
  cbn [fst snd with_out set_out set_todos set_clock todos fs out].
  split; [done|]. split; [done|]. split; [done|].
  exists msg. by rewrite <- app_assoc.
Qed.

(** X26. [load_json] only reads: whether it returns or raises, the
    state is the one it started from.  A path that is missing, a
    directory, a file closed to reading and a text that is no JSON
    all give the default. *)
Theorem load_json_reads p default st :
  snd (load_json p default st) = st
  /\ (match fs st !! p with
      | Some (File true _ (Text s)) => json_load s = None
      | Some (File true _ Garbled) => False
      | _ => True
      end ->
      load_json p default st = (Ok default, st)).
Proof.
  rewrite load_json_cases.
  destruct (fs st !! p) as [[w|[] w [s|]]|]; try done.
  split; [by destruct (json_load s)|]. by intros ->.
Qed.

End Coverage.

(** * Worked examples

    From here on the codec is the reference codec and the host is the
    sample host. *)

#[export] Existing Instance ref_codec.
#[export] Existing Instance sample_host.

(** ** The claims on the examples *)

(** [calc 1 / 0] fails in its handler and is recorded all the same;
    [frobnicate] resolves to no handler and is only reported. *)
Lemma execute_command_records_witness :
  history (snd (execute_command "calc" ["1"; "/"; "0"] st0))
  = last_n 100
      (history st0
       ++ [HistoryEntry ("calc" +:+ " " +:+ PyStr.join " " ["1"; "/"; "0"])
             (isoformat (clock st0))])
  /\ execute_command "frobnicate" ["now"] st0
     = (Ok tt,
        with_out st0 [Line ("Unknown command: " +:+ "frobnicate");
                      Line "Type 'help' for available commands"]).
Proof.
  split.
  - apply (proj1 (execute_command_records "calc" ["1"; "/"; "0"] st0)).
    eexists. reflexivity.
  - apply (proj2 (execute_command_records "frobnicate" ["now"] st0)).
    reflexivity.
Defined.

(** C1 as stated fails: dispatching the unknown command [frobnicate now]
    records nothing. *)
Lemma unknown_command_not_recorded :
  ~ exists ts,
      In (HistoryEntry "frobnicate now" ts)
         (history (snd (execute_command "frobnicate" ["now"] st0))).
Proof. intros [ts Hin]. vm_compute in Hin. exact Hin. Qed.

(** A full history loses its oldest entry, [date], to the new one. *)
Lemma add_to_history_bounded_witness :
  length (history st_full) = 100%nat
  /\ history (snd (add_to_history "help " st_full))
     = drop 1 (history st_full)
       ++ [HistoryEntry "help " (isoformat (clock st_full))].
Proof.
  split; [reflexivity|].
  apply (add_to_history_bounded "help " st_full). reflexivity.
Defined.

Lemma todo_out_of_range_witness :
  todo_manager ["done"; "4"] st_todos
  = (Ok tt, with_out st_todos [Line "Invalid task number"])
  /\ todo_manager ["DELETE"; " +0 "] st_todos
     = (Ok tt, with_out st_todos [Line "Invalid task number"]).
Proof.
  split.
  - apply (todo_out_of_range "done" "4" [] 4 st_todos);
      [left; reflexivity | left; reflexivity | right; vm_compute; reflexivity].
  - apply (todo_out_of_range "DELETE" " +0 " [] 0 st_todos);
      [right; reflexivity | right; reflexivity | left; lia].
Defined.

(** [int] rejects a word, and a numeral that follows the separator
    U+001F, which [str.strip] would drop. *)
Lemma todo_not_a_number_witness :
  todo_manager ["done"; "two"] st_todos
  = (Ok tt, with_out st_todos [Line "Task number must be a number"])
  /\ todo_manager ["delete"; String "031" "3"] st_todos
     = (Ok tt, with_out st_todos [Line "Task number must be a number"]).
Proof.
  split.
  - apply (todo_not_a_number "done" "two" [] st_todos);
      [left; reflexivity | reflexivity].
  - apply (todo_not_a_number "delete" (String "031" "3") [] st_todos);
      [right; reflexivity | reflexivity].
Defined.

Lemma calculator_whitelist_witness :
  calculator ["DROP"; "TABLE"] st0
  = (Ok tt, with_out st0 [Line "Error: Only basic math operations allowed"]).
Proof.
  apply (proj2 calculator_whitelist ["DROP"; "TABLE"] "D"%char st0).
  - left. reflexivity.
  - reflexivity.
Defined.

Lemma note_add_last_wins_witness :
  PyDict.get "Title"
    (notes (snd (note_add_all
                   [("Title", ["hello"; "world"]); ("Other", ["x"]);
                    ("Title", ["bye"])] st0)))
  = Some (Note (PyStr.join " " ["bye"]) (isoformat (clock st0 + 2)%nat)).
Proof.
  assert (Hkeys : NoDup (PyDict.keys (notes st0))) by apply NoDup_nil_2.
  assert (Hops : Forall (fun op : string * list string => snd op <> [])
                   [("Title", ["hello"; "world"]); ("Other", ["x"]);
                    ("Title", ["bye"])])
    by (repeat constructor; discriminate).
  destruct (note_add_last_wins _ st0 Hkeys Hops) as (_ & _ & _ & _ & Hlast).
  apply (Hlast [("Title", ["hello"; "world"]); ("Other", ["x"])]
           "Title" ["bye"] []).
  - reflexivity.
  - apply not_elem_of_nil.
Defined.

Lemma parse_command_tokens_witness :
  parse_command "  NOTE  Add  Title hello "
  = (Some "note", ["Add"; "Title"; "hello"])
  /\ parse_command "   " = (None, [])
  /\ forall st, run_line "   " st = (Ok tt, st).
Proof.
  split.
  - destruct (parse_command_tokens "  NOTE  Add  Title hello ") as (H & _).
    exact H.
  - apply (parse_command_tokens "   "). reflexivity.
Defined.

Lemma save_load_roundtrip_witness :
  let X := Todos (todos st_todos) in
  let st1 := snd (save_json todos_file (collection_py X) st_todos) in
  fst (save_json todos_file (collection_py X) st_todos) = Ok tt
  /\ load_json todos_file PNone st1 = (Ok (collection_py X), st1).
Proof.
  apply (save_load_roundtrip todos_file (Todos (todos st_todos)) PNone st_todos).
  - vm_compute. reflexivity.
  - exact I.
Defined.

(** C3 as stated fails: the write to a read-only file is reported and
    dropped, and the load returns the old content. *)
Lemma save_load_read_only :
  let X := Todos (todos st_todos) in
  let st1 := snd (save_json todos_file (collection_py X) st_read_only) in
  load_json todos_file PNone st1 = (Ok (PList []), st1)
  /\ PList [] <> collection_py X.
Proof. split; [vm_compute; reflexivity | discriminate]. Qed.

(** C4 fails on a file that is no text: the decoding error is neither
    [JSONDecodeError] nor [IOError] and escapes. *)
Theorem load_json_garbled_raises :
  load_json history_file (PList []) st_garbled
  = (Raise (Exn UnicodeDecodeError "invalid start byte"), st_garbled).
Proof. vm_compute. reflexivity. Qed.

(** ** Handlers, store and shell on the examples *)

Lemma todo_add_all_order_witness :
  todos (snd (todo_add_all [["buy"; "milk"]; ["call"; "Ada"]] st0))
  = todos st0
    ++ imap (fun i op =>
               Todo (PyStr.join " " op) false (isoformat (clock st0 + i)))
         [["buy"; "milk"]; ["call"; "Ada"]].
Proof.
  assert (Hops : Forall (fun op : list string => op <> [])
                   [["buy"; "milk"]; ["call"; "Ada"]])
    by (repeat constructor; discriminate).
  destruct (todo_add_all_order _ st0 Hops) as (_ & H & _). exact H.
Defined.

Lemma todo_list_lines_witness :
  todo_manager ["LIST"] st_todos
  = (Ok tt,
     with_out st_todos
       [Line ("1. " +:+ circle_mark +:+ " buy milk");
        Line ("2. " +:+ check_mark +:+ " call Ada");
        Line ("3. " +:+ circle_mark +:+ " write report")]).
Proof. apply (todo_list_lines "LIST" [] st_todos). reflexivity. Defined.

Lemma todo_done_marks_witness :
  todos (snd (todo_manager ["done"; "1"] st_todos)) !! 0%nat
  = Some (Todo "buy milk" true "2024-04-30T09:00:00").
Proof.
  destruct (todo_done_marks "done" "1" [] 1 st_todos)
    as (_ & _ & (t & Ht & Ht' & _) & _).
  - reflexivity.
  - reflexivity.
  - simpl. lia.
  - simpl in Ht. injection Ht as <-. exact Ht'.
Defined.

Lemma todo_delete_removes_witness :
  todos (snd (todo_manager ["delete"; "2"] st_todos))
  = [Todo "buy milk" false "2024-04-30T09:00:00";
     Todo "write report" false "2024-04-30T09:10:00"].
Proof.
  destruct (todo_delete_removes "delete" "2" [] 2 st_todos) as (_ & H & _).
  - reflexivity.
  - reflexivity.
  - simpl. lia.
  - exact H.
Defined.

Lemma todo_add_delete_roundtrip_witness :
  todos (snd (todo_manager ["delete"; "4"]
                (snd (todo_manager ["add"; "water"; "plants"] st_todos))))
  = todos st_todos.
Proof.
  apply (todo_add_delete_roundtrip "water" ["plants"] "4" [] st_todos).
  reflexivity.
Defined.

Lemma note_delete_removes_witness :
  PyDict.get "Ideas" (notes (snd (note_manager ["delete"; "Ideas"] st_notes)))
  = None
  /\ PyDict.get "Groceries"
       (notes (snd (note_manager ["delete"; "Ideas"] st_notes)))
     = PyDict.get "Groceries" (notes st_notes).
Proof.
  assert (Hnd : NoDup (PyDict.keys (notes st_notes)))
    by (apply (bool_decide_unpack _); reflexivity).
  destruct (note_delete_removes "delete" "Ideas" [] st_notes eq_refl Hnd)
    as (_ & H1 & H2 & _).
  split; [exact H1|]. apply H2. discriminate.
Defined.

Lemma note_add_delete_roundtrip_witness :
  notes (snd (note_manager ["delete"; "Plan"]
                (snd (note_manager ["add"; "Plan"; "ship"; "it"] st_notes))))
  = notes st_notes.
Proof.
  apply (note_add_delete_roundtrip "Plan" "ship" ["it"] [] st_notes).
  apply (bool_decide_unpack _). reflexivity.
Defined.

Lemma note_list_lines_witness :
  note_manager ["list"] st_notes
  = (Ok tt,
     with_out st_notes
       [Line (nl +:+ "Groceries:"); Line "  Milk and eggs";
        Line "  Created: 2024-04-30T09:00:00";
        Line (nl +:+ "Ideas:"); Line "  Try the MILK tart";
        Line "  Created: 2024-04-30T09:05:00"]).
Proof. apply (note_list_lines "list" [] st_notes). reflexivity. Defined.

(** The keyword and the notes are compared in lower case. *)
Lemma note_search_lines_witness :
  note_manager ["search"; "Milk"] st_notes
  = (Ok tt,
     with_out st_notes
       [Line (nl +:+ "Groceries:"); Line "  Milk and eggs";
        Line (nl +:+ "Ideas:"); Line "  Try the MILK tart"]).
Proof. apply (note_search_lines "search" "Milk" [] st_notes). reflexivity. Defined.

Lemma execute_command_frame_witness :
  notes (snd (execute_command "todo" ["add"; "x"] st_notes)) = notes st_notes
  /\ fs (snd (execute_command "todo" ["add"; "x"] st_notes)) !! notes_file
     = fs st_notes !! notes_file.
Proof.
  destruct (execute_command_frame "todo" ["add"; "x"] st_notes) as (H1 & _ & H3).
  split.
  - apply H1. discriminate.
  - apply H3; [discriminate|left; discriminate|right; discriminate].
Defined.

Lemma session_ok_st0 : session_ok st0.
Proof.
  split; [simpl; lia|]. split; [apply NoDup_nil_2|].
  split; [|split]; right; repeat split; reflexivity.
Qed.

Lemma main_session_ok_witness :
  session_ok
    (snd (main [] [InLine "note add Plan ship it"; InLine "todo add x";
                   InLine "exit"; InLine "never read"] st0)).
Proof. apply main_session_ok. exact session_ok_st0. Defined.

(** After a session that added a note and a task, the three files
    are there and a restart reads back the note, the task and the two
    history entries. *)
Lemma session_restart_witness :
  let st := snd (run_loop [InLine "note add Plan ship it";
                           InLine "todo add buy milk"] st0) in
  (notes st = [("Plan", Note "ship it" (isoformat 1))]
   /\ todos st = [Todo "buy milk" false (isoformat 3)]
   /\ map command (history st) = ["note add Plan ship it"; "todo add buy milk"]
   /\ map (fun p => bool_decide (is_Some (fs st !! p)))
        [notes_file; todos_file; history_file] = [true; true; true])
  /\ load_json notes_file (PDict []) st = (Ok (notes_py (notes st)), st)
  /\ load_json todos_file (PList []) st = (Ok (todos_py (todos st)), st)
  /\ load_json history_file (PList []) st = (Ok (history_py (history st)), st).
Proof.
  intros st. split.
  - vm_compute. repeat split.
  - apply (session_restart st).
    apply (run_loop_session_ok _ st0 session_ok_st0).
Defined.

Lemma run_line_records_witness :
  last (history (snd (run_line "  TODO   add  buy   milk " st0)))
  = Some (HistoryEntry "todo add buy milk" (isoformat 0)).
Proof.
  apply (run_line_records "  TODO   add  buy   milk " "TODO"
           ["add"; "buy"; "milk"] st0).
  - reflexivity.
  - eexists. reflexivity.
Defined.

Lemma run_loop_exit_witness :
  fst (run_loop [InLine "Quit now"; InLine "todo add x"] st0)
  = Raise (Exn SystemExit "0")
  /\ run_loop [InLine "Quit now"; InLine "todo add x"] st0
     = run_loop [InLine "Quit now"] st0.
Proof.
  destruct (run_loop_exit "Quit now" "Quit" ["now"] [InLine "todo add x"] st0)
    as (H1 & _ & _ & H4).
  - reflexivity.
  - right. reflexivity.
  - split; [exact H1|exact H4].
Defined.

Lemma run_loop_blank_witness :
  run_loop [InLine "   "; InEOF] st0
  = run_loop [InEOF] (with_out st0 [Prompt (nl +:+ "> ")]).
Proof. apply (run_loop_blank "   " [InEOF] st0). reflexivity. Defined.

Lemma run_returns_after_exiting_witness :
  last (out (snd (run [InLine "help"; InLine "  "; InEOF; InLine "date"] st0)))
  = Some (Line (nl +:+ "Exiting...")).
Proof. apply run_returns_after_exiting. reflexivity. Defined.

Lemma calculator_reports_errors_witness :
  calculator ["2"; "+"] st0
  = (Ok tt, with_out st0 [Line "Error calculating: invalid syntax"]).
Proof.
  apply (calculator_reports_errors ["2"; "+"]
           (Exn OtherException "invalid syntax") st0).
  - discriminate.
  - reflexivity.
  - reflexivity.
  - reflexivity.
Defined.

Lemma unknown_action_silent_witness :
  file_operations ["find"; "/srv"] st0 = (Ok tt, st0).
Proof.
  destruct (unknown_action_silent "find" ["/srv"] st0) as (_ & _ & H).
  apply H. apply (bool_decide_unpack _). reflexivity.
Defined.

Lemma one_shot_matches_prompt_witness :
  run_line (PyStr.join " " ["todo"; "add"; "x"])
  = main ["todo"; "add"; "x"] [].
Proof.
  destruct (one_shot_matches_prompt "todo" ["add"; "x"] []) as (_ & _ & H).
  - repeat constructor; discriminate.
  - repeat constructor.
  - exact H.
Defined.

Lemma history_entry_replays_witness :
  parse_command (PyStr.lower "TODO" +:+ " " +:+ PyStr.join " " ["add"; "x"])
  = (Some (PyStr.lower "TODO"), ["add"; "x"]).
Proof.
  destruct (history_entry_replays "  TODO add   x" "TODO" ["add"; "x"])
    as [H _].
  - reflexivity.
  - exact H.
Defined.

Lemma format_bytes_small_witness : format_bytes 512 = "512.0 B".
Proof. apply (format_bytes_small 512). lia. Defined.

(** One byte short of a megabyte reads as 1024.0 KB. *)
Lemma format_bytes_scaled_witness :
  exists t,
    format_bytes 1048575
    = (PyStr.of_Z (t / 10) +:+ "." +:+ PyStr.of_Z (t mod 10)) +:+ " " +:+ "KB"
    /\ 2 * Z.abs (10 * 1048575 - t * 1024 ^ Z.of_nat 1) <= 1024 ^ Z.of_nat 1
    /\ 10 <= t
    /\ ((1 < 4)%nat -> t <= 10240).
Proof.
  apply (format_bytes_scaled 1048575 1 "KB").
  - split; [lia|reflexivity].
  - reflexivity.
  - simpl. lia.
  - intros _. simpl. lia.
Defined.

Lemma todo_add_unsaved_witness :
  todos (snd (todo_manager ["add"; "x"] st_read_only))
  = todos st_read_only ++ [Todo "x" false (isoformat (clock st_read_only))]
  /\ fs (snd (todo_manager ["add"; "x"] st_read_only)) = fs st_read_only.
Proof.
  destruct (todo_add_unsaved "add" "x" [] st_read_only) as (_ & H1 & H2 & _).
  - reflexivity.
  - reflexivity.
  - split; [exact H1|exact H2].
Defined.

Lemma load_json_reads_witness :
  load_json notes_file (PDict []) st0 = (Ok (PDict []), st0).
Proof.
  destruct (load_json_reads notes_file (PDict []) st0) as [_ H].
  apply H. exact I.
Defined.

(** ** Scenarios *)

Example parse_command_example :
  parse_command "  NOTE  Add  Title hello " = (Some "note", ["Add"; "Title"; "hello"]).
Proof. reflexivity. Qed.

Example int_examples :
  PyStr.to_Z " 1_000 " = Some 1000 /\ PyStr.to_Z "-7" = Some (-7)
  /\ PyStr.to_Z "007" = Some 7 /\ PyStr.to_Z "1__0" = None
  /\ PyStr.to_Z "" = None /\ PyStr.to_Z "4.0" = None
  /\ PyStr.to_Z (String "009" "3") = Some 3
  /\ PyStr.to_Z (String "031" "3") = None
  /\ PyStr.to_Z ("3" +:+ String "028" "") = None
  /\ PyStr.strip (String "031" "3") = "3".
Proof. vm_compute. repeat split. Qed.

Example eval_examples :
  Arith.eval_int "(2 + 3) * -4 - 7 - 1" = Some (-28)
  /\ Arith.eval_int "2 ** 3" = None /\ Arith.eval_int "7 / 2" = None
  /\ Arith.eval_int "012" = None /\ Arith.eval_int "2(3)" = None.
Proof. vm_compute. repeat split. Qed.

Example search_many :
  out (snd (search_files ["app"] st0))
  = Line "Found 25 matches:"
    :: map (fun m => Line ("  " +:+ m)) (take 20 sample_tree)
    ++ [Line "  ... and 5 more"].
Proof. vm_compute. reflexivity. Qed.

Example search_denied :
  search_files ["app"; "/root"] st0
  = (Ok tt, with_out st0 [Line "Permission denied: /root"]).
Proof. vm_compute. reflexivity. Qed.

Example calc_line :
  out (snd (run_line "calc 2 + 3 * 4" st0)) = [Line "2 + 3 * 4 = 14"].
Proof. vm_compute. reflexivity. Qed.

Example note_scenario :
  out (snd ((run_line "note add Title hello world" ;; run_line "NOTE list") st0))
  = [Line "Note 'Title' added successfully";
     Line (nl +:+ "Title:");
     Line "  hello world";
     Line "  Created: 2024-05-01T12:00:00"].
Proof. vm_compute. reflexivity. Qed.

Example todo_scenario :
  let st := snd ((run_line "todo add buy milk" ;; run_line "todo add call Ada" ;;
                  run_line "todo done 2" ;; run_line "todo delete 1") st0) in
  todos st = [Todo "call Ada" true "2024-05-01T12:00:00.000003"]
  /\ RefJson.load
       (match fs st !! "/home/user/.cli_assistant/todos.json" with
        | Some (File _ _ (Text s)) => s
        | _ => ""
        end)
     = Some (todos_py (todos st))
  /\ map command (history st)
     = ["todo add buy milk"; "todo add call Ada"; "todo done 2"; "todo delete 1"].
Proof. vm_compute. repeat split. Qed.

(** A data file that holds text which is not JSON gives the default. *)
Example load_json_malformed :
  load_json todos_file (PList [])
    (set_fs (insert "/home/user/.cli_assistant/todos.json"
               (File true true (Text "[1, 2"))) st0)
  = (Ok (PList []),
     set_fs (insert "/home/user/.cli_assistant/todos.json"
               (File true true (Text "[1, 2"))) st0).
Proof. vm_compute. reflexivity. Qed.

(** On the sample host [--help] ends [main] before any command runs,
    and a [--] among the words is dropped. *)
Example main_options :
  fst (main ["--help"] [] st0) = Raise (Exn SystemExit "0")
  /\ history (snd (main ["--help"] [] st0)) = []
  /\ map command (history (snd (main ["todo"; "add"; "--"; "x"] [] st0)))
     = ["todo add x"].
Proof. vm_compute. repeat split. Qed.

(** The shell stops at [exit], which leaves through [SystemExit]. *)
Example run_exit :
  let r := run [InLine "time"; InLine ""; InLine "exit"; InLine "date"] st0 in
  fst r = Raise (Exn SystemExit "0")
  /\ map command (history (snd r)) = ["time "; "exit "].
Proof. vm_compute. repeat split. Qed.
